(** * USD viewers: triangulation, primitive tessellation and orbit camera

    A shallow embedding of the geometric core of the three viewers in
    [usd_viewer/]: [usd_basic_viewer.py], [usd_hydra_viewer.py] and
    [usd_hydra_viewer_pyqt6.py].

    Number model.  Python floats are idealised as real numbers ([R]); Python
    integers (face counts, vertex indices) are [Z].  Sequences are lists and
    indexing follows Python: a negative index counts from the end and an index
    outside [-len, len) raises [IndexError], modelled by [None].

    Drawing model.  A render method is a function from the viewer state and
    the prim to the sequence of OpenGL calls it issues, in order. *)

From Stdlib Require Import Reals Lra Lia ZArith List Bool.
Import ListNotations.

Open Scope R_scope.

(** ** Python built-ins used by the viewers *)

Module Py.

(** [max(a, b)]: the first argument is kept unless a later one is strictly
    greater. *)
Definition max2 (a b : R) : R := if Rlt_dec a b then b else a.

(** [min(a, b)]: the first argument is kept unless a later one is strictly
    smaller. *)
Definition min2 (a b : R) : R := if Rlt_dec b a then b else a.

(** [max(a, b, c)]. *)
Definition max3 (a b c : R) : R := max2 (max2 a b) c.

(** [x or d] on an attribute value: [None] and [0.0] are falsy. *)
Definition or_default (x : option R) (d : R) : R :=
  match x with
  | Some v => if Req_dec_T v 0 then d else v
  | None => d
  end.

(** [seq[i]] with Python's treatment of negative and out-of-range indices. *)
Definition getitem {A : Type} (l : list A) (i : Z) : option A :=
  let n := Z.of_nat (length l) in
  if (0 <=? i)%Z then nth_error l (Z.to_nat i)
  else if (- n <=? i)%Z then nth_error l (Z.to_nat (n + i))
  else None.

(** [range(lo, hi)] as a list of integers. *)
Definition range (lo hi : Z) : list Z :=
  map (fun k => (lo + Z.of_nat k)%Z) (seq 0 (Z.to_nat (hi - lo))).

(** Truth value of a sequence returned by [attr.Get()]: [None] and the empty
    sequence are falsy. *)
Definition truthy {A : Type} (x : option (list A)) : bool :=
  match x with
  | Some (_ :: _) => true
  | _ => false
  end.

End Py.

(** ** Vectors *)

Definition Vec3 : Type := (R * R * R)%type.

Definition vx (v : Vec3) : R := fst (fst v).
Definition vy (v : Vec3) : R := snd (fst v).
Definition vz (v : Vec3) : R := snd v.

Definition vsub (a b : Vec3) : Vec3 := (vx a - vx b, vy a - vy b, vz a - vz b).

Definition cross (a b : Vec3) : Vec3 :=
  (vy a * vz b - vz a * vy b,
   vz a * vx b - vx a * vz b,
   vx a * vy b - vy a * vx b).

(** [sum(x*x for x in n)] *)
Definition sum_sq (n : Vec3) : R := 0 + vx n * vx n + vy n * vy n + vz n * vz n.

(** Euclidean length, [math.sqrt(sum(x*x for x in n))] and [np.linalg.norm]. *)
Definition norm (n : Vec3) : R := sqrt (sum_sq n).

Definition vdiv (n : Vec3) (l : R) : Vec3 := (vx n / l, vy n / l, vz n / l).

Definition up_vector : Vec3 := (0, 1, 0).

(** ** Orbit cameras *)

(** [usd_basic_viewer.py], class [Camera]. *)
Module BasicCamera.

Record Camera : Type := mkCamera {
  distance : R;
  azimuth : R;
  elevation : R;
  target : Vec3
}.

Definition init : Camera := mkCamera 5.0 45.0 30.0 (0, 0, 0).

Definition rotate (self : Camera) (dx dy : R) : Camera :=
  let azimuth1 := azimuth self - dx * 0.5 in
  let elevation1 := elevation self + dy * 0.5 in
  let elevation2 := Py.max2 (-89) (Py.min2 89 elevation1) in
  mkCamera (distance self) azimuth1 elevation2 (target self).

Definition zoom (self : Camera) (delta : R) : Camera :=
  let distance1 := distance self * (1.0 - delta * 0.1) in
  let distance2 := Py.max2 0.1 (Py.min2 100.0 distance1) in
  mkCamera distance2 (azimuth self) (elevation self) (target self).

End BasicCamera.

(** [usd_hydra_viewer_pyqt6.py], class [Camera]. *)
Module PyQt6Camera.

Record Camera : Type := mkCamera {
  distance : R;
  azimuth : R;
  elevation : R;
  target : Vec3;
  fov : R;
  near : R;
  far : R
}.

Definition init : Camera := mkCamera 10.0 45.0 30.0 (0, 0, 0) 45.0 0.1 10000.0.

Definition rotate (self : Camera) (dx dy : R) : Camera :=
  let azimuth1 := azimuth self - dx * 0.3 in
  let elevation1 := elevation self + dy * 0.3 in
  let elevation2 := Py.max2 (-89) (Py.min2 89 elevation1) in
  mkCamera (distance self) azimuth1 elevation2 (target self)
           (fov self) (near self) (far self).

Definition zoom (self : Camera) (delta : R) : Camera :=
  let distance1 := distance self * (1.0 - delta * 0.1) in
  let distance2 := Py.max2 0.01 (Py.min2 10000 distance1) in
  mkCamera distance2 (azimuth self) (elevation self) (target self)
           (fov self) (near self) (far self).

Definition frame_bounds (self : Camera) (bbox_min bbox_max : Vec3) : Camera :=
  let target1 :=
    ((vx bbox_min + vx bbox_max) / 2,
     (vy bbox_min + vy bbox_max) / 2,
     (vz bbox_min + vz bbox_max) / 2) in
  let size :=
    Py.max3 (vx bbox_max - vx bbox_min)
            (vy bbox_max - vy bbox_min)
            (vz bbox_max - vz bbox_min) in
  let distance1 := if Rlt_dec 0 size then size * 2.0 else 10.0 in
  mkCamera distance1 (azimuth self) (elevation self) target1
           (fov self) (near self) (far self).

End PyQt6Camera.

(** [usd_hydra_viewer.py], class [Camera].  The target is stored as a
    [Gf.Vec3d] when the USD bindings are present and as a list otherwise; both
    hold the same three components, so one [Vec3] field stands for either. *)
Module HydraCamera.

Record Camera : Type := mkCamera {
  distance : R;
  azimuth : R;
  elevation : R;
  target : Vec3;
  fov : R;
  near : R;
  far : R
}.

Definition init : Camera := mkCamera 10.0 45.0 30.0 (0, 0, 0) 45.0 0.1 10000.0.

Definition rotate (self : Camera) (dx dy : R) : Camera :=
  let azimuth1 := azimuth self - dx * 0.3 in
  let elevation1 := elevation self + dy * 0.3 in
  let elevation2 := Py.max2 (-89) (Py.min2 89 elevation1) in
  mkCamera (distance self) azimuth1 elevation2 (target self)
           (fov self) (near self) (far self).

Definition frame_bounds (USD_HYDRA_AVAILABLE : bool) (self : Camera)
    (bbox_min bbox_max : Vec3) : Camera :=
  let center :=
    ((vx bbox_min + vx bbox_max) / 2,
     (vy bbox_min + vy bbox_max) / 2,
     (vz bbox_min + vz bbox_max) / 2) in
  let size :=
    Py.max3 (vx bbox_max - vx bbox_min)
            (vy bbox_max - vy bbox_min)
            (vz bbox_max - vz bbox_min) in
  let target1 := if USD_HYDRA_AVAILABLE then center else center in
  let distance1 := if Rlt_dec 0 size then size * 2.0 else 10.0 in
  mkCamera distance1 (azimuth self) (elevation self) target1
           (fov self) (near self) (far self).

End HydraCamera.

(** A sequence of mouse drags [(dx, dy)], each handled by [rotate]. *)
Definition drag {C : Type} (rotate : C -> R -> R -> C) (cam : C)
    (moves : list (R * R)) : C :=
  fold_left (fun c m => rotate c (fst m) (snd m)) moves cam.

(** [n] calls of [rotate(dx, dy)] in a row. *)
Fixpoint repeat_rotate {C : Type} (rotate : C -> R -> R -> C) (dx dy : R)
    (n : nat) (cam : C) : C :=
  match n with
  | O => cam
  | S n' => repeat_rotate rotate dx dy n' (rotate cam dx dy)
  end.

(** ** The scene source and the draw surface *)

(** A time coordinate: [Usd.TimeCode.Default()] or [Usd.TimeCode(t)]. *)
Inductive TimeCode : Type :=
| Default
| At (t : R).

(** A 4x4 matrix, by row and column. *)
Definition Matrix4 : Type := nat -> nat -> R.

(** [np.eye(4)] *)
Definition eye4 : Matrix4 := fun i j => if Nat.eqb i j then 1 else 0.

(** [m.T] *)
Definition transpose (m : Matrix4) : Matrix4 := fun i j => m j i.

(** [m.flatten()] and [list(m.GetArray())]: the 16 entries, row by row. *)
Definition flatten (m : Matrix4) : list R :=
  flat_map (fun i => map (fun j => m i j) (seq 0 4)) (seq 0 4).

Inductive PrimType : Type :=
| Xform | Mesh | Cube | Sphere | Cylinder | Cone | Capsule | Light | Other.

(** What the viewers read from a prim.  An attribute's [Get()] yields [None]
    when the attribute holds no value. *)
Record Prim : Type := mkPrim {
  prim_type : PrimType;
  points : TimeCode -> option (list Vec3);
  faceVertexIndices : option (list Z);
  faceVertexCounts : option (list Z);
  size : option R;
  radius : option R;
  height : option R;
  displayColor : option (list Vec3);
  localToWorld : TimeCode -> Matrix4
}.

Inductive GLenum : Type :=
| GL_TRIANGLES | GL_QUADS | GL_QUAD_STRIP | GL_TRIANGLE_FAN
| GL_FRONT_AND_BACK | GL_LINE | GL_FILL | GL_POINT
| GL_LIGHTING | GL_COLOR_MATERIAL | GL_AMBIENT_AND_DIFFUSE.

(** The OpenGL calls issued by the render methods. *)
Inductive GLCall : Type :=
| glPushMatrix
| glPopMatrix
| glMultMatrixf (m : list R)
| glMultMatrixd (m : list R)
| glColor3f (r g b : R)
| glPolygonMode (face mode : GLenum)
| glPointSize (s : R)
| glEnable (cap : GLenum)
| glDisable (cap : GLenum)
| glColorMaterial (face mode : GLenum)
| glBegin (mode : GLenum)
| glEnd
| glNormal3f (x y z : R)
| glVertex3f (x y z : R).

(** The calls that take a whole vector: [glNormal3fv(n)], [glVertex3fv(v)],
    and [glNormal3f], [glVertex3f], [glColor3f] applied to an unpacked
    sequence. *)
Definition glNormal3fv (n : Vec3) : GLCall := glNormal3f (vx n) (vy n) (vz n).
Definition glVertex3fv (v : Vec3) : GLCall := glVertex3f (vx v) (vy v) (vz v).
Definition glColor3fv (c : Vec3) : GLCall := glColor3f (vx c) (vy c) (vz c).

(** The calls that carry geometry: primitive brackets, normals, vertices. *)
Definition is_geometry (c : GLCall) : bool :=
  match c with
  | glBegin _ | glEnd | glNormal3f _ _ _ | glVertex3f _ _ _ => true
  | _ => false
  end.

Definition geometry (calls : list GLCall) : list GLCall :=
  filter is_geometry calls.

(** The colours set by a call sequence, in order. *)
Definition colors_of (calls : list GLCall) : list Vec3 :=
  flat_map (fun c => match c with glColor3f r g b => [(r, g, b)] | _ => [] end)
           calls.

(** Sequencing of computations that may raise [IndexError]. *)
Definition bind {A B : Type} (x : option A) (f : A -> option B) : option B :=
  match x with
  | Some a => f a
  | None => None
  end.

Notation "x <- e ;; k" := (bind e (fun x => k))
  (at level 61, e at next level, right associativity).

(** ** [usd_basic_viewer.py]: class [Mesh] and mesh extraction *)

Module BasicViewer.

Record MeshData : Type := mkMesh {
  vertices : list Vec3;
  normals : list Vec3;
  faces : list (list Z);
  color : Vec3;
  transform : Matrix4
}.

(** [Mesh.__init__] *)
Definition Mesh_init : MeshData :=
  mkMesh [] [] [] (0.7, 0.7, 0.8) eye4.

(** The normal computed for one face in [compute_normals]. *)
Definition face_normal (verts : list Vec3) (face : list Z) : option Vec3 :=
  i0 <- Py.getitem face 0 ;;
  i1 <- Py.getitem face 1 ;;
  i2 <- Py.getitem face 2 ;;
  v0 <- Py.getitem verts i0 ;;
  v1 <- Py.getitem verts i1 ;;
  v2 <- Py.getitem verts i2 ;;
  let edge1 := vsub v1 v0 in
  let edge2 := vsub v2 v0 in
  let normal := cross edge1 edge2 in
  let length := norm normal in
  Some (if Rlt_dec 0 length then vdiv normal length else up_vector).

(** The loop of [compute_normals] over [self.faces]. *)
Fixpoint normals_loop (verts : list Vec3) (fs : list (list Z))
    : option (list Vec3) :=
  match fs with
  | [] => Some []
  | face :: rest =>
      if (3 <=? length face)%nat then
        n <- face_normal verts face ;;
        ns <- normals_loop verts rest ;;
        Some (n :: ns)
      else normals_loop verts rest
  end.

Definition compute_normals (self : MeshData) : option MeshData :=
  ns <- normals_loop (vertices self) (faces self) ;;
  Some (mkMesh (vertices self) ns (faces self) (color self) (transform self)).

(** The vertex calls for [face[:3]] in [render]. *)
Fixpoint render_face (verts : list Vec3) (idxs : list Z)
    : option (list GLCall) :=
  match idxs with
  | [] => Some []
  | vertex_idx :: rest =>
      if (vertex_idx <? Z.of_nat (length verts))%Z then
        v <- Py.getitem verts vertex_idx ;;
        cs <- render_face verts rest ;;
        Some (glVertex3fv v :: cs)
      else render_face verts rest
  end.

(** The loop [for i, face in enumerate(self.faces)] in [render]. *)
Fixpoint render_faces (self : MeshData) (i : nat) (fs : list (list Z))
    : option (list GLCall) :=
  match fs with
  | [] => Some []
  | face :: rest =>
      let ncall :=
        if (i <? length (normals self))%nat
        then match nth_error (normals self) i with
             | Some n => [glNormal3fv n]
             | None => []
             end
        else [] in
      vs <- render_face (vertices self) (firstn 3 face) ;;
      cs <- render_faces self (S i) rest ;;
      Some (ncall ++ vs ++ cs)
  end.

Definition render (self : MeshData) (wireframe : bool)
    : option (list GLCall) :=
  body <- render_faces self 0 (faces self) ;;
  Some ([glPushMatrix; glMultMatrixf (flatten (transpose (transform self)))]
        ++ (if wireframe
            then [glPolygonMode GL_FRONT_AND_BACK GL_LINE;
                  glColor3f 0.2 0.2 0.2]
            else [glPolygonMode GL_FRONT_AND_BACK GL_FILL;
                  glColor3fv (color self)])
        ++ [glBegin GL_TRIANGLES] ++ body ++ [glEnd]
        ++ [glPolygonMode GL_FRONT_AND_BACK GL_FILL; glPopMatrix]).

(** [create_sample_cube] *)
Definition sample_cube_vertices : list Vec3 :=
  [(-0.5, -0.5, -0.5); (0.5, -0.5, -0.5);
   (0.5, 0.5, -0.5); (-0.5, 0.5, -0.5);
   (-0.5, -0.5, 0.5); (0.5, -0.5, 0.5);
   (0.5, 0.5, 0.5); (-0.5, 0.5, 0.5)].

Definition sample_cube_faces : list (list Z) :=
  [[0; 1; 2]; [0; 2; 3];
   [4; 6; 5]; [4; 7; 6];
   [0; 4; 5]; [0; 5; 1];
   [2; 6; 7]; [2; 7; 3];
   [0; 3; 7]; [0; 7; 4];
   [1; 5; 6]; [1; 6; 2]]%Z.

Definition create_sample_cube : option MeshData :=
  compute_normals
    (mkMesh sample_cube_vertices [] sample_cube_faces (0.3, 0.6, 0.9) eye4).

(** The inner loop of [extract_mesh_from_prim] that collects one face:
    [for _ in range(count): if idx < len(indices): face.append(indices[idx]);
    idx += 1].  The guard keeps [idx] inside [indices]. *)
Fixpoint collect_face (n : nat) (indices : list Z) (idx : Z) (face : list Z)
    : list Z * Z :=
  match n with
  | O => (face, idx)
  | S n' =>
      if (idx <? Z.of_nat (length indices))%Z
      then collect_face n' indices (idx + 1)%Z
                        (face ++ [nth (Z.to_nat idx) indices 0%Z])
      else collect_face n' indices idx face
  end.

(** Fan triangulation of one collected face. *)
Definition fan (face : list Z) : list (list Z) :=
  if (3 <=? length face)%nat then
    map (fun i => [nth 0 face 0%Z;
                   nth (Z.to_nat i) face 0%Z;
                   nth (Z.to_nat (i + 1)) face 0%Z])
        (Py.range 1 (Z.of_nat (length face) - 1))
  else [].

(** The loop [for count in counts] of [extract_mesh_from_prim]; the result is
    what it appends to [mesh.faces]. *)
Fixpoint extract_faces (counts : list Z) (indices : list Z) (idx : Z)
    : list (list Z) :=
  match counts with
  | [] => []
  | count :: rest =>
      let '(face, idx') := collect_face (Z.to_nat count) indices idx [] in
      fan face ++ extract_faces rest indices idx'
  end.

Definition extract_mesh_from_prim (prim : Prim) : option MeshData :=
  let verts :=
    match points prim Default with
    | Some (p :: ps) => p :: ps
    | _ => []
    end in
  let fs :=
    match faceVertexIndices prim, faceVertexCounts prim with
    | Some indices, Some counts =>
        if Py.truthy (Some indices) && Py.truthy (Some counts)
        then extract_faces counts indices 0
        else []
    | _, _ => []
    end in
  let col :=
    match displayColor prim with
    | Some (c :: _) => c
    | _ => color Mesh_init
    end in
  compute_normals (mkMesh verts [] fs col
                          (transpose (localToWorld prim Default))).

End BasicViewer.

(** ** Fan triangulation in the two Qt viewers

    [HydraViewport.render_mesh_simple] and [GLViewport.render_mesh] run the
    same two nested loops over [counts] and differ only in how the normal of a
    triangle is derived, so the loops take that as [normal_of]. *)

Record Triangle : Type := mkTriangle {
  tri_normal : Vec3;
  tri_v0 : Vec3;
  tri_v1 : Vec3;
  tri_v2 : Vec3
}.

(** The calls issued for one triangle: its normal, then its three corners. *)
Definition tri_calls (t : Triangle) : list GLCall :=
  [glNormal3fv (tri_normal t);
   glVertex3fv (tri_v0 t); glVertex3fv (tri_v1 t); glVertex3fv (tri_v2 t)].

Section FanLoops.

Variable normal_of : Vec3 -> Vec3 -> Vec3 -> Vec3.
Variable pts : list Vec3.
Variable indices : list Z.

(** [for i in range(1, count - 1)]: [v1 = points[indices[idx + i]]],
    [v2 = points[indices[idx + i + 1]]]. *)
Fixpoint fan_loop (idx : Z) (v0 : Vec3) (steps : list Z)
    : option (list Triangle) :=
  match steps with
  | [] => Some []
  | i :: rest =>
      i1 <- Py.getitem indices (idx + i)%Z ;;
      v1 <- Py.getitem pts i1 ;;
      i2 <- Py.getitem indices (idx + i + 1)%Z ;;
      v2 <- Py.getitem pts i2 ;;
      ts <- fan_loop idx v0 rest ;;
      Some (mkTriangle (normal_of v0 v1 v2) v0 v1 v2 :: ts)
  end.

(** [for count in counts: if count >= 3: ...; idx += count] *)
Fixpoint faces_loop (idx : Z) (counts : list Z) : option (list Triangle) :=
  match counts with
  | [] => Some []
  | count :: rest =>
      ts <- (if (3 <=? count)%Z then
               i0 <- Py.getitem indices idx ;;
               v0 <- Py.getitem pts i0 ;;
               fan_loop idx v0 (Py.range 1 (count - 1))
             else Some []) ;;
      ts' <- faces_loop (idx + count)%Z rest ;;
      Some (ts ++ ts')
  end.

End FanLoops.

Inductive DrawMode : Type :=
| shaded
| wireframe
| points_mode.

(** ** [usd_hydra_viewer.py]: class [HydraViewport] *)

Module HydraViewer.

Record HydraViewport : Type := mkViewport {
  time_code : R;
  draw_mode : DrawMode;
  enable_lighting : bool
}.

(** The normal of one triangle in [render_mesh_simple]: the cross product is
    divided by its length when that is positive and is left as it is
    otherwise. *)
Definition face_normal (v0 v1 v2 : Vec3) : Vec3 :=
  let e1 := vsub v1 v0 in
  let e2 := vsub v2 v0 in
  let n := cross e1 e2 in
  let length := norm n in
  if Rlt_dec 0 length then vdiv n length else n.

Definition render_mesh_simple (self : HydraViewport) (prim : Prim)
    : option (list GLCall) :=
  let points := points prim (At (time_code self)) in
  let indices := faceVertexIndices prim in
  let counts := faceVertexCounts prim in
  match points, indices, counts with
  | Some (p :: ps), Some (i :: irest), Some (c :: crest) =>
      let world_xform := localToWorld prim (At (time_code self)) in
      let color_call :=
        match displayColor prim with
        | Some (col :: _) => glColor3f (vx col) (vy col) (vz col)
        | _ => glColor3f 0.7 0.7 0.8
        end in
      tris <- faces_loop face_normal (p :: ps) (i :: irest) 0 (c :: crest) ;;
      Some ([glPushMatrix; glMultMatrixd (flatten world_xform); color_call]
            ++ [glBegin GL_TRIANGLES] ++ flat_map tri_calls tris ++ [glEnd]
            ++ [glPopMatrix])
  | _, _, _ => Some []
  end.

(** The loop [for prim in self.stage.Traverse()] of [render_fallback]. *)
Fixpoint render_prims (self : HydraViewport) (stage : list Prim)
    : option (list GLCall) :=
  match stage with
  | [] => Some []
  | prim :: rest =>
      cs <- (match prim_type prim with
             | Mesh => render_mesh_simple self prim
             | _ => Some []
             end) ;;
      cs' <- render_prims self rest ;;
      Some (cs ++ cs')
  end.

Definition render_fallback (self : HydraViewport) (stage : list Prim)
    : option (list GLCall) :=
  cs <- render_prims self stage ;;
  Some ([glEnable GL_LIGHTING; glEnable GL_COLOR_MATERIAL;
         glColorMaterial GL_FRONT_AND_BACK GL_AMBIENT_AND_DIFFUSE] ++ cs).

End HydraViewer.

(** ** [usd_hydra_viewer_pyqt6.py]: class [GLViewport] *)

Module PyQt6Viewer.

Record GLViewport : Type := mkViewport {
  time_code : R;
  draw_mode : DrawMode;
  show_grid : bool;
  show_axes : bool;
  enable_lighting : bool
}.

Definition apply_transform (self : GLViewport) (prim : Prim) : list GLCall :=
  let world_xform := localToWorld prim (At (time_code self)) in
  [glMultMatrixd (flatten world_xform)].

(** The default value of [get_display_color]'s parameter [default]. *)
Definition default_color : Vec3 := (0.7, 0.7, 0.8).

Definition get_display_color (prim : Prim) (default : Vec3) : Vec3 :=
  match displayColor prim with
  | Some (c :: _) => (vx c, vy c, vz c)
  | _ => default
  end.

(** The normal of one triangle in [render_mesh]. *)
Definition face_normal (v0 v1 v2 : Vec3) : Vec3 :=
  let e1 := vsub v1 v0 in
  let e2 := vsub v2 v0 in
  let n := cross e1 e2 in
  let length := norm n in
  if Rlt_dec 0 length then vdiv n length else (0, 1, 0).

Definition render_mesh (self : GLViewport) (prim : Prim)
    : option (list GLCall) :=
  let points := points prim (At (time_code self)) in
  let indices := faceVertexIndices prim in
  let counts := faceVertexCounts prim in
  match points, indices, counts with
  | Some (p :: ps), Some (i :: irest), Some (c :: crest) =>
      let color := get_display_color prim default_color in
      tris <- faces_loop face_normal (p :: ps) (i :: irest) 0 (c :: crest) ;;
      Some ([glPushMatrix] ++ apply_transform self prim
            ++ [glColor3fv color]
            ++ match draw_mode self with
               | wireframe => [glPolygonMode GL_FRONT_AND_BACK GL_LINE]
               | points_mode => [glPolygonMode GL_FRONT_AND_BACK GL_POINT;
                                 glPointSize 3]
               | shaded => []
               end
            ++ [glBegin GL_TRIANGLES] ++ flat_map tri_calls tris ++ [glEnd]
            ++ [glPolygonMode GL_FRONT_AND_BACK GL_FILL; glPopMatrix])
  | _, _, _ => Some []
  end.

(** *** Cube *)

Definition cube_vertices (half : R) : list Vec3 :=
  [(- half, - half, - half); (half, - half, - half);
   (half, half, - half); (- half, half, - half);
   (- half, - half, half); (half, - half, half);
   (half, half, half); (- half, half, half)].

(** The six faces: four corner indices and the face normal. *)
Definition cube_faces : list (list nat * Vec3) :=
  [([0; 1; 2; 3]%nat, (0, 0, -1));
   ([4; 7; 6; 5]%nat, (0, 0, 1));
   ([0; 3; 7; 4]%nat, (-1, 0, 0));
   ([1; 5; 6; 2]%nat, (1, 0, 0));
   ([0; 4; 5; 1]%nat, (0, -1, 0));
   ([3; 2; 6; 7]%nat, (0, 1, 0))].

(** [glNormal3f] of the face, then [glVertex3f] of [vertices[f[i]]] for
    [i] in [range(4)]; the indices of [cube_faces] are all below 8. *)
Definition cube_face_calls (verts : list Vec3) (f : list nat * Vec3)
    : list GLCall :=
  glNormal3fv (snd f)
  :: map (fun k => glVertex3fv (nth k verts (0, 0, 0))) (fst f).

Definition render_cube (self : GLViewport) (prim : Prim) : list GLCall :=
  let size := Py.or_default (size prim) 1.0 in
  let color := get_display_color prim (0.3, 0.5, 0.8) in
  let half := size / 2 in
  let verts := cube_vertices half in
  [glPushMatrix] ++ apply_transform self prim
  ++ [glColor3fv color]
  ++ [glBegin GL_QUADS]
  ++ flat_map (cube_face_calls verts) cube_faces
  ++ [glEnd]
  ++ [glPopMatrix].

(** *** Sphere *)

(** One latitude band [i] of [render_sphere], a quad strip. *)
Definition sphere_band (radius : R) (slices stacks i : Z) : list GLCall :=
  let lat0 := PI * (-0.5 + IZR i / IZR stacks) in
  let z0 := radius * sin lat0 in
  let zr0 := radius * cos lat0 in
  let lat1 := PI * (-0.5 + IZR (i + 1) / IZR stacks) in
  let z1 := radius * sin lat1 in
  let zr1 := radius * cos lat1 in
  [glBegin GL_QUAD_STRIP]
  ++ flat_map (fun j =>
       let lng := 2 * PI * IZR j / IZR slices in
       let x := cos lng in
       let y := sin lng in
       [glNormal3f (x * zr0 / radius) (y * zr0 / radius) (z0 / radius);
        glVertex3f (x * zr0) (y * zr0) z0;
        glNormal3f (x * zr1 / radius) (y * zr1 / radius) (z1 / radius);
        glVertex3f (x * zr1) (y * zr1) z1])
     (Py.range 0 (slices + 1))
  ++ [glEnd].

Definition render_sphere (self : GLViewport) (prim : Prim) : list GLCall :=
  let radius := Py.or_default (radius prim) 1.0 in
  let color := get_display_color prim (0.8, 0.3, 0.3) in
  let slices := 24%Z in
  let stacks := 16%Z in
  [glPushMatrix] ++ apply_transform self prim
  ++ [glColor3fv color]
  ++ flat_map (sphere_band radius slices stacks) (Py.range 0 stacks)
  ++ [glPopMatrix].

(** *** Cylinder *)

(** The side wall shared in text by [render_cylinder] and
    [render_capsule]: a quad strip with normal [(x, 0, z)]. *)
Definition wall_calls (radius half_h : R) (slices : Z) : list GLCall :=
  [glBegin GL_QUAD_STRIP]
  ++ flat_map (fun i =>
       let angle := 2 * PI * IZR i / IZR slices in
       let x := cos angle in
       let z := sin angle in
       [glNormal3f x 0 z;
        glVertex3f (x * radius) (- half_h) (z * radius);
        glVertex3f (x * radius) half_h (z * radius)])
     (Py.range 0 (slices + 1))
  ++ [glEnd].

(** Top cap of the cylinder: a fan around [(0, half_h, 0)]. *)
Definition top_cap_calls (radius half_h : R) (slices : Z) : list GLCall :=
  [glBegin GL_TRIANGLE_FAN; glNormal3f 0 1 0; glVertex3f 0 half_h 0]
  ++ map (fun i =>
       let angle := 2 * PI * IZR i / IZR slices in
       glVertex3f (radius * cos angle) half_h (radius * sin angle))
     (Py.range 0 (slices + 1))
  ++ [glEnd].

(** Bottom cap, [for i in range(slices, -1, -1)]; the same text closes
    [render_cylinder] and [render_cone]. *)
Definition bottom_cap_calls (radius half_h : R) (slices : Z) : list GLCall :=
  [glBegin GL_TRIANGLE_FAN; glNormal3f 0 (-1) 0; glVertex3f 0 (- half_h) 0]
  ++ map (fun i =>
       let angle := 2 * PI * IZR i / IZR slices in
       glVertex3f (radius * cos angle) (- half_h) (radius * sin angle))
     (rev (Py.range 0 (slices + 1)))
  ++ [glEnd].

Definition render_cylinder (self : GLViewport) (prim : Prim) : list GLCall :=
  let radius := Py.or_default (radius prim) 1.0 in
  let height := Py.or_default (height prim) 2.0 in
  let color := get_display_color prim (0.3, 0.7, 0.3) in
  let slices := 24%Z in
  let half_h := height / 2 in
  [glPushMatrix] ++ apply_transform self prim
  ++ [glColor3fv color]
  ++ wall_calls radius half_h slices
  ++ top_cap_calls radius half_h slices
  ++ bottom_cap_calls radius half_h slices
  ++ [glPopMatrix].

(** *** Cone *)

(** The side of the cone: a fan from the apex [(0, half_h, 0)] over the base
    ring, each ring vertex preceded by [glNormal3f(x, radius / height, z)]. *)
Definition cone_side_calls (radius height half_h : R) (slices : Z)
    : list GLCall :=
  [glBegin GL_TRIANGLE_FAN; glVertex3f 0 half_h 0]
  ++ flat_map (fun i =>
       let angle := 2 * PI * IZR i / IZR slices in
       let x := cos angle in
       let z := sin angle in
       [glNormal3f x (radius / height) z;
        glVertex3f (x * radius) (- half_h) (z * radius)])
     (Py.range 0 (slices + 1))
  ++ [glEnd].

Definition render_cone (self : GLViewport) (prim : Prim) : list GLCall :=
  let radius := Py.or_default (radius prim) 1.0 in
  let height := Py.or_default (height prim) 2.0 in
  let color := get_display_color prim (0.9, 0.7, 0.2) in
  let slices := 24%Z in
  let half_h := height / 2 in
  [glPushMatrix] ++ apply_transform self prim
  ++ [glColor3fv color]
  ++ cone_side_calls radius height half_h slices
  ++ bottom_cap_calls radius half_h slices
  ++ [glPopMatrix].

(** *** Capsule *)

(** One latitude band of one hemisphere of [render_capsule]. *)
Definition hemisphere_band (radius half_h : R) (slices : Z) (sign : R)
    (lat_i : Z) : list GLCall :=
  let lat0 := (PI / 2) * IZR lat_i / 8 in
  let lat1 := (PI / 2) * IZR (lat_i + 1) / 8 in
  let y0 := sign * (half_h + radius * sin lat0) in
  let r0 := radius * cos lat0 in
  let y1 := sign * (half_h + radius * sin lat1) in
  let r1 := radius * cos lat1 in
  [glBegin GL_QUAD_STRIP]
  ++ flat_map (fun j =>
       let angle := 2 * PI * IZR j / IZR slices in
       let x := cos angle in
       let z := sin angle in
       [glNormal3f (x * r0 / radius) (sign * sin lat0) (z * r0 / radius);
        glVertex3f (x * r0) y0 (z * r0);
        glNormal3f (x * r1 / radius) (sign * sin lat1) (z * r1 / radius);
        glVertex3f (x * r1) y1 (z * r1)])
     (Py.range 0 (slices + 1))
  ++ [glEnd].

Definition render_capsule (self : GLViewport) (prim : Prim) : list GLCall :=
  let radius := Py.or_default (radius prim) 0.5 in
  let height := Py.or_default (height prim) 2.0 in
  let color := get_display_color prim (0.8, 0.5, 0.2) in
  let slices := 24%Z in
  let half_h := height / 2 in
  [glPushMatrix] ++ apply_transform self prim
  ++ [glColor3fv color]
  ++ wall_calls radius half_h slices
  ++ flat_map (fun sign =>
       flat_map (hemisphere_band radius half_h slices sign) (Py.range 0 8))
     [1; -1]
  ++ [glPopMatrix].

(** *** Dispatch *)

(** The [if prim.IsA(...) / elif] chain of [render_fallback] for one prim. *)
Definition render_prim (self : GLViewport) (prim : Prim)
    : option (list GLCall) :=
  match prim_type prim with
  | Mesh => render_mesh self prim
  | Cube => Some (render_cube self prim)
  | Sphere => Some (render_sphere self prim)
  | Cylinder => Some (render_cylinder self prim)
  | Cone => Some (render_cone self prim)
  | Capsule => Some (render_capsule self prim)
  | _ => Some []
  end.

Fixpoint render_prims (self : GLViewport) (stage : list Prim)
    : option (list GLCall) :=
  match stage with
  | [] => Some []
  | prim :: rest =>
      cs <- render_prim self prim ;;
      cs' <- render_prims self rest ;;
      Some (cs ++ cs')
  end.

Definition render_fallback (self : GLViewport) (stage : list Prim)
    : option (list GLCall) :=
  cs <- render_prims self stage ;;
  Some ((if enable_lighting self
         then [glEnable GL_LIGHTING] else [glDisable GL_LIGHTING]) ++ cs).

End PyQt6Viewer.

(** ** Vocabulary of the specification *)

(** *** Fan triangulation as the specification words it

    [v k] is the vertex named by entry [k] of the flattened index sequence.  A
    face that starts at entry [off] and has [count] entries is skipped when
    [count < 3] and otherwise yields [(v0, v_i, v_{i+1})] for
    [i = 1 .. count - 2]. *)

Section FanSpec.

Context {A : Type}.
Variable v : Z -> A.

Definition fan_of (off count : Z) : list (A * A * A) :=
  if (count <? 3)%Z then []
  else map (fun i => (v off, v (off + i)%Z, v (off + i + 1)%Z))
           (Py.range 1 (count - 1)).

(** Faces are walked in order, each consuming [count] entries. *)
Fixpoint faces_of (off : Z) (counts : list Z) : list (list (A * A * A)) :=
  match counts with
  | [] => []
  | count :: rest => fan_of off count :: faces_of (off + count)%Z rest
  end.

End FanSpec.

(** [sum(counts)] *)
Definition sum_counts (counts : list Z) : Z := fold_right Z.add 0%Z counts.

(** The triangulator's contract: face counts are not negative and the index
    sequence holds at least the entries the faces consume. *)
Definition well_formed (counts indices : list Z) : Prop :=
  Forall (fun c => (0 <= c)%Z) counts /\
  (sum_counts counts <= Z.of_nat (length indices))%Z.

(** Every index names a stored point. *)
Definition indices_valid (pts : list Vec3) (indices : list Z) : Prop :=
  Forall (fun i => (0 <= i < Z.of_nat (length pts))%Z) indices.

(** Entry [k] of the index sequence, and the point it names. *)
Definition index_at (indices : list Z) (k : Z) : Z :=
  nth (Z.to_nat k) indices 0%Z.

Definition point_at (pts : list Vec3) (indices : list Z) (k : Z) : Vec3 :=
  nth (Z.to_nat (index_at indices k)) pts (0, 0, 0).

Definition corners (t : Triangle) : Vec3 * Vec3 * Vec3 :=
  (tri_v0 t, tri_v1 t, tri_v2 t).

Definition as_face (t : Z * Z * Z) : list Z :=
  [fst (fst t); snd (fst t); snd t].

(** *** Primitive assembly on the draw surface

    How OpenGL's immediate mode groups the vertices issued between [glBegin]
    and [glEnd] into triangles.  A vertex carries the normal that is current
    when it is issued; [None] stands for the normal left behind by earlier
    drawing.  A quadrilateral [a b c d] is drawn as the triangles [a b c] and
    [a c d]. *)

Record GLVertex : Type := mkGLVertex {
  gv_normal : option Vec3;
  gv_pos : Vec3
}.

Definition GLTriangle : Type := (GLVertex * GLVertex * GLVertex)%type.

(** Effect of one more vertex in a batch of the given mode: the triangles it
    completes and the vertices still pending. *)
Definition asm_vertex (mode : GLenum) (pending : list GLVertex) (v : GLVertex)
    : list GLTriangle * list GLVertex :=
  match mode, pending with
  | GL_TRIANGLES, [a; b] => ([(a, b, v)], [])
  | GL_QUADS, [a; b; c] => ([(a, b, c); (a, c, v)], [])
  | GL_TRIANGLE_FAN, [a; b] => ([(a, b, v)], [a; v])
  | GL_QUAD_STRIP, [a; b; c] => ([(a, b, v); (a, v, c)], [c; v])
  | _, _ => ([], pending ++ [v])
  end.

Fixpoint assemble (calls : list GLCall) (mode : option GLenum)
    (current : option Vec3) (pending : list GLVertex) : list GLTriangle :=
  match calls with
  | [] => []
  | glBegin m :: rest => assemble rest (Some m) current []
  | glEnd :: rest => assemble rest None current []
  | glNormal3f x y z :: rest => assemble rest mode (Some (x, y, z)) pending
  | glVertex3f x y z :: rest =>
      match mode with
      | Some m =>
          let '(ts, pending') :=
            asm_vertex m pending (mkGLVertex current (x, y, z)) in
          ts ++ assemble rest mode current pending'
      | None => assemble rest mode current pending
      end
  | _ :: rest => assemble rest mode current pending
  end.

Definition gl_triangles (calls : list GLCall) : list GLTriangle :=
  assemble calls None None [].

(** A triangle all of whose corners carry the normal [n]. *)
Definition flat_shaded (n : Vec3) (t : GLTriangle) : Prop :=
  gv_normal (fst (fst t)) = Some n /\
  gv_normal (snd (fst t)) = Some n /\
  gv_normal (snd t) = Some n.

(** The six unit vectors along the coordinate axes. *)
Definition axis_normals : list Vec3 :=
  [(0, 0, -1); (0, 0, 1); (-1, 0, 0); (1, 0, 0); (0, -1, 0); (0, 1, 0)].

(** *** Prims that differ in one attribute *)

Definition set_size (p : Prim) (x : option R) : Prim :=
  mkPrim (prim_type p) (points p) (faceVertexIndices p) (faceVertexCounts p)
         x (radius p) (height p) (displayColor p) (localToWorld p).

Definition set_radius (p : Prim) (x : option R) : Prim :=
  mkPrim (prim_type p) (points p) (faceVertexIndices p) (faceVertexCounts p)
         (size p) x (height p) (displayColor p) (localToWorld p).

Definition set_height (p : Prim) (x : option R) : Prim :=
  mkPrim (prim_type p) (points p) (faceVertexIndices p) (faceVertexCounts p)
         (size p) (radius p) x (displayColor p) (localToWorld p).

Definition set_displayColor (p : Prim) (x : option (list Vec3)) : Prim :=
  mkPrim (prim_type p) (points p) (faceVertexIndices p) (faceVertexCounts p)
         (size p) (radius p) (height p) x (localToWorld p).

Definition set_type (p : Prim) (t : PrimType) : Prim :=
  mkPrim t (points p) (faceVertexIndices p) (faceVertexCounts p)
         (size p) (radius p) (height p) (displayColor p) (localToWorld p).

(** A prim with no attribute set and the identity transform. *)
Definition bare_prim (t : PrimType) : Prim :=
  mkPrim t (fun _ => None) None None None None None None (fun _ => eye4).

(** The neutral gray of the specification. *)
Definition neutral_gray : Vec3 := (0.7, 0.7, 0.8).

(** The largest extent of a bounding box, [max(extent.x, extent.y, extent.z)]. *)
Definition max_extent (bbox_min bbox_max : Vec3) : R :=
  Rmax (Rmax (vx bbox_max - vx bbox_min) (vy bbox_max - vy bbox_min))
       (vz bbox_max - vz bbox_min).

Definition midpoint (a b : Vec3) : Vec3 :=
  ((vx a + vx b) / 2, (vy a + vy b) / 2, (vz a + vz b) / 2).

(** A call is acceptable for [P] when it is no normal or a normal satisfying
    [P]. *)
Definition normal_is (P : Vec3 -> Prop) (c : GLCall) : Prop :=
  match c with
  | glNormal3f x y z => P (x, y, z)
  | _ => True
  end.

(** *** Sample scenes *)

(** A mesh prim with one triangular face whose three points lie on a line. *)
Definition collinear_mesh : Prim :=
  mkPrim Mesh (fun _ => Some [(0, 0, 0); (1, 0, 0); (2, 0, 0)])
         (Some [0; 1; 2]%Z) (Some [3]%Z) None None None None (fun _ => eye4).

(** A mesh prim holding the unit square as one four-sided face. *)
Definition square_mesh : Prim :=
  mkPrim Mesh (fun _ => Some [(0, 0, 0); (1, 0, 0); (1, 1, 0); (0, 1, 0)])
         (Some [0; 1; 2; 3]%Z) (Some [4]%Z) None None None None
         (fun _ => eye4).

(** A mesh whose only face names vertex -2 although one vertex is stored. *)
Definition stray_index_mesh : BasicViewer.MeshData :=
  BasicViewer.mkMesh [(0, 0, 0)] [] [[-2; 0; 0]%Z] (0.7, 0.7, 0.8) eye4.

(** A mesh whose only face names the vertices 5 and 7 although one vertex is
    stored, and which stores no normal. *)
Definition overshoot_mesh : BasicViewer.MeshData :=
  BasicViewer.mkMesh [(0, 0, 0)] [] [[5; 0; 7]%Z] (0.7, 0.7, 0.8) eye4.

(** The viewport as [GLViewport.__init__] leaves it. *)
Definition initial_viewport : PyQt6Viewer.GLViewport :=
  PyQt6Viewer.mkViewport 0.0 shaded true true true.

(** Consecutive pairs of a list. *)
Fixpoint chunk2 {A : Type} (l : list A) : list (A * A) :=
  match l with
  | a :: b :: rest => (a, b) :: chunk2 rest
  | _ => []
  end.

(** A viewport in another state: later time, wireframe mode, lighting off. *)
Definition other_viewport : PyQt6Viewer.GLViewport :=
  PyQt6Viewer.mkViewport 2.5 wireframe false false false.

(** A red cone moved away from the origin. *)
Definition red_cone : Prim :=
  mkPrim Cone (fun _ => None) None None None None None (Some [(1, 0, 0)])
         (fun _ i j => if Nat.eqb i j then 1
                       else if Nat.eqb j 3 then 5 else 0).

(** ** Orbit cameras: eye position, panning, zooming and the fallback matrices *)

(** [math.radians] *)
Definition radians (deg : R) : R := deg * (PI / 180).

(** [np.dot] of two 3-vectors. *)
Definition dot (a b : Vec3) : R := vx a * vx b + vy a * vy b + vz a * vz b.

Definition vneg (a : Vec3) : Vec3 := (- vx a, - vy a, - vz a).

(** [usd_basic_viewer.py], class [Camera], continued. *)
Module BasicCameraOps.

(** The eye handed to [gluLookAt] by [apply]. *)
Definition apply_eye (self : BasicCamera.Camera) : Vec3 :=
  let az_rad := radians (BasicCamera.azimuth self) in
  let el_rad := radians (BasicCamera.elevation self) in
  let target := BasicCamera.target self in
  let eye_x := vx target + BasicCamera.distance self * cos el_rad * sin az_rad in
  let eye_y := vy target + BasicCamera.distance self * sin el_rad in
  let eye_z := vz target + BasicCamera.distance self * cos el_rad * cos az_rad in
  (eye_x, eye_y, eye_z).

Definition pan (self : BasicCamera.Camera) (dx dy : R) : BasicCamera.Camera :=
  let scale := BasicCamera.distance self * 0.002 in
  let az_rad := radians (BasicCamera.azimuth self) in
  let right := (cos az_rad, 0, - sin az_rad) in
  let target := BasicCamera.target self in
  let target0 := vx target - vx right * dx * scale in
  let target2 := vz target - vz right * dx * scale in
  let target1 := vy target + dy * scale in
  BasicCamera.mkCamera (BasicCamera.distance self) (BasicCamera.azimuth self)
                       (BasicCamera.elevation self) (target0, target1, target2).

End BasicCameraOps.

(** [usd_hydra_viewer_pyqt6.py], class [Camera], continued. *)
Module PyQt6CameraOps.

Definition get_position (self : PyQt6Camera.Camera) : Vec3 :=
  let az := radians (PyQt6Camera.azimuth self) in
  let el := radians (PyQt6Camera.elevation self) in
  let x := PyQt6Camera.distance self * cos el * sin az in
  let y := PyQt6Camera.distance self * sin el in
  let z := PyQt6Camera.distance self * cos el * cos az in
  let target := PyQt6Camera.target self in
  (vx target + x, vy target + y, vz target + z).

Definition pan (self : PyQt6Camera.Camera) (dx dy : R) : PyQt6Camera.Camera :=
  let scale := PyQt6Camera.distance self * 0.001 in
  let az := radians (PyQt6Camera.azimuth self) in
  let right_x := cos az * dx * scale in
  let right_z := - sin az * dx * scale in
  let up_y := dy * scale in
  let target := PyQt6Camera.target self in
  PyQt6Camera.mkCamera
    (PyQt6Camera.distance self) (PyQt6Camera.azimuth self)
    (PyQt6Camera.elevation self)
    (vx target - right_x, vy target + up_y, vz target - right_z)
    (PyQt6Camera.fov self) (PyQt6Camera.near self) (PyQt6Camera.far self).

End PyQt6CameraOps.

(** [usd_hydra_viewer.py], class [Camera], continued.  As for the target, the
    eye is a [Gf.Vec3d] or a list with the same components. *)
Module HydraCameraOps.

Definition get_position (self : HydraCamera.Camera) : Vec3 :=
  let az := radians (HydraCamera.azimuth self) in
  let el := radians (HydraCamera.elevation self) in
  let x := HydraCamera.distance self * cos el * sin az in
  let y := HydraCamera.distance self * sin el in
  let z := HydraCamera.distance self * cos el * cos az in
  let target := HydraCamera.target self in
  (vx target + x, vy target + y, vz target + z).

Definition _compute_lookat_matrix (eye target up : Vec3) : Matrix4 :=
  let f := vsub target eye in
  let f := vdiv f (norm f) in
  let r := cross f up in
  let r := vdiv r (norm r) in
  let u := cross r f in
  let row0 := [vx r; vy r; vz r; - dot r eye] in
  let row1 := [vx u; vy u; vz u; - dot u eye] in
  let row2 := [vx (vneg f); vy (vneg f); vz (vneg f); dot f eye] in
  let row3 := [0; 0; 0; 1] in
  fun i j => nth j (nth i [row0; row1; row2; row3] []) 0.

(** [get_view_matrix] when the USD bindings are absent. *)
Definition get_view_matrix (self : HydraCamera.Camera) : Matrix4 :=
  let eye := get_position self in
  let target := HydraCamera.target self in
  let up := (0, 1, 0) in
  _compute_lookat_matrix eye target up.

(** The three divisions are by [tan(fov_rad / 2)], by [aspect] and by
    [near - far]; a zero divisor raises [ZeroDivisionError]. *)
Definition _compute_perspective_matrix (self : HydraCamera.Camera)
    (aspect : R) : option Matrix4 :=
  let fov_rad := radians (HydraCamera.fov self) in
  if Req_dec_T (tan (fov_rad / 2.0)) 0 then None else
  let f := 1.0 / tan (fov_rad / 2.0) in
  let far := HydraCamera.far self in
  let near := HydraCamera.near self in
  if Req_dec_T aspect 0 then None else
  if Req_dec_T (near - far) 0 then None else
  let row0 := [f / aspect; 0; 0; 0] in
  let row1 := [0; f; 0; 0] in
  let row2 := [0; 0; (far + near) / (near - far);
               (2 * far * near) / (near - far)] in
  let row3 := [0; 0; -1.0; 0] in
  Some (fun i j => nth j (nth i [row0; row1; row2; row3] []) 0).

(** The viewport size is passed but not used. *)
Definition pan (self : HydraCamera.Camera) (dx dy : R)
    (viewport_width viewport_height : R) : HydraCamera.Camera :=
  let scale := HydraCamera.distance self * 0.001 in
  let az := radians (HydraCamera.azimuth self) in
  let right_x := cos az * dx * scale in
  let right_z := - sin az * dx * scale in
  let up_y := dy * scale in
  let target := HydraCamera.target self in
  HydraCamera.mkCamera
    (HydraCamera.distance self) (HydraCamera.azimuth self)
    (HydraCamera.elevation self)
    (vx target - right_x, vy target + up_y, vz target - right_z)
    (HydraCamera.fov self) (HydraCamera.near self) (HydraCamera.far self).

Definition zoom (self : HydraCamera.Camera) (delta : R) : HydraCamera.Camera :=
  let distance1 := HydraCamera.distance self * (1.0 - delta * 0.1) in
  let distance2 := Py.max2 0.01 (Py.min2 10000 distance1) in
  HydraCamera.mkCamera distance2 (HydraCamera.azimuth self)
                       (HydraCamera.elevation self) (HydraCamera.target self)
                       (HydraCamera.fov self) (HydraCamera.near self)
                       (HydraCamera.far self).

End HydraCameraOps.

(** A sequence of wheel steps, each handled by [zoom]. *)
Definition zooms {C : Type} (zoom : C -> R -> C) (cam : C) (deltas : list R)
    : C :=
  fold_left zoom deltas cam.

(** A 4x4 matrix applied to the point [p] (with fourth coordinate 1): the
    first three coordinates of the image. *)
Definition transform_point (m : Matrix4) (p : Vec3) : Vec3 :=
  (m 0%nat 0%nat * vx p + m 0%nat 1%nat * vy p + m 0%nat 2%nat * vz p
   + m 0%nat 3%nat,
   m 1%nat 0%nat * vx p + m 1%nat 1%nat * vy p + m 1%nat 2%nat * vz p
   + m 1%nat 3%nat,
   m 2%nat 0%nat * vx p + m 2%nat 1%nat * vy p + m 2%nat 2%nat * vz p
   + m 2%nat 3%nat).

(** Row [i] of a 4x4 matrix applied to the point [p] (fourth coordinate 1). *)
Definition row_apply (m : Matrix4) (i : nat) (p : Vec3) : R :=
  m i 0%nat * vx p + m i 1%nat * vy p + m i 2%nat * vz p + m i 3%nat.

(** The first three entries of row [i]. *)
Definition row3 (m : Matrix4) (i : nat) : Vec3 :=
  (m i 0%nat, m i 1%nat, m i 2%nat).

(** ** [usd_basic_viewer.py], continued: bounds, sample sphere, loading *)

Module BasicViewerOps.

(** Componentwise minimum and maximum, [vertices.min(axis=0)] and
    [vertices.max(axis=0)]. *)
Definition vmin (a b : Vec3) : Vec3 :=
  (Rmin (vx a) (vx b), Rmin (vy a) (vy b), Rmin (vz a) (vz b)).

Definition vmax (a b : Vec3) : Vec3 :=
  (Rmax (vx a) (vx b), Rmax (vy a) (vy b), Rmax (vz a) (vz b)).

(** [Mesh.get_bounds] *)
Definition get_bounds (self : BasicViewer.MeshData) : Vec3 * Vec3 :=
  match BasicViewer.vertices self with
  | [] => ((0, 0, 0), (1, 1, 1))
  | v :: vs => (fold_left vmin vs v, fold_left vmax vs v)
  end.

(** One round of the loop of [fit_camera_to_scene]:
    [all_min[i] = min(all_min[i], min_b[i])] and
    [all_max[i] = max(all_max[i], max_b[i])] for [i] in [range(3)]. *)
Definition widen (acc : Vec3 * Vec3) (mesh : BasicViewer.MeshData)
    : Vec3 * Vec3 :=
  let '(min_b, max_b) := get_bounds mesh in
  let all_min := fst acc in
  let all_max := snd acc in
  ((Py.min2 (vx all_min) (vx min_b), Py.min2 (vy all_min) (vy min_b),
    Py.min2 (vz all_min) (vz min_b)),
   (Py.max2 (vx all_max) (vx max_b), Py.max2 (vy all_max) (vy max_b),
    Py.max2 (vz all_max) (vz max_b))).

(** [USDBasicViewer.fit_camera_to_scene].  The accumulators start at
    [float('inf')] and [float('-inf')], so the first mesh's bounds replace
    them: [min(inf, x)] and [max(-inf, x)] are [x]. *)
Definition fit_camera_to_scene (camera : BasicCamera.Camera)
    (meshes : list BasicViewer.MeshData) : BasicCamera.Camera :=
  match meshes with
  | [] => camera
  | mesh :: rest =>
      let '(all_min, all_max) := fold_left widen rest (get_bounds mesh) in
      let center :=
        ((vx all_min + vx all_max) / 2, (vy all_min + vy all_max) / 2,
         (vz all_min + vz all_max) / 2) in
      let size :=
        Py.max3 (vx all_max - vx all_min) (vy all_max - vy all_min)
                (vz all_max - vz all_min) in
      BasicCamera.mkCamera (size * 2.0) (BasicCamera.azimuth camera)
                           (BasicCamera.elevation camera) center
  end.

(** The vertex loop of [create_sample_sphere].  [phi] is computed once per
    ring, before the inner loop, so [rings = 0] raises [ZeroDivisionError];
    [theta] is computed only inside [range(segments)]. *)
Definition sphere_vertices (radius : R) (segments rings : Z)
    : option (list Vec3) :=
  if (rings =? 0)%Z then None
  else
    Some (flat_map (fun i =>
            let phi := PI * IZR i / IZR rings in
            map (fun j =>
                   let theta := 2.0 * PI * IZR j / IZR segments in
                   let x := radius * sin phi * cos theta in
                   let y := radius * cos phi in
                   let z := radius * sin phi * sin theta in
                   (x, y, z))
                (Py.range 0 segments))
          (Py.range 0 (rings + 1))).

(** The face loop of [create_sample_sphere]. *)
Definition sphere_faces (segments rings : Z) : list (list Z) :=
  flat_map (fun i =>
    flat_map (fun j =>
      let next_j := ((j + 1) mod segments)%Z in
      let v0 := (i * segments + j)%Z in
      let v1 := (i * segments + next_j)%Z in
      let v2 := ((i + 1) * segments + next_j)%Z in
      let v3 := ((i + 1) * segments + j)%Z in
      [[v0; v2; v1]; [v0; v3; v2]])
    (Py.range 0 segments))
  (Py.range 0 rings).

Definition create_sample_sphere (radius : R) (segments rings : Z)
    : option BasicViewer.MeshData :=
  verts <- sphere_vertices radius segments rings ;;
  BasicViewer.compute_normals
    (BasicViewer.mkMesh verts [] (sphere_faces segments rings)
                        (0.9, 0.5, 0.3) eye4).

(** What [Usd.Stage.Open] can do: raise, return nothing, or return a stage,
    given by its prims in traversal order. *)
Inductive OpenResult : Type :=
| OpenRaises
| OpenFails
| Opened (prims : list Prim).

(** The loop of [load_usd_file] over [stage.Traverse()]; an exception raised
    by [extract_mesh_from_prim] ends it. *)
Fixpoint extract_all (prims : list Prim) : option (list BasicViewer.MeshData) :=
  match prims with
  | [] => Some []
  | prim :: rest =>
      match prim_type prim with
      | Mesh =>
          mesh <- BasicViewer.extract_mesh_from_prim prim ;;
          meshes <- extract_all rest ;;
          Some (mesh :: meshes)
      | _ => extract_all rest
      end
  end.

(** [load_usd_file].  The result is [None] only if building a sample mesh
    raises. *)
Definition load_usd_file (USD_AVAILABLE : bool) (stage : OpenResult)
    : option (list BasicViewer.MeshData) :=
  if negb USD_AVAILABLE then
    cube <- BasicViewer.create_sample_cube ;;
    sphere <- create_sample_sphere 1.0 16 12 ;;
    Some [cube; sphere]
  else
    match stage with
    | OpenRaises | OpenFails =>
        cube <- BasicViewer.create_sample_cube ;; Some [cube]
    | Opened prims =>
        match extract_all prims with
        | Some (mesh :: meshes) => Some (mesh :: meshes)
        | Some [] | None =>
            cube <- BasicViewer.create_sample_cube ;; Some [cube]
        end
    end.

End BasicViewerOps.

(** Componentwise order on vectors. *)
Definition vle (a b : Vec3) : Prop :=
  vx a <= vx b /\ vy a <= vy b /\ vz a <= vz b.

(** The three leading indices of a face name stored vertices (counting from
    either end, as Python does). *)
Definition face_in_range (verts : list Vec3) (face : list Z) : Prop :=
  Forall (fun i => (- Z.of_nat (length verts) <= i
                    < Z.of_nat (length verts))%Z) (firstn 3 face).

(** ** Legality of an immediate-mode call sequence

    The part of the OpenGL state that the viewers' calls depend on: the depth
    of the matrix stack, whether a [glBegin] is open, and the polygon mode.
    Between [glBegin] and [glEnd] only vertex data may be issued; any other
    call there, a nested [glBegin], a [glEnd] or a vertex outside a batch, and
    a [glPopMatrix] on an empty stack are errors ([None]). *)

Record GLState : Type := mkGLState {
  matrix_depth : nat;
  in_batch : bool;
  polygon_mode : GLenum
}.

Definition gl_step (s : GLState) (c : GLCall) : option GLState :=
  match c with
  | glBegin _ =>
      if in_batch s then None
      else Some (mkGLState (matrix_depth s) true (polygon_mode s))
  | glEnd =>
      if in_batch s
      then Some (mkGLState (matrix_depth s) false (polygon_mode s))
      else None
  | glVertex3f _ _ _ => if in_batch s then Some s else None
  | glNormal3f _ _ _ | glColor3f _ _ _ => Some s
  | glPushMatrix =>
      if in_batch s then None
      else Some (mkGLState (S (matrix_depth s)) false (polygon_mode s))
  | glPopMatrix =>
      if in_batch s then None
      else match matrix_depth s with
           | O => None
           | S d => Some (mkGLState d false (polygon_mode s))
           end
  | glPolygonMode _ mode =>
      if in_batch s then None
      else Some (mkGLState (matrix_depth s) false mode)
  | glMultMatrixf _ | glMultMatrixd _ | glPointSize _
  | glEnable _ | glDisable _ | glColorMaterial _ _ =>
      if in_batch s then None else Some s
  end.

Fixpoint gl_run (calls : list GLCall) (s : GLState) : option GLState :=
  match calls with
  | [] => Some s
  | c :: rest => s' <- gl_step s c ;; gl_run rest s'
  end.

(** A call is acceptable for [P] when it is no vertex or a vertex satisfying
    [P]. *)
Definition vertex_is (P : Vec3 -> Prop) (c : GLCall) : Prop :=
  match c with
  | glVertex3f x y z => P (x, y, z)
  | _ => True
  end.

(** Vertex data: the calls allowed inside a batch. *)
Definition is_vertex_data (c : GLCall) : bool :=
  match c with
  | glNormal3f _ _ _ | glVertex3f _ _ _ | glColor3f _ _ _ => true
  | _ => false
  end.

Definition is_mesh (p : Prim) : bool :=
  match prim_type p with
  | Mesh => true
  | _ => false
  end.

(** The prim types that [GLViewport.render_fallback] draws. *)
Definition is_renderable (p : Prim) : bool :=
  match prim_type p with
  | Mesh | Cube | Sphere | Cylinder | Cone | Capsule => true
  | _ => false
  end.

(** The positions issued by a call sequence, in order. *)
Definition drawn_vertices (calls : list GLCall) : list Vec3 :=
  flat_map (fun c => match c with glVertex3f x y z => [(x, y, z)] | _ => [] end)
           calls.

(** A mesh prim whose only face asks for three indices although two are
    stored. *)
Definition short_index_mesh : Prim :=
  mkPrim Mesh (fun _ => Some [(0, 0, 0); (1, 0, 0); (0, 1, 0)])
         (Some [0; 1]%Z) (Some [3]%Z) None None None None (fun _ => eye4).

(** The Hydra viewport as [HydraViewport.__init__] leaves it. *)
Definition initial_hydra_viewport : HydraViewer.HydraViewport :=
  HydraViewer.mkViewport 0.0 shaded true.

(** The three corners of a triangle, in drawing order. *)
Definition corner_list (c : Vec3 * Vec3 * Vec3) : list Vec3 :=
  [fst (fst c); snd (fst c); snd c].

(** The vertices of a call sequence, each with the normal in force when it is
    issued; [cur] is the normal left behind by earlier drawing. *)
Fixpoint lit_vertices (calls : list GLCall) (cur : option Vec3)
    : list (option Vec3 * Vec3) :=
  match calls with
  | [] => []
  | glNormal3f x y z :: rest => lit_vertices rest (Some (x, y, z))
  | glVertex3f x y z :: rest => (cur, (x, y, z)) :: lit_vertices rest cur
  | _ :: rest => lit_vertices rest cur
  end.


(** The quadrilateral [a b c d] is one face of the cube of edge [2 * half]
    centred at the origin, the face that [n] points out of: each corner has
    all three coordinates of absolute value [half] and lies in the plane at
    distance [half] along [n]; going round, the four sides have the length
    of the cube's edge, and [a c] is a diagonal. *)
Definition cube_face (half : R) (n a b c d : Vec3) : Prop :=
  Forall (fun p => Rabs (vx p) = half /\ Rabs (vy p) = half /\
                   Rabs (vz p) = half /\ dot n p = half) [a; b; c; d] /\
  sum_sq (vsub b a) = (2 * half) * (2 * half) /\
  sum_sq (vsub c b) = (2 * half) * (2 * half) /\
  sum_sq (vsub d c) = (2 * half) * (2 * half) /\
  sum_sq (vsub a d) = (2 * half) * (2 * half) /\
  sum_sq (vsub c a) = 2 * ((2 * half) * (2 * half)).

(** Two meshes of a small scene: a triangle leaning out of the ground plane
    and a segment away from it. *)
Definition ramp_mesh : BasicViewer.MeshData :=
  BasicViewer.mkMesh [(0, 0, 0); (4, 0, 0); (4, 2, 1)] [] [[0; 1; 2]%Z]
                     (0.7, 0.7, 0.8) eye4.



(** The normals issued by a call sequence, in order. *)
Definition drawn_normals (calls : list GLCall) : list Vec3 :=
  flat_map (fun c => match c with glNormal3f x y z => [(x, y, z)] | _ => [] end)
           calls.

(** No face index of the mesh lies below [-len(vertices)], the range in
    which Python resolves a negative index. *)
Definition no_index_below (self : BasicViewer.MeshData) : Prop :=
  Forall (Forall (fun k => (- Z.of_nat (length (BasicViewer.vertices self))
                            <= k)%Z))
         (BasicViewer.faces self).

(** [self] is what [compute_normals] made of a mesh of triangles.  The
    meshes of the viewer all are: [create_sample_cube],
    [create_sample_sphere] and [extract_mesh_from_prim] build triangles and
    end in [compute_normals]. *)
Definition computed (source self : BasicViewer.MeshData) : Prop :=
  Forall (fun face => length face = 3%nat) (BasicViewer.faces source) /\
  BasicViewer.compute_normals source = Some self.

(** * Properties *)

(** ** Python built-ins *)

Lemma max2_Rmax (a b : R) : Py.max2 a b = Rmax a b.
Proof.
  unfold Py.max2, Rmax.
  destruct (Rlt_dec a b), (Rle_dec a b); lra.
Qed.

Lemma max3_Rmax (a b c : R) : Py.max3 a b c = Rmax (Rmax a b) c.
Proof. unfold Py.max3. now rewrite !max2_Rmax. Qed.

Lemma clamp_in_range (e : R) :
  -89 <= Py.max2 (-89) (Py.min2 89 e) <= 89.
Proof.
  unfold Py.max2, Py.min2.
  destruct (Rlt_dec e 89); destruct (Rlt_dec (-89) _); lra.
Qed.

Lemma clamp_saturates (e : R) :
  89 <= e -> Py.max2 (-89) (Py.min2 89 e) = 89.
Proof.
  intros He. unfold Py.max2, Py.min2.
  destruct (Rlt_dec e 89); destruct (Rlt_dec (-89) _); lra.
Qed.

Lemma or_default_nonzero (x : option R) (d : R) :
  d <> 0 -> Py.or_default x d <> 0.
Proof.
  intros Hd. unfold Py.or_default.
  destruct x as [v|]; [destruct (Req_dec_T v 0)|]; assumption.
Qed.

Lemma or_default_same (d : R) :
  d <> 0 -> Py.or_default (Some d) d = Py.or_default None d.
Proof.
  intros Hd. simpl. destruct (Req_dec_T d 0); reflexivity.
Qed.

Lemma or_default_some (v d : R) : v <> 0 -> Py.or_default (Some v) d = v.
Proof.
  intros Hv. simpl. destruct (Req_dec_T v 0); [contradiction|reflexivity].
Qed.

(** ** Orbit camera *)

Section Clamp.

(** Any camera whose [rotate] ends by clamping the elevation. *)
Context {C : Type}.
Variable elevation : C -> R.
Variable rotate : C -> R -> R -> C.
Variable k : R.
Hypothesis k_pos : 0.3 <= k.
Hypothesis rotate_elevation : forall c dx dy,
  elevation (rotate c dx dy)
  = Py.max2 (-89) (Py.min2 89 (elevation c + dy * k)).

Lemma drag_in_range (moves : list (R * R)) (c : C) :
  -89 <= elevation c <= 89 ->
  -89 <= elevation (drag rotate c moves) <= 89.
Proof.
  revert c. induction moves as [|[dx dy] moves IH]; intros c Hc.
  - exact Hc.
  - simpl. apply IH. rewrite rotate_elevation. apply clamp_in_range.
Qed.

Lemma rotate_up_saturates (c : C) :
  -89 <= elevation c <= 89 -> elevation (rotate c 0 1000) = 89.
Proof.
  intros Hc. rewrite rotate_elevation. apply clamp_saturates. nra.
Qed.

Lemma repeat_rotate_up (n : nat) (c : C) :
  -89 <= elevation c <= 89 ->
  elevation (repeat_rotate rotate 0 1000 (S n) c) = 89.
Proof.
  revert c. induction n as [|n IH]; intros c Hc.
  - simpl. now apply rotate_up_saturates.
  - change (elevation (repeat_rotate rotate 0 1000 (S n) (rotate c 0 1000))
            = 89).
    apply IH. rewrite (rotate_up_saturates c Hc). lra.
Qed.

End Clamp.

(** C6.  Starting from an elevation in [-89, 89], any sequence of
    [rotate(dx, dy)] calls leaves the elevation in [-89, 89], so it is never
    +90 or -90; and [rotate(0, 1000)], once or repeated any number of times,
    leaves the elevation at exactly 89.  This holds for the camera of the basic
    viewer (step 0.5 per pixel) and for the cameras of the two Qt viewers
    (step 0.3 per pixel). *)
Theorem rotate_keeps_elevation_clamped :
  forall (moves : list (R * R)) (n : nat)
         (cb : BasicCamera.Camera) (cq : PyQt6Camera.Camera)
         (ch : HydraCamera.Camera),
    -89 <= BasicCamera.elevation cb <= 89 ->
    -89 <= PyQt6Camera.elevation cq <= 89 ->
    -89 <= HydraCamera.elevation ch <= 89 ->
    let eb := BasicCamera.elevation (drag BasicCamera.rotate cb moves) in
    let eq := PyQt6Camera.elevation (drag PyQt6Camera.rotate cq moves) in
    let eh := HydraCamera.elevation (drag HydraCamera.rotate ch moves) in
    (-89 <= eb <= 89 /\ eb <> 90 /\ eb <> -90) /\
    (-89 <= eq <= 89 /\ eq <> 90 /\ eq <> -90) /\
    (-89 <= eh <= 89 /\ eh <> 90 /\ eh <> -90) /\
    BasicCamera.elevation
      (repeat_rotate BasicCamera.rotate 0 1000 (S n) cb) = 89 /\
    PyQt6Camera.elevation
      (repeat_rotate PyQt6Camera.rotate 0 1000 (S n) cq) = 89 /\
    HydraCamera.elevation
      (repeat_rotate HydraCamera.rotate 0 1000 (S n) ch) = 89.
Proof.
  intros moves n cb cq ch Hb Hq Hh eb eq eh.
  assert (Rb : forall c dx dy,
             BasicCamera.elevation (BasicCamera.rotate c dx dy)
             = Py.max2 (-89) (Py.min2 89 (BasicCamera.elevation c + dy * 0.5)))
    by reflexivity.
  assert (Rq : forall c dx dy,
             PyQt6Camera.elevation (PyQt6Camera.rotate c dx dy)
             = Py.max2 (-89) (Py.min2 89 (PyQt6Camera.elevation c + dy * 0.3)))
    by reflexivity.
  assert (Rh : forall c dx dy,
             HydraCamera.elevation (HydraCamera.rotate c dx dy)
             = Py.max2 (-89) (Py.min2 89 (HydraCamera.elevation c + dy * 0.3)))
    by reflexivity.
  assert (Kb : 0.3 <= 0.5) by lra.
  assert (Kq : 0.3 <= 0.3) by lra.
  pose proof (drag_in_range _ _ _ Rb moves cb Hb) as Db.
  pose proof (drag_in_range _ _ _ Rq moves cq Hq) as Dq.
  pose proof (drag_in_range _ _ _ Rh moves ch Hh) as Dh.
  fold eb in Db. fold eq in Dq. fold eh in Dh.
  repeat split; try lra.
  - exact (repeat_rotate_up _ _ _ Kb Rb n cb Hb).
  - exact (repeat_rotate_up _ _ _ Kq Rq n cq Hq).
  - exact (repeat_rotate_up _ _ _ Kq Rh n ch Hh).
Qed.

(** Witness for C6: the initial cameras (elevation 30) dragged by
    [(0, 1000)] and then [(12, -7)]. *)
Lemma rotate_keeps_elevation_clamped_witness :
  let moves := [(0, 1000); (12, -7)] in
  let eb := BasicCamera.elevation
              (drag BasicCamera.rotate BasicCamera.init moves) in
  (-89 <= eb <= 89 /\ eb <> 90 /\ eb <> -90) /\
  BasicCamera.elevation
    (repeat_rotate BasicCamera.rotate 0 1000 3 BasicCamera.init) = 89 /\
  PyQt6Camera.elevation
    (repeat_rotate PyQt6Camera.rotate 0 1000 3 PyQt6Camera.init) = 89.
Proof.
  assert (Hb : -89 <= BasicCamera.elevation BasicCamera.init <= 89)
    by (simpl; lra).
  assert (Hq : -89 <= PyQt6Camera.elevation PyQt6Camera.init <= 89)
    by (simpl; lra).
  assert (Hh : -89 <= HydraCamera.elevation HydraCamera.init <= 89)
    by (simpl; lra).
  pose proof (rotate_keeps_elevation_clamped
                [(0, 1000); (12, -7)] 2 BasicCamera.init PyQt6Camera.init
                HydraCamera.init Hb Hq Hh) as H.
  cbv zeta in H. cbv zeta.
  destruct H as (H1 & _ & _ & H4 & H5 & _).
  exact (conj H1 (conj H4 H5)).
Defined.

Lemma frame_distance_cases (s : R) :
  let d := if Rlt_dec 0 s then s * 2.0 else 10.0 in
  (0 < s /\ d = 2 * s) \/ (s <= 0 /\ d = 10).
Proof.
  simpl. destruct (Rlt_dec 0 s); [left|right]; lra.
Qed.

(** C5.  [frame_bounds(min, max)] sets the target to the midpoint of the box
    and the distance to twice the largest axis extent when that extent is
    positive, and to the fixed fallback 10 when it is zero or negative; the
    other camera fields are untouched.  For the box [-5,0,-5] .. [5,3,5] the
    target is (0, 1.5, 0) and the distance is 20.  Both Qt viewers agree. *)
Theorem frame_bounds_midpoint_and_distance :
  forall (cq : PyQt6Camera.Camera) (ch : HydraCamera.Camera) (usd : bool)
         (bbox_min bbox_max : Vec3),
    let q := PyQt6Camera.frame_bounds cq bbox_min bbox_max in
    let h := HydraCamera.frame_bounds usd ch bbox_min bbox_max in
    let s := max_extent bbox_min bbox_max in
    PyQt6Camera.target q = midpoint bbox_min bbox_max /\
    ((0 < s /\ PyQt6Camera.distance q = 2 * s) \/
     (s <= 0 /\ PyQt6Camera.distance q = 10)) /\
    HydraCamera.target h = midpoint bbox_min bbox_max /\
    ((0 < s /\ HydraCamera.distance h = 2 * s) \/
     (s <= 0 /\ HydraCamera.distance h = 10)) /\
    PyQt6Camera.elevation q = PyQt6Camera.elevation cq /\
    PyQt6Camera.azimuth q = PyQt6Camera.azimuth cq /\
    PyQt6Camera.target
      (PyQt6Camera.frame_bounds cq (-5, 0, -5) (5, 3, 5)) = (0, 1.5, 0) /\
    PyQt6Camera.distance
      (PyQt6Camera.frame_bounds cq (-5, 0, -5) (5, 3, 5)) = 20 /\
    HydraCamera.target
      (HydraCamera.frame_bounds usd ch (-5, 0, -5) (5, 3, 5)) = (0, 1.5, 0) /\
    HydraCamera.distance
      (HydraCamera.frame_bounds usd ch (-5, 0, -5) (5, 3, 5)) = 20.
Proof.
  intros cq ch usd bbox_min bbox_max q h s.
  assert (Hs : Py.max3 (vx bbox_max - vx bbox_min) (vy bbox_max - vy bbox_min)
                       (vz bbox_max - vz bbox_min) = s)
    by apply max3_Rmax.
  assert (H20 : Py.max3 (5 - -5) (3 - 0) (5 - -5) = 10).
  { rewrite max3_Rmax. unfold Rmax.
    destruct (Rle_dec (5 - -5) (3 - 0));
      destruct (Rle_dec _ (5 - -5)); lra. }
  assert (Hmid : ((-5 + 5) / 2, (0 + 3) / 2, (-5 + 5) / 2) = (0, 1.5, 0))
    by (repeat f_equal; lra).
  assert (Hd : (if Rlt_dec 0 10 then 10 * 2.0 else 10.0) = 20)
    by (destruct (Rlt_dec 0 10); lra).
  unfold q, h, PyQt6Camera.frame_bounds, HydraCamera.frame_bounds.
  cbn [PyQt6Camera.distance PyQt6Camera.target PyQt6Camera.elevation
       PyQt6Camera.azimuth HydraCamera.distance HydraCamera.target
       vx vy vz fst snd].
  rewrite Hs, H20, Hd.
  assert (Hu : forall c : Vec3, (if usd then c else c) = c)
    by (intros c; now destruct usd).
  rewrite !Hu.
  pose proof (frame_distance_cases s) as Hc. cbv zeta in Hc.
  repeat split; try exact Hmid; try exact Hc.
Qed.

(** ** Sequences and indexing *)

Lemma range_length (lo hi : Z) : length (Py.range lo hi) = Z.to_nat (hi - lo).
Proof. unfold Py.range. now rewrite length_map, length_seq. Qed.

Lemma range_In (lo hi i : Z) : In i (Py.range lo hi) <-> (lo <= i < hi)%Z.
Proof.
  unfold Py.range. rewrite in_map_iff. split.
  - intros (k & <- & Hk). apply in_seq in Hk. lia.
  - intros Hi. exists (Z.to_nat (i - lo)). split; [lia|].
    apply in_seq. lia.
Qed.

Lemma range_cons (lo hi : Z) :
  (lo < hi)%Z -> Py.range lo hi = lo :: Py.range (lo + 1) hi.
Proof.
  intros H. unfold Py.range.
  replace (Z.to_nat (hi - lo)) with (S (Z.to_nat (hi - (lo + 1)))) by lia.
  cbn [seq map]. f_equal; [lia|].
  rewrite <- seq_shift, map_map. apply map_ext. intros k. lia.
Qed.

Lemma getitem_in_range {A : Type} (l : list A) (i : Z) (d : A) :
  (0 <= i < Z.of_nat (length l))%Z ->
  Py.getitem l i = Some (nth (Z.to_nat i) l d).
Proof.
  intros Hi. unfold Py.getitem.
  destruct (Z.leb_spec 0 i); [|lia].
  apply nth_error_nth'. lia.
Qed.

Lemma getitem_below {A : Type} (l : list A) (i : Z) :
  (i < - Z.of_nat (length l))%Z -> Py.getitem l i = None.
Proof.
  intros Hi. unfold Py.getitem.
  destruct (Z.leb_spec 0 i); [lia|].
  destruct (Z.leb_spec (- Z.of_nat (length l)) i); [lia|reflexivity].
Qed.

Lemma nth_map_seq {A : Type} (g : nat -> A) (n k : nat) (d : A) :
  (k < n)%nat -> nth k (map g (seq 0 n)) d = g k.
Proof.
  intros Hk.
  rewrite (nth_indep _ d (g 0%nat)) by now rewrite length_map, length_seq.
  rewrite map_nth. now rewrite seq_nth.
Qed.

(** ** Fan triangulation *)

Section FanCount.

Context {A : Type}.
Variable v : Z -> A.

Lemma fan_of_length (off count : Z) :
  length (fan_of v off count) = Z.to_nat (Z.max (count - 2) 0).
Proof.
  unfold fan_of. destruct (Z.ltb_spec count 3).
  - simpl. lia.
  - rewrite length_map, range_length. lia.
Qed.

Lemma fan_of_nth (off count i : Z) (d : A * A * A) :
  (1 <= i <= count - 2)%Z ->
  nth (Z.to_nat (i - 1)) (fan_of v off count) d
  = (v off, v (off + i)%Z, v (off + i + 1)%Z).
Proof.
  intros Hi. unfold fan_of. destruct (Z.ltb_spec count 3); [lia|].
  unfold Py.range. rewrite map_map.
  rewrite nth_map_seq by lia.
  replace (1 + Z.of_nat (Z.to_nat (i - 1)))%Z with i by lia.
  reflexivity.
Qed.

Lemma faces_of_lengths (counts : list Z) (off : Z) :
  Forall2 (fun count ts => length ts = Z.to_nat (Z.max (count - 2) 0))
          counts (faces_of v off counts).
Proof.
  revert off. induction counts as [|c counts IH]; intros off; simpl.
  - constructor.
  - constructor; [apply fan_of_length | apply IH].
Qed.

End FanCount.

Section BasicExtract.

Variable indices : list Z.

Lemma collect_face_spec (n : nat) (idx : Z) (face : list Z) :
  (0 <= idx)%Z ->
  (idx + Z.of_nat n <= Z.of_nat (length indices))%Z ->
  BasicViewer.collect_face n indices idx face
  = (face ++ map (fun k => index_at indices (idx + Z.of_nat k)) (seq 0 n),
     (idx + Z.of_nat n)%Z).
Proof.
  revert idx face. induction n as [|n IH]; intros idx face H0 Hlen.
  - simpl. rewrite app_nil_r. f_equal. lia.
  - cbn [BasicViewer.collect_face].
    destruct (Z.ltb_spec idx (Z.of_nat (length indices))); [|lia].
    rewrite IH by lia.
    rewrite <- app_assoc. f_equal; [|lia].
    f_equal. cbn [seq map app]. f_equal.
    + unfold index_at. f_equal. lia.
    + rewrite <- seq_shift, map_map. apply map_ext.
      intros k. f_equal. lia.
Qed.

Lemma fan_collected (n : nat) (idx : Z) :
  BasicViewer.fan
    (map (fun k => index_at indices (idx + Z.of_nat k)) (seq 0 n))
  = map as_face (fan_of (index_at indices) idx (Z.of_nat n)).
Proof.
  unfold BasicViewer.fan, fan_of.
  rewrite length_map, length_seq.
  destruct (Nat.leb_spec 3 n); destruct (Z.ltb_spec (Z.of_nat n) 3);
    try lia; [|reflexivity].
  rewrite map_map. apply map_ext_in. intros i Hi.
  apply range_In in Hi. unfold as_face. cbn [fst snd].
  rewrite (nth_map_seq _ n 0%nat) by lia.
  rewrite (nth_map_seq _ n (Z.to_nat i)) by lia.
  rewrite (nth_map_seq _ n (Z.to_nat (i + 1))) by lia.
  f_equal; [|f_equal; [|f_equal]]; unfold index_at; f_equal; lia.
Qed.

Lemma extract_faces_spec (counts : list Z) (idx : Z) :
  (0 <= idx)%Z ->
  Forall (fun c => (0 <= c)%Z) counts ->
  (idx + sum_counts counts <= Z.of_nat (length indices))%Z ->
  BasicViewer.extract_faces counts indices idx
  = map as_face (concat (faces_of (index_at indices) idx counts)).
Proof.
  revert idx. induction counts as [|c counts IH]; intros idx H0 Hc Hlen.
  - reflexivity.
  - inversion Hc as [|? ? Hc0 Hcs]; subst.
    assert (Hsum : (0 <= sum_counts counts)%Z).
    { clear -Hcs. induction Hcs; simpl; lia. }
    cbn [sum_counts fold_right] in Hlen. fold (sum_counts counts) in Hlen.
    cbn [BasicViewer.extract_faces faces_of concat].
    rewrite collect_face_spec by lia.
    cbn [app]. rewrite fan_collected, map_app.
    rewrite Z2Nat.id by lia.
    f_equal. apply IH; [lia|assumption|lia].
Qed.

End BasicExtract.

Section QtLoops.

Variable normal_of : Vec3 -> Vec3 -> Vec3 -> Vec3.
Variable pts : list Vec3.
Variable indices : list Z.
Hypothesis valid : indices_valid pts indices.

Lemma lookup_index (k : Z) :
  (0 <= k < Z.of_nat (length indices))%Z ->
  Py.getitem indices k = Some (index_at indices k).
Proof. intros Hk. now apply getitem_in_range. Qed.

Lemma lookup_point (k : Z) :
  (0 <= k < Z.of_nat (length indices))%Z ->
  Py.getitem pts (index_at indices k) = Some (point_at pts indices k).
Proof.
  intros Hk. apply getitem_in_range.
  unfold indices_valid in valid. rewrite Forall_forall in valid.
  apply valid. unfold index_at. apply nth_In. lia.
Qed.

(** The triangle built in one round of the inner loop. *)
Let triangle_at (idx i : Z) : Triangle :=
  let v0 := point_at pts indices idx in
  let v1 := point_at pts indices (idx + i) in
  let v2 := point_at pts indices (idx + i + 1) in
  mkTriangle (normal_of v0 v1 v2) v0 v1 v2.

Lemma fan_loop_spec (idx : Z) (steps : list Z) :
  (forall i, In i steps ->
             (0 <= idx + i /\ idx + i + 1 < Z.of_nat (length indices))%Z) ->
  fan_loop normal_of pts indices idx (point_at pts indices idx) steps
  = Some (map (triangle_at idx) steps).
Proof.
  induction steps as [|i steps IH]; intros Hs.
  - reflexivity.
  - cbn [fan_loop map].
    destruct (Hs i (or_introl eq_refl)) as [Hlo Hhi].
    rewrite lookup_index by lia. cbn [bind].
    rewrite lookup_point by lia. cbn [bind].
    rewrite lookup_index by lia. cbn [bind].
    rewrite lookup_point by lia. cbn [bind].
    rewrite IH by (intros j Hj; apply Hs; now right).
    reflexivity.
Qed.

Lemma faces_loop_spec (counts : list Z) (idx : Z) :
  (0 <= idx)%Z ->
  Forall (fun c => (0 <= c)%Z) counts ->
  (idx + sum_counts counts <= Z.of_nat (length indices))%Z ->
  exists tris,
    faces_loop normal_of pts indices idx counts = Some tris /\
    map corners tris = concat (faces_of (point_at pts indices) idx counts) /\
    Forall (fun t => tri_normal t
                     = normal_of (tri_v0 t) (tri_v1 t) (tri_v2 t)) tris.
Proof.
  revert idx. induction counts as [|c counts IH]; intros idx H0 Hc Hlen.
  - exists []. repeat split. constructor.
  - inversion Hc as [|? ? Hc0 Hcs]; subst.
    assert (Hsum : (0 <= sum_counts counts)%Z).
    { clear -Hcs. induction Hcs; simpl; lia. }
    cbn [sum_counts fold_right] in Hlen. fold (sum_counts counts) in Hlen.
    destruct (IH (idx + c)%Z) as (rest & Hrest & Hcorners & Hnormals);
      [lia|assumption|lia|].
    cbn [faces_loop faces_of concat]. rewrite Hrest. unfold fan_of.
    destruct (Z.leb_spec 3 c); destruct (Z.ltb_spec c 3); try lia.
    + rewrite lookup_index by lia. cbn [bind].
      rewrite lookup_point by lia. cbn [bind].
      rewrite fan_loop_spec
        by (intros i Hi; apply range_In in Hi; lia).
      cbn [bind]. eexists. split; [reflexivity|]. split.
      * rewrite map_app, Hcorners, map_map. reflexivity.
      * apply Forall_app. split; [|assumption].
        apply Forall_forall. intros t Ht.
        apply in_map_iff in Ht. destruct Ht as (i & <- & _). reflexivity.
    + cbn [bind app]. exists rest. repeat split; assumption.
Qed.

End QtLoops.

(** C1.  Under the triangulator's contract (face counts not negative, the
    index sequence long enough for them), every face of [count] entries
    yields exactly [max(count - 2, 0)] triangles: none when [count < 3], and
    otherwise the fan [(v0, v_i, v_{i+1})], [i = 1 .. count - 2], anchored at
    the face's first vertex, faces taken in order.  This holds for the faces
    built by [extract_mesh_from_prim] in the basic viewer and, when every
    index names a stored point, for the triangles drawn by
    [GLViewport.render_mesh], whose normal is derived from the same three
    corners. *)
Theorem fan_triangulation_count_and_order :
  forall (pts : list Vec3) (counts indices : list Z),
    well_formed counts indices ->
    BasicViewer.extract_faces counts indices 0
    = map as_face (concat (faces_of (index_at indices) 0 counts)) /\
    Forall2 (fun count ts => length ts = Z.to_nat (Z.max (count - 2) 0))
            counts (faces_of (index_at indices) 0 counts) /\
    Forall2 (fun count ts => length ts = Z.to_nat (Z.max (count - 2) 0))
            counts (faces_of (point_at pts indices) 0 counts) /\
    (indices_valid pts indices ->
     exists tris,
       faces_loop PyQt6Viewer.face_normal pts indices 0 counts = Some tris /\
       map corners tris = concat (faces_of (point_at pts indices) 0 counts) /\
       Forall (fun t => tri_normal t
                        = PyQt6Viewer.face_normal (tri_v0 t) (tri_v1 t)
                                                  (tri_v2 t)) tris).
Proof.
  intros pts counts indices [Hc Hlen].
  split; [|split; [|split]].
  - apply extract_faces_spec; [lia|assumption|lia].
  - apply faces_of_lengths.
  - apply faces_of_lengths.
  - intros Hvalid.
    apply faces_loop_spec; [assumption|lia|assumption|lia].
Qed.

(** Witness for C1: a quadrilateral followed by a two-entry face and a
    triangle, over four points. *)
Lemma fan_triangulation_count_and_order_witness :
  let pts := [(0, 0, 0); (1, 0, 0); (1, 1, 0); (0, 1, 0)] in
  let counts := [4; 2; 3]%Z in
  let indices := [0; 1; 2; 3; 0; 1; 1; 2; 3]%Z in
  BasicViewer.extract_faces counts indices 0
  = map as_face (concat (faces_of (index_at indices) 0 counts)) /\
  exists tris,
    faces_loop PyQt6Viewer.face_normal pts indices 0 counts = Some tris /\
    map corners tris = concat (faces_of (point_at pts indices) 0 counts).
Proof.
  intros pts counts indices.
  assert (Hwf : well_formed counts indices).
  { split; [repeat constructor; lia | vm_compute; discriminate]. }
  assert (Hvalid : indices_valid pts indices).
  { repeat constructor; simpl; lia. }
  destruct (fan_triangulation_count_and_order pts counts indices Hwf)
    as (Hb & _ & _ & Hq).
  split; [exact Hb|].
  destruct (Hq Hvalid) as (tris & Ht & Hcorners & _).
  exists tris. split; assumption.
Defined.

(** ** Face normals *)

Lemma norm_zero : norm (0, 0, 0) = 0.
Proof.
  unfold norm, sum_sq, vx, vy, vz. cbn [fst snd].
  replace (0 + 0 * 0 + 0 * 0 + 0 * 0) with 0 by lra. apply sqrt_0.
Qed.

Lemma sum_sq_nonneg (n : Vec3) : 0 <= sum_sq n.
Proof. unfold sum_sq. nra. Qed.

(** A vector divided by its positive length has length 1. *)
Lemma norm_vdiv (n : Vec3) : 0 < norm n -> norm (vdiv n (norm n)) = 1.
Proof.
  destruct n as [[a b] c]. intros Hpos. unfold norm in *.
  pose proof (sqrt_sqrt _ (sum_sq_nonneg (a, b, c))) as Hsq.
  remember (sqrt (sum_sq (a, b, c))) as L eqn:HL. clear HL.
  assert (HS : 0 < sum_sq (a, b, c)) by nra.
  replace (sum_sq (vdiv (a, b, c) L)) with (sum_sq (a, b, c) / (L * L)).
  - rewrite Hsq. unfold Rdiv. rewrite Rinv_r by lra. apply sqrt_1.
  - unfold sum_sq, vdiv. cbn [vx vy vz fst snd]. field. lra.
Qed.

(** [GLViewport.render_mesh]: a triangle with a zero cross product gets the up
    vector, any other a unit normal. *)
Lemma pyqt6_normal_degenerate (v0 v1 v2 : Vec3) :
  cross (vsub v1 v0) (vsub v2 v0) = (0, 0, 0) ->
  PyQt6Viewer.face_normal v0 v1 v2 = up_vector.
Proof.
  intros H. unfold PyQt6Viewer.face_normal. rewrite H, norm_zero.
  destruct (Rlt_dec 0 0); [lra|reflexivity].
Qed.

Lemma pyqt6_normal_unit_or_up (v0 v1 v2 : Vec3) :
  norm (PyQt6Viewer.face_normal v0 v1 v2) = 1.
Proof.
  unfold PyQt6Viewer.face_normal.
  destruct (Rlt_dec 0 (norm (cross (vsub v1 v0) (vsub v2 v0)))).
  - now apply norm_vdiv.
  - unfold norm, sum_sq. cbn [vx vy vz fst snd].
    replace (0 + 0 * 0 + 1 * 1 + 0 * 0) with 1 by lra. apply sqrt_1.
Qed.

(** [HydraViewport.render_mesh_simple]: a triangle with a zero cross product
    keeps that zero vector as its normal. *)
Lemma hydra_normal_degenerate (v0 v1 v2 : Vec3) :
  cross (vsub v1 v0) (vsub v2 v0) = (0, 0, 0) ->
  HydraViewer.face_normal v0 v1 v2 = (0, 0, 0).
Proof.
  intros H. unfold HydraViewer.face_normal. rewrite H, norm_zero.
  destruct (Rlt_dec 0 0); [lra|reflexivity].
Qed.

(** Evaluation of the model that leaves real arithmetic and the face normals
    untouched. *)
Ltac run_model :=
  cbv -[Rplus Rminus Rmult Rdiv Rinv Ropp IZR Q2R sqrt Rlt_dec Req_dec_T
        cos sin PI HydraViewer.face_normal PyQt6Viewer.face_normal
        norm cross vsub].

Lemma collinear_cross :
  cross (vsub (1, 0, 0) (0, 0, 0)) (vsub (2, 0, 0) (0, 0, 0)) = (0, 0, 0).
Proof.
  unfold cross, vsub, vx, vy, vz. cbn [fst snd]. repeat f_equal; lra.
Qed.

(** C3 (fails in one path).  For the mesh [collinear_mesh], whose only
    triangle has a zero cross product, [Mesh.compute_normals] of the basic
    viewer and [GLViewport.render_mesh] give the triangle the up vector
    (0,1,0), while [HydraViewport.render_mesh_simple] issues the zero vector
    (0,0,0) as its normal: that path has no fallback branch. *)
Theorem degenerate_normal_in_each_path :
  forall (hv : HydraViewer.HydraViewport) (qv : PyQt6Viewer.GLViewport),
    option_map BasicViewer.normals
               (BasicViewer.extract_mesh_from_prim collinear_mesh)
    = Some [(0, 1, 0)] /\
    option_map geometry (PyQt6Viewer.render_mesh qv collinear_mesh)
    = Some [glBegin GL_TRIANGLES; glNormal3f 0 1 0;
            glVertex3f 0 0 0; glVertex3f 1 0 0; glVertex3f 2 0 0; glEnd] /\
    option_map geometry (HydraViewer.render_mesh_simple hv collinear_mesh)
    = Some [glBegin GL_TRIANGLES; glNormal3f 0 0 0;
            glVertex3f 0 0 0; glVertex3f 1 0 0; glVertex3f 2 0 0; glEnd].
Proof.
  intros hv qv. split; [|split].
  - run_model. rewrite collinear_cross, norm_zero.
    destruct (Rlt_dec 0 0); [lra|reflexivity].
  - destruct qv as [t [| |] g a l]; run_model;
      rewrite (pyqt6_normal_degenerate _ _ _ collinear_cross); reflexivity.
  - run_model.
    rewrite (hydra_normal_degenerate _ _ _ collinear_cross). reflexivity.
Qed.

(** ** Normals of the primitives *)

Lemma sum_sq_circle (a y : R) :
  sum_sq (cos a, y, sin a) = 1 + y * y.
Proof.
  unfold sum_sq, vx, vy, vz. cbn [fst snd].
  pose proof (sin2_cos2 a) as H. unfold Rsqr in H. lra.
Qed.

Lemma norm_gt_1 (n : Vec3) : 1 < sum_sq n -> 1 < norm n.
Proof.
  intros H. unfold norm. rewrite <- sqrt_1 at 1.
  apply sqrt_lt_1_alt. lra.
Qed.

Lemma ratio_sq_pos (r h : R) : r <> 0 -> h <> 0 -> 0 < (r / h) * (r / h).
Proof.
  intros Hr Hh.
  assert (Hq : r / h <> 0).
  { unfold Rdiv. apply Rmult_integral_contrapositive. split; [assumption|].
    now apply Rinv_neq_0_compat. }
  destruct (Rtotal_order (r / h) 0) as [Hlt|[Heq|Hgt]]; [nra|contradiction|nra].
Qed.

Lemma cone_side_normals (radius height half_h : R) (slices : Z) :
  Forall (normal_is (fun n => sum_sq n = 1 + (radius / height) * (radius / height)))
         (PyQt6Viewer.cone_side_calls radius height half_h slices).
Proof.
  unfold PyQt6Viewer.cone_side_calls.
  apply Forall_app. split; [repeat constructor|].
  apply Forall_app. split; [|repeat constructor].
  apply Forall_flat_map, Forall_forall. intros i _.
  repeat constructor. cbn [normal_is]. apply sum_sq_circle.
Qed.

(** The normals of the cylinder wall are unit vectors. *)
Lemma wall_normals_unit (radius half_h : R) (slices : Z) :
  Forall (normal_is (fun n => norm n = 1))
         (PyQt6Viewer.wall_calls radius half_h slices).
Proof.
  unfold PyQt6Viewer.wall_calls.
  apply Forall_app. split; [repeat constructor|].
  apply Forall_app. split; [|repeat constructor].
  apply Forall_flat_map, Forall_forall. intros i _.
  repeat constructor. cbn [normal_is]. unfold norm.
  rewrite sum_sq_circle. replace (1 + 0 * 0) with 1 by lra. apply sqrt_1.
Qed.

(** The normals of the sphere are unit vectors: each is the vertex position
    divided by the radius, which [or 1.0] keeps away from zero. *)
Lemma sphere_band_normals_unit (radius : R) (slices stacks i : Z) :
  radius <> 0 ->
  Forall (normal_is (fun n => norm n = 1))
         (PyQt6Viewer.sphere_band radius slices stacks i).
Proof.
  intros Hr. unfold PyQt6Viewer.sphere_band.
  assert (Hunit : forall lng lat,
             norm (cos lng * (radius * cos lat) / radius,
                   sin lng * (radius * cos lat) / radius,
                   radius * sin lat / radius) = 1).
  { intros lng lat. unfold norm.
    replace (sum_sq _) with 1; [apply sqrt_1|].
    unfold sum_sq, vx, vy, vz. cbn [fst snd].
    pose proof (sin2_cos2 lng) as H1. pose proof (sin2_cos2 lat) as H2.
    unfold Rsqr in H1, H2.
    replace (cos lng * (radius * cos lat) / radius) with (cos lng * cos lat)
      by (field; assumption).
    replace (sin lng * (radius * cos lat) / radius) with (sin lng * cos lat)
      by (field; assumption).
    replace (radius * sin lat / radius) with (sin lat) by (field; assumption).
    nra. }
  apply Forall_app. split; [repeat constructor|].
  apply Forall_app. split; [|repeat constructor].
  apply Forall_flat_map, Forall_forall. intros j _.
  repeat constructor; cbn [normal_is]; apply Hunit.
Qed.

(** C2 (fails for the cone).  For every cone prim, each normal issued for the
    side wall is [(x, radius/height, z)] with [x*x + z*z = 1], not divided by
    its length: its squared length is [1 + (radius/height)^2] and its length
    is greater than 1.  The side wall issues 25 such normals, and for a cone
    with no radius and no height set the first one is (1, 0.5, 0). *)
Theorem cone_side_normals_longer_than_one :
  forall (self : PyQt6Viewer.GLViewport) (prim : Prim),
    let r := Py.or_default (radius prim) 1.0 in
    let h := Py.or_default (height prim) 2.0 in
    let side := PyQt6Viewer.cone_side_calls r h (h / 2) 24 in
    (exists before after,
        PyQt6Viewer.render_cone self prim = before ++ side ++ after) /\
    Forall (normal_is (fun n => sum_sq n = 1 + (r / h) * (r / h) /\ 1 < norm n))
           side /\
    length (filter (fun c => match c with
                             | glNormal3f _ _ _ => true
                             | _ => false
                             end) side) = 25%nat /\
    nth 5 (PyQt6Viewer.render_cone self (bare_prim Cone)) glEnd
    = glNormal3f 1 0.5 0.
Proof.
  intros self prim r h side. split; [|split; [|split]].
  - unfold PyQt6Viewer.render_cone. fold r h. fold side.
    exists ([glPushMatrix] ++ PyQt6Viewer.apply_transform self prim
            ++ [glColor3fv (PyQt6Viewer.get_display_color prim
                                                          (0.9, 0.7, 0.2))]).
    eexists. rewrite <- !app_assoc. reflexivity.
  - pose proof (cone_side_normals r h (h / 2) 24) as H. fold side in H.
    eapply Forall_impl; [|exact H].
    intros [] Hc; cbn [normal_is] in *; try exact I.
    split; [assumption|].
    apply norm_gt_1. rewrite Hc.
    assert (0 < r / h * (r / h)).
    { apply ratio_sq_pos; apply or_default_nonzero; lra. }
    lra.
  - reflexivity.
  - unfold PyQt6Viewer.render_cone, PyQt6Viewer.apply_transform,
      PyQt6Viewer.cone_side_calls.
    rewrite (range_cons 0 (24 + 1)) by lia.
    cbn [flat_map app nth bare_prim radius height Py.or_default].
    destruct (Req_dec_T 1.0 0) as [H1|_]; [lra|].
    destruct (Req_dec_T 2.0 0) as [H2|_]; [lra|].
    replace (2 * PI * 0 / 24) with 0 by lra.
    rewrite cos_0, sin_0. f_equal. lra.
Qed.

(** ** [Mesh.render] of the basic viewer *)

Lemma getitem_some {A : Type} (l : list A) (i : Z) :
  (- Z.of_nat (length l) <= i < Z.of_nat (length l))%Z ->
  exists x, Py.getitem l i = Some x.
Proof.
  intros Hi. unfold Py.getitem.
  destruct (Z.leb_spec 0 i).
  - destruct (nth_error l (Z.to_nat i)) eqn:E; [eauto|].
    apply nth_error_None in E. lia.
  - destruct (Z.leb_spec (- Z.of_nat (length l)) i); [|lia].
    destruct (nth_error l (Z.to_nat (Z.of_nat (length l) + i))) eqn:E;
      [eauto|].
    apply nth_error_None in E. lia.
Qed.

(** ** Cube *)

Lemma cube_size_two (prim : Prim) :
  Py.or_default (size (set_size prim (Some 2))) 1.0 / 2 = 1.
Proof.
  cbn [set_size size]. rewrite or_default_some by lra. lra.
Qed.

(** C4.  A cube prim of size 2 is drawn as six quadrilaterals (one batch of
    six normals and twenty-four vertices), that is twelve triangles once the
    draw surface splits each quadrilateral in two.  The two
    triangles of each face carry, at all their corners, that face's normal,
    which is one of the six unit vectors along the axes, a different one per
    face; they share a diagonal, and their four corners are the corners of
    that face of the cube of edge 2 centred at the origin. *)
Theorem cube_of_size_two_has_twelve_flat_triangles :
  forall (self : PyQt6Viewer.GLViewport) (prim : Prim),
    let calls := PyQt6Viewer.render_cube self (set_size prim (Some 2)) in
    let tris := gl_triangles calls in
    length (filter (fun c => match c with
                             | glBegin GL_QUADS => true
                             | _ => false
                             end) calls) = 1%nat /\
    length (drawn_normals calls) = 6%nat /\
    length (drawn_vertices calls) = 24%nat /\
    length tris = 12%nat /\
    Forall2 (fun n (pair : GLTriangle * GLTriangle) =>
               let t1 := fst pair in
               let t2 := snd pair in
               flat_shaded n t1 /\ flat_shaded n t2 /\
               gv_pos (fst (fst t2)) = gv_pos (fst (fst t1)) /\
               gv_pos (snd (fst t2)) = gv_pos (snd t1) /\
               cube_face 1 n (gv_pos (fst (fst t1))) (gv_pos (snd (fst t1)))
                         (gv_pos (snd t1)) (gv_pos (snd t2)))
            axis_normals (chunk2 tris).
Proof.
  intros self prim calls tris.
  unfold tris, calls, PyQt6Viewer.render_cube.
  rewrite cube_size_two.
  unfold gl_triangles, PyQt6Viewer.cube_vertices, axis_normals, flat_shaded,
    cube_face, drawn_normals, drawn_vertices.
  cbn [PyQt6Viewer.apply_transform PyQt6Viewer.cube_faces
       PyQt6Viewer.cube_face_calls flat_map map app nth fst snd
       glNormal3fv glVertex3fv glColor3fv vx vy vz assemble asm_vertex
       length filter chunk2 gv_pos gv_normal].
  split; [reflexivity|]. split; [reflexivity|]. split; [reflexivity|].
  split; [reflexivity|].
  assert (Hneg : Rabs (Ropp 1) = 1) by (rewrite Rabs_Ropp; apply Rabs_R1).
  assert (Hpos : Rabs 1 = 1) by apply Rabs_R1.
  repeat (apply Forall2_cons;
          [cbv zeta; cbn [fst snd gv_pos gv_normal];
           split; [repeat split|];
           split; [repeat split|];
           split; [reflexivity|];
           split; [reflexivity|];
           split;
           [repeat (apply Forall_cons;
                    [cbn [vx vy vz fst snd]; rewrite ?Hneg, ?Hpos;
                     unfold dot; cbn [vx vy vz fst snd];
                     repeat split; lra|]);
            apply Forall_nil
           |unfold sum_sq, vsub; cbn [vx vy vz fst snd];
            repeat split; lra]
          |]).
  apply Forall2_nil.
Qed.

(** ** What a call sequence draws and which colours it sets *)

Lemma geometry_app (a b : list GLCall) :
  geometry (a ++ b) = geometry a ++ geometry b.
Proof. apply filter_app. Qed.

Lemma colors_of_app (a b : list GLCall) :
  colors_of (a ++ b) = colors_of a ++ colors_of b.
Proof. apply flat_map_app. Qed.

Lemma geometry_only (l : list GLCall) :
  Forall (fun c => is_geometry c = true) l ->
  geometry l = l /\ colors_of l = [].
Proof.
  induction 1 as [|c l Hc _ [IHg IHc]]; [now split|].
  unfold geometry, colors_of in *. cbn [filter flat_map].
  rewrite Hc, IHg, IHc. split; [reflexivity|].
  destruct c; try discriminate Hc; reflexivity.
Qed.

Lemma tri_calls_geometry (tris : list Triangle) :
  Forall (fun c => is_geometry c = true) (flat_map tri_calls tris).
Proof.
  apply Forall_flat_map, Forall_forall. intros t _. repeat constructor.
Qed.

Lemma cube_faces_geometry (verts : list Vec3) (fs : list (list nat * Vec3)) :
  Forall (fun c => is_geometry c = true)
         (flat_map (PyQt6Viewer.cube_face_calls verts) fs).
Proof.
  apply Forall_flat_map, Forall_forall. intros f _.
  unfold PyQt6Viewer.cube_face_calls. constructor; [reflexivity|].
  apply Forall_forall. intros c Hc. apply in_map_iff in Hc.
  destruct Hc as (k & <- & _). reflexivity.
Qed.

(** A bracketed batch whose body is built per step of a range. *)
Ltac batch_geometry :=
  repeat (apply Forall_app; split);
  try (apply Forall_flat_map, Forall_forall; intros ? _);
  try (apply Forall_forall; intros ? Hin; apply in_map_iff in Hin;
       destruct Hin as (? & <- & _); reflexivity);
  repeat constructor.

Lemma sphere_band_geometry (radius : R) (slices stacks i : Z) :
  Forall (fun c => is_geometry c = true)
         (PyQt6Viewer.sphere_band radius slices stacks i).
Proof. unfold PyQt6Viewer.sphere_band. batch_geometry. Qed.

Lemma wall_geometry (radius half_h : R) (slices : Z) :
  Forall (fun c => is_geometry c = true)
         (PyQt6Viewer.wall_calls radius half_h slices).
Proof. unfold PyQt6Viewer.wall_calls. batch_geometry. Qed.

Lemma top_cap_geometry (radius half_h : R) (slices : Z) :
  Forall (fun c => is_geometry c = true)
         (PyQt6Viewer.top_cap_calls radius half_h slices).
Proof. unfold PyQt6Viewer.top_cap_calls. batch_geometry. Qed.

Lemma bottom_cap_geometry (radius half_h : R) (slices : Z) :
  Forall (fun c => is_geometry c = true)
         (PyQt6Viewer.bottom_cap_calls radius half_h slices).
Proof. unfold PyQt6Viewer.bottom_cap_calls. batch_geometry. Qed.

Lemma cone_side_geometry (radius height half_h : R) (slices : Z) :
  Forall (fun c => is_geometry c = true)
         (PyQt6Viewer.cone_side_calls radius height half_h slices).
Proof. unfold PyQt6Viewer.cone_side_calls. batch_geometry. Qed.

Lemma hemisphere_band_geometry (radius half_h : R) (slices : Z) (sign : R)
    (lat_i : Z) :
  Forall (fun c => is_geometry c = true)
         (PyQt6Viewer.hemisphere_band radius half_h slices sign lat_i).
Proof. unfold PyQt6Viewer.hemisphere_band. batch_geometry. Qed.

Lemma vec_eta (c : Vec3) : (vx c, vy c, vz c) = c.
Proof. now destruct c as [[x y] z]. Qed.

Lemma geometry_skip (c : GLCall) :
  is_geometry c = false -> geometry [c] = [].
Proof. intros H. unfold geometry. cbn [filter]. now rewrite H. Qed.

Lemma geometry_keep (c : GLCall) :
  is_geometry c = true -> geometry [c] = [c].
Proof. intros H. unfold geometry. cbn [filter]. now rewrite H. Qed.

Lemma colors_of_color (c : Vec3) : colors_of [glColor3fv c] = [c].
Proof. unfold colors_of, glColor3fv. cbn [flat_map app]. now rewrite vec_eta. Qed.

Lemma colors_of_other (c : GLCall) :
  (forall r g b, c <> glColor3f r g b) -> colors_of [c] = [].
Proof.
  intros H. destruct c; try reflexivity. now destruct (H r g b).
Qed.

(** Splits a call sequence into its pieces and reads off which pieces draw
    and which set a colour. *)
Ltac read_calls :=
  rewrite ?geometry_app, ?colors_of_app;
  repeat match goal with
    | |- context [geometry (PyQt6Viewer.wall_calls ?r ?h ?s)] =>
        rewrite (proj1 (geometry_only _ (wall_geometry r h s)))
    | |- context [colors_of (PyQt6Viewer.wall_calls ?r ?h ?s)] =>
        rewrite (proj2 (geometry_only _ (wall_geometry r h s)))
    | |- context [geometry (PyQt6Viewer.top_cap_calls ?r ?h ?s)] =>
        rewrite (proj1 (geometry_only _ (top_cap_geometry r h s)))
    | |- context [colors_of (PyQt6Viewer.top_cap_calls ?r ?h ?s)] =>
        rewrite (proj2 (geometry_only _ (top_cap_geometry r h s)))
    | |- context [geometry (PyQt6Viewer.bottom_cap_calls ?r ?h ?s)] =>
        rewrite (proj1 (geometry_only _ (bottom_cap_geometry r h s)))
    | |- context [colors_of (PyQt6Viewer.bottom_cap_calls ?r ?h ?s)] =>
        rewrite (proj2 (geometry_only _ (bottom_cap_geometry r h s)))
    | |- context [geometry (PyQt6Viewer.cone_side_calls ?r ?t ?h ?s)] =>
        rewrite (proj1 (geometry_only _ (cone_side_geometry r t h s)))
    | |- context [colors_of (PyQt6Viewer.cone_side_calls ?r ?t ?h ?s)] =>
        rewrite (proj2 (geometry_only _ (cone_side_geometry r t h s)))
    | |- context [geometry (flat_map tri_calls ?ts)] =>
        rewrite (proj1 (geometry_only _ (tri_calls_geometry ts)))
    | |- context [colors_of (flat_map tri_calls ?ts)] =>
        rewrite (proj2 (geometry_only _ (tri_calls_geometry ts)))
    | |- context [geometry (flat_map (PyQt6Viewer.cube_face_calls ?v) ?fs)] =>
        rewrite (proj1 (geometry_only _ (cube_faces_geometry v fs)))
    | |- context [colors_of (flat_map (PyQt6Viewer.cube_face_calls ?v) ?fs)] =>
        rewrite (proj2 (geometry_only _ (cube_faces_geometry v fs)))
    end;
  rewrite ?colors_of_color;
  rewrite ?geometry_skip by reflexivity;
  rewrite ?geometry_keep by reflexivity;
  rewrite ?colors_of_other by (intros; discriminate);
  rewrite ?app_nil_r; cbn [app].

Lemma bands_geometry {A : Type} (band : A -> list GLCall) (l : list A) :
  (forall x, Forall (fun c => is_geometry c = true) (band x)) ->
  Forall (fun c => is_geometry c = true) (flat_map band l).
Proof.
  intros H. apply Forall_flat_map, Forall_forall. intros x _. apply H.
Qed.

(** What each primitive draws, and the one colour it sets. *)
Lemma cube_draws (self : PyQt6Viewer.GLViewport) (prim : Prim) :
  geometry (PyQt6Viewer.render_cube self prim)
  = [glBegin GL_QUADS]
    ++ flat_map (PyQt6Viewer.cube_face_calls
                   (PyQt6Viewer.cube_vertices
                      (Py.or_default (size prim) 1.0 / 2)))
                PyQt6Viewer.cube_faces
    ++ [glEnd] /\
  colors_of (PyQt6Viewer.render_cube self prim)
  = [PyQt6Viewer.get_display_color prim (0.3, 0.5, 0.8)].
Proof.
  unfold PyQt6Viewer.render_cube, PyQt6Viewer.apply_transform.
  split; read_calls; reflexivity.
Qed.

Lemma sphere_draws (self : PyQt6Viewer.GLViewport) (prim : Prim) :
  geometry (PyQt6Viewer.render_sphere self prim)
  = flat_map (PyQt6Viewer.sphere_band (Py.or_default (radius prim) 1.0) 24 16)
             (Py.range 0 16) /\
  colors_of (PyQt6Viewer.render_sphere self prim)
  = [PyQt6Viewer.get_display_color prim (0.8, 0.3, 0.3)].
Proof.
  unfold PyQt6Viewer.render_sphere, PyQt6Viewer.apply_transform.
  pose proof (geometry_only _ (bands_geometry _ (Py.range 0 16)
    (sphere_band_geometry (Py.or_default (radius prim) 1.0) 24 16)))
    as [Hg Hc].
  split; rewrite ?geometry_app, ?colors_of_app, ?Hg, ?Hc; read_calls;
    reflexivity.
Qed.

Lemma cylinder_draws (self : PyQt6Viewer.GLViewport) (prim : Prim) :
  let r := Py.or_default (radius prim) 1.0 in
  let h := Py.or_default (height prim) 2.0 in
  geometry (PyQt6Viewer.render_cylinder self prim)
  = PyQt6Viewer.wall_calls r (h / 2) 24
    ++ PyQt6Viewer.top_cap_calls r (h / 2) 24
    ++ PyQt6Viewer.bottom_cap_calls r (h / 2) 24 /\
  colors_of (PyQt6Viewer.render_cylinder self prim)
  = [PyQt6Viewer.get_display_color prim (0.3, 0.7, 0.3)].
Proof.
  unfold PyQt6Viewer.render_cylinder, PyQt6Viewer.apply_transform.
  split; read_calls; reflexivity.
Qed.

Lemma cone_draws (self : PyQt6Viewer.GLViewport) (prim : Prim) :
  let r := Py.or_default (radius prim) 1.0 in
  let h := Py.or_default (height prim) 2.0 in
  geometry (PyQt6Viewer.render_cone self prim)
  = PyQt6Viewer.cone_side_calls r h (h / 2) 24
    ++ PyQt6Viewer.bottom_cap_calls r (h / 2) 24 /\
  colors_of (PyQt6Viewer.render_cone self prim)
  = [PyQt6Viewer.get_display_color prim (0.9, 0.7, 0.2)].
Proof.
  unfold PyQt6Viewer.render_cone, PyQt6Viewer.apply_transform.
  split; read_calls; reflexivity.
Qed.

Lemma capsule_draws (self : PyQt6Viewer.GLViewport) (prim : Prim) :
  let r := Py.or_default (radius prim) 0.5 in
  let h := Py.or_default (height prim) 2.0 in
  geometry (PyQt6Viewer.render_capsule self prim)
  = PyQt6Viewer.wall_calls r (h / 2) 24
    ++ flat_map (fun sign =>
         flat_map (PyQt6Viewer.hemisphere_band r (h / 2) 24 sign)
                  (Py.range 0 8))
       [1; -1] /\
  colors_of (PyQt6Viewer.render_capsule self prim)
  = [PyQt6Viewer.get_display_color prim (0.8, 0.5, 0.2)].
Proof.
  unfold PyQt6Viewer.render_capsule, PyQt6Viewer.apply_transform.
  set (r := Py.or_default (radius prim) 0.5).
  set (h := Py.or_default (height prim) 2.0).
  pose proof (geometry_only _ (bands_geometry
    (fun sign => flat_map (PyQt6Viewer.hemisphere_band r (h / 2) 24 sign)
                          (Py.range 0 8)) [1; -1]
    (fun sign => bands_geometry _ (Py.range 0 8)
                   (hemisphere_band_geometry r (h / 2) 24 sign))))
    as [Hg Hc].
  split; rewrite ?geometry_app, ?colors_of_app, ?Hg, ?Hc; read_calls;
    reflexivity.
Qed.

(** ** Determinism of the primitives *)

(** C9.  What a primitive draws (its batches, normals and vertices, in order)
    is a function of its type and its shape parameters alone: two
    invocations on prims of the same primitive type with the same size,
    radius and height issue identical geometry, whatever the viewport state
    (time, draw mode, lighting) and whatever the prims' transforms and
    colours. *)
Theorem primitive_geometry_depends_on_shape_only :
  forall (s1 s2 : PyQt6Viewer.GLViewport) (p1 p2 : Prim),
    prim_type p1 = prim_type p2 ->
    prim_type p1 <> Mesh ->
    size p1 = size p2 ->
    radius p1 = radius p2 ->
    height p1 = height p2 ->
    option_map geometry (PyQt6Viewer.render_prim s1 p1)
    = option_map geometry (PyQt6Viewer.render_prim s2 p2).
Proof.
  intros s1 s2 p1 p2 Ht Hm Hs Hr Hh.
  unfold PyQt6Viewer.render_prim. rewrite <- Ht.
  destruct (prim_type p1);
    [reflexivity | contradiction | | | | | | reflexivity | reflexivity];
    cbn [option_map]; apply (f_equal Some).
  - rewrite (proj1 (cube_draws s1 p1)), (proj1 (cube_draws s2 p2)).
    now rewrite Hs.
  - rewrite (proj1 (sphere_draws s1 p1)), (proj1 (sphere_draws s2 p2)).
    now rewrite Hr.
  - destruct (cylinder_draws s1 p1) as [G1 _].
    destruct (cylinder_draws s2 p2) as [G2 _].
    cbv zeta in G1, G2. rewrite G1, G2. now rewrite Hr, Hh.
  - destruct (cone_draws s1 p1) as [G1 _].
    destruct (cone_draws s2 p2) as [G2 _].
    cbv zeta in G1, G2. rewrite G1, G2. now rewrite Hr, Hh.
  - destruct (capsule_draws s1 p1) as [G1 _].
    destruct (capsule_draws s2 p2) as [G2 _].
    cbv zeta in G1, G2. rewrite G1, G2. now rewrite Hr, Hh.
Qed.

(** Witness for C9: a bare cone in the initial viewport and a red, displaced
    cone in a wireframe viewport at a later time. *)
Lemma primitive_geometry_depends_on_shape_only_witness :
  option_map geometry
             (PyQt6Viewer.render_prim initial_viewport (bare_prim Cone))
  = option_map geometry (PyQt6Viewer.render_prim other_viewport red_cone).
Proof.
  apply primitive_geometry_depends_on_shape_only.
  - reflexivity.
  - simpl. discriminate.
  - reflexivity.
  - reflexivity.
  - reflexivity.
Defined.

(** ** Defaults of the shape parameters *)

(** C7, amended.  A primitive drawn without a shape parameter is drawn as
    with the default written in its render method, whatever its other
    parameters are: size 1.0 for the cube, radius 1.0 for sphere, cylinder and
    cone, radius 0.5 for the capsule, and height 2.0 for cylinder, cone and
    capsule.  Each default stands in for its own parameter alone: a prim that
    lacks only the radius, or only the height, gets just that one, and a prim
    that lacks both gets both. *)
Theorem absent_shape_parameters_take_type_defaults :
  forall (self : PyQt6Viewer.GLViewport) (prim : Prim),
    PyQt6Viewer.render_cube self (set_size prim None)
    = PyQt6Viewer.render_cube self (set_size prim (Some 1.0)) /\
    PyQt6Viewer.render_sphere self (set_radius prim None)
    = PyQt6Viewer.render_sphere self (set_radius prim (Some 1.0)) /\
    (PyQt6Viewer.render_cylinder self (set_radius prim None)
     = PyQt6Viewer.render_cylinder self (set_radius prim (Some 1.0)) /\
     PyQt6Viewer.render_cylinder self (set_height prim None)
     = PyQt6Viewer.render_cylinder self (set_height prim (Some 2.0)) /\
     PyQt6Viewer.render_cylinder self (set_radius (set_height prim None) None)
     = PyQt6Viewer.render_cylinder
         self (set_radius (set_height prim (Some 2.0)) (Some 1.0))) /\
    (PyQt6Viewer.render_cone self (set_radius prim None)
     = PyQt6Viewer.render_cone self (set_radius prim (Some 1.0)) /\
     PyQt6Viewer.render_cone self (set_height prim None)
     = PyQt6Viewer.render_cone self (set_height prim (Some 2.0)) /\
     PyQt6Viewer.render_cone self (set_radius (set_height prim None) None)
     = PyQt6Viewer.render_cone
         self (set_radius (set_height prim (Some 2.0)) (Some 1.0))) /\
    (PyQt6Viewer.render_capsule self (set_radius prim None)
     = PyQt6Viewer.render_capsule self (set_radius prim (Some 0.5)) /\
     PyQt6Viewer.render_capsule self (set_height prim None)
     = PyQt6Viewer.render_capsule self (set_height prim (Some 2.0)) /\
     PyQt6Viewer.render_capsule self (set_radius (set_height prim None) None)
     = PyQt6Viewer.render_capsule
         self (set_radius (set_height prim (Some 2.0)) (Some 0.5))).
Proof.
  intros self prim.
  assert (H1 : Py.or_default (Some 1.0) 1.0 = Py.or_default None 1.0)
    by (apply or_default_same; lra).
  assert (H2 : Py.or_default (Some 2.0) 2.0 = Py.or_default None 2.0)
    by (apply or_default_same; lra).
  assert (H5 : Py.or_default (Some 0.5) 0.5 = Py.or_default None 0.5)
    by (apply or_default_same; lra).
  unfold PyQt6Viewer.render_cube, PyQt6Viewer.render_sphere,
    PyQt6Viewer.render_cylinder, PyQt6Viewer.render_cone,
    PyQt6Viewer.render_capsule, PyQt6Viewer.apply_transform,
    PyQt6Viewer.get_display_color.
  cbn [set_size set_radius set_height size radius height displayColor
       localToWorld].
  rewrite H1, H2, H5.
  split; [reflexivity|]. split; [reflexivity|].
  split; [split; [reflexivity|split; reflexivity]|].
  split; [split; [reflexivity|split; reflexivity]|].
  split; [reflexivity|split; reflexivity].
Qed.

(** C7 as stated fails: a capsule without a radius is not drawn as a capsule
    of radius 1.0 (its default radius is 0.5). *)
Lemma capsule_radius_default_is_not_one :
  ~ (forall (self : PyQt6Viewer.GLViewport) (prim : Prim),
       radius prim = None ->
       PyQt6Viewer.render_prim self prim
       = PyQt6Viewer.render_prim self (set_radius prim (Some 1.0))).
Proof.
  intros H.
  specialize (H initial_viewport (bare_prim Capsule) eq_refl).
  unfold PyQt6Viewer.render_prim in H.
  cbn [prim_type bare_prim set_radius] in H.
  apply (f_equal (option_map geometry)) in H. cbn [option_map] in H.
  destruct (capsule_draws initial_viewport (bare_prim Capsule)) as [G1 _].
  destruct (capsule_draws initial_viewport
              (set_radius (bare_prim Capsule) (Some 1.0))) as [G2 _].
  cbv zeta in G1, G2. cbn [bare_prim set_radius radius height] in G1, G2, H.
  rewrite G1, G2 in H. clear G1 G2.
  rewrite or_default_some in H by lra.
  cbn [Py.or_default] in H.
  apply (f_equal (fun o => match o with
                          | Some l => nth 2 l glEnd
                          | None => glEnd
                          end)) in H.
  unfold PyQt6Viewer.wall_calls in H.
  rewrite (range_cons 0 (24 + 1)) in H by lia.
  cbn [flat_map app nth] in H.
  assert (Hx : cos (2 * PI * 0 / 24) * 0.5 = cos (2 * PI * 0 / 24) * 1.0).
  { exact (f_equal (fun c => match c with
                             | glVertex3f x _ _ => x
                             | _ => 0
                             end) H). }
  replace (2 * PI * 0 / 24) with 0 in Hx by lra.
  rewrite cos_0 in Hx. lra.
Qed.

(** ** Display colour *)

Lemma pyqt6_mesh_color (self : PyQt6Viewer.GLViewport) (prim : Prim) :
  match PyQt6Viewer.render_mesh self prim with
  | Some calls =>
      calls = [] \/
      colors_of calls = [PyQt6Viewer.get_display_color prim neutral_gray]
  | None => True
  end.
Proof.
  unfold PyQt6Viewer.render_mesh.
  destruct (points prim _) as [[|p ps]|]; try (left; reflexivity).
  destruct (faceVertexIndices prim) as [[|i irest]|]; try (left; reflexivity).
  destruct (faceVertexCounts prim) as [[|c crest]|]; try (left; reflexivity).
  destruct (faces_loop _ _ _ _ _) as [tris|]; cbn [bind]; [|exact I].
  right. unfold PyQt6Viewer.apply_transform, PyQt6Viewer.default_color.
  destruct (PyQt6Viewer.draw_mode self); read_calls; reflexivity.
Qed.

Lemma hydra_mesh_color (self : HydraViewer.HydraViewport) (prim : Prim) :
  displayColor prim = None ->
  match HydraViewer.render_mesh_simple self prim with
  | Some calls => calls = [] \/ colors_of calls = [neutral_gray]
  | None => True
  end.
Proof.
  intros Hcol. unfold HydraViewer.render_mesh_simple. rewrite Hcol.
  destruct (points prim _) as [[|p ps]|]; try (left; reflexivity).
  destruct (faceVertexIndices prim) as [[|i irest]|]; try (left; reflexivity).
  destruct (faceVertexCounts prim) as [[|c crest]|]; try (left; reflexivity).
  destruct (faces_loop _ _ _ _ _) as [tris|]; cbn [bind]; [|exact I].
  right. read_calls. reflexivity.
Qed.

Lemma render_face_geometry (verts : list Vec3) (idxs : list Z)
    (calls : list GLCall) :
  BasicViewer.render_face verts idxs = Some calls ->
  Forall (fun c => is_geometry c = true) calls.
Proof.
  revert calls. induction idxs as [|i idxs IH]; intros calls H.
  - injection H as <-. constructor.
  - cbn [BasicViewer.render_face] in H.
    destruct (i <? Z.of_nat (length verts))%Z; [|now apply IH].
    destruct (Py.getitem verts i) as [v|]; [|discriminate].
    destruct (BasicViewer.render_face verts idxs) as [cs|]; [|discriminate].
    cbn [bind] in H. injection H as <-.
    constructor; [reflexivity|now apply IH].
Qed.

Lemma render_faces_geometry (self : BasicViewer.MeshData)
    (fs : list (list Z)) (i : nat) (calls : list GLCall) :
  BasicViewer.render_faces self i fs = Some calls ->
  Forall (fun c => is_geometry c = true) calls.
Proof.
  revert i calls. induction fs as [|face fs IH]; intros i calls H.
  - injection H as <-. constructor.
  - cbn [BasicViewer.render_faces] in H.
    destruct (BasicViewer.render_face _ _) as [vs|] eqn:Hvs; [|discriminate].
    destruct (BasicViewer.render_faces self (S i) fs) as [cs|] eqn:Hcs;
      [|discriminate].
    cbn [bind] in H. injection H as <-.
    apply Forall_app. split.
    + destruct (i <? length (BasicViewer.normals self))%nat;
        [|constructor].
      destruct (nth_error _ i); repeat constructor.
    + apply Forall_app. split.
      * eapply render_face_geometry; eassumption.
      * eapply IH; eassumption.
Qed.

(** In filled mode [Mesh.render] sets the mesh's own colour, once. *)
Lemma basic_render_color (self : BasicViewer.MeshData) :
  match BasicViewer.render self false with
  | Some calls => colors_of calls = [BasicViewer.color self]
  | None => True
  end.
Proof.
  unfold BasicViewer.render.
  destruct (BasicViewer.render_faces self 0 (BasicViewer.faces self))
    as [body|] eqn:Hbody; cbn [bind]; [|exact I].
  pose proof (geometry_only _ (render_faces_geometry _ _ _ _ Hbody))
    as [_ Hc].
  rewrite !colors_of_app, Hc.
  unfold colors_of, glColor3fv. cbn [flat_map app].
  now rewrite vec_eta.
Qed.

Lemma basic_extracted_color (prim : Prim) :
  displayColor prim = None ->
  match BasicViewer.extract_mesh_from_prim prim with
  | Some m => BasicViewer.color m = neutral_gray
  | None => True
  end.
Proof.
  intros Hcol. unfold BasicViewer.extract_mesh_from_prim. rewrite Hcol.
  unfold BasicViewer.compute_normals.
  cbn [BasicViewer.vertices BasicViewer.faces BasicViewer.color
       BasicViewer.transform BasicViewer.Mesh_init].
  destruct (BasicViewer.normals_loop _ _); cbn [bind]; [reflexivity|exact I].
Qed.

(** C8, amended.  A mesh prim without a display colour is drawn in the
    neutral gray (0.7, 0.7, 0.8) by all three viewers (whenever it is drawn at
    all); a primitive without a display colour is drawn in the colour fixed
    for its type: cube (0.3, 0.5, 0.8), sphere (0.8, 0.3, 0.3), cylinder
    (0.3, 0.7, 0.3), cone (0.9, 0.7, 0.2), capsule (0.8, 0.5, 0.2). *)
Theorem default_color_by_prim_kind :
  forall (qv : PyQt6Viewer.GLViewport) (hv : HydraViewer.HydraViewport)
         (prim : Prim),
    let p := set_displayColor prim None in
    match PyQt6Viewer.render_mesh qv p with
    | Some calls => calls = [] \/ colors_of calls = [neutral_gray]
    | None => True
    end /\
    match HydraViewer.render_mesh_simple hv p with
    | Some calls => calls = [] \/ colors_of calls = [neutral_gray]
    | None => True
    end /\
    match BasicViewer.extract_mesh_from_prim p with
    | Some m =>
        BasicViewer.color m = neutral_gray /\
        match BasicViewer.render m false with
        | Some calls => colors_of calls = [neutral_gray]
        | None => True
        end
    | None => True
    end /\
    option_map colors_of (PyQt6Viewer.render_mesh qv square_mesh)
    = Some [neutral_gray] /\
    colors_of (PyQt6Viewer.render_cube qv p) = [(0.3, 0.5, 0.8)] /\
    colors_of (PyQt6Viewer.render_sphere qv p) = [(0.8, 0.3, 0.3)] /\
    colors_of (PyQt6Viewer.render_cylinder qv p) = [(0.3, 0.7, 0.3)] /\
    colors_of (PyQt6Viewer.render_cone qv p) = [(0.9, 0.7, 0.2)] /\
    colors_of (PyQt6Viewer.render_capsule qv p) = [(0.8, 0.5, 0.2)].
Proof.
  intros qv hv prim p.
  assert (Hp : displayColor p = None) by reflexivity.
  split; [|split; [|split; [|split]]].
  - pose proof (pyqt6_mesh_color qv p) as H.
    unfold PyQt6Viewer.get_display_color in H. rewrite Hp in H. exact H.
  - now apply hydra_mesh_color.
  - pose proof (basic_extracted_color p Hp) as H.
    destruct (BasicViewer.extract_mesh_from_prim p) as [m|]; [|exact I].
    split; [exact H|].
    pose proof (basic_render_color m) as Hr. rewrite H in Hr. exact Hr.
  - pose proof (pyqt6_mesh_color qv square_mesh) as H.
    destruct (PyQt6Viewer.render_mesh qv square_mesh) as [calls|] eqn:E.
    + destruct H as [H|H].
      * exfalso. subst calls. revert E. clear.
        unfold PyQt6Viewer.render_mesh.
        cbn [points faceVertexIndices faceVertexCounts square_mesh].
        destruct (faces_loop _ _ _ _ _); cbn [bind]; [|discriminate].
        intros E. apply (f_equal (option_map (@length GLCall))) in E.
        cbn [option_map app length] in E. discriminate.
      * cbn [option_map]. now rewrite H.
    + exfalso. revert E. clear. unfold PyQt6Viewer.render_mesh.
      cbn [points faceVertexIndices faceVertexCounts square_mesh].
      match goal with
      | |- context [faces_loop ?n ?pts ?ind ?z ?cnt] =>
          destruct (faces_loop_spec n pts ind) with (counts := cnt) (idx := z)
            as (tris & Ht & _)
      end.
      * repeat constructor; cbn [length]; lia.
      * lia.
      * repeat constructor. lia.
      * cbn [sum_counts fold_right length]. lia.
      * rewrite Ht. cbn [bind]. discriminate.
  - rewrite (proj2 (cube_draws qv p)).
    rewrite (proj2 (sphere_draws qv p)).
    destruct (cylinder_draws qv p) as [_ ->].
    destruct (cone_draws qv p) as [_ ->].
    destruct (capsule_draws qv p) as [_ ->].
    unfold PyQt6Viewer.get_display_color. rewrite Hp. repeat split.
Qed.

(** C8 as stated fails: a cube without a display colour is not drawn in the
    neutral gray. *)
Lemma cube_default_color_is_not_gray :
  ~ (forall (self : PyQt6Viewer.GLViewport) (prim : Prim)
            (calls : list GLCall),
       displayColor prim = None ->
       PyQt6Viewer.render_prim self prim = Some calls ->
       Forall (fun c => c = neutral_gray) (colors_of calls)).
Proof.
  intros H.
  specialize (H initial_viewport (bare_prim Cube) _ eq_refl eq_refl).
  rewrite (proj2 (cube_draws initial_viewport (bare_prim Cube))) in H.
  apply Forall_inv in H.
  unfold PyQt6Viewer.get_display_color, neutral_gray in H.
  cbn [displayColor bare_prim] in H.
  assert (Hx : 0.3 = 0.7) by exact (f_equal (fun v => fst (fst v)) H).
  lra.
Qed.

(** ** The sample cube and the unit square *)

Lemma vec_eq (a b c x y z : R) :
  a = x -> b = y -> c = z -> (a, b, c) = (x, y, z).
Proof. now intros -> -> ->. Qed.

(** A triangle whose cross product already has length 1 keeps it as its
    normal. *)
Lemma unit_cross_normal (e1 e2 n fallback : Vec3) :
  cross e1 e2 = n ->
  sum_sq n = 1 ->
  (if Rlt_dec 0 (norm (cross e1 e2))
   then vdiv (cross e1 e2) (norm (cross e1 e2)) else fallback) = n.
Proof.
  intros -> Hn. unfold norm. rewrite Hn, sqrt_1.
  destruct (Rlt_dec 0 1); [|lra].
  destruct n as [[a b] c]. unfold vdiv, vx, vy, vz. cbn [fst snd].
  apply vec_eq; lra.
Qed.

Ltac axis_cross :=
  unfold cross, vsub, vx, vy, vz; cbn [fst snd]; apply vec_eq; lra.

Ltac unit_sum :=
  unfold sum_sq, vx, vy, vz; cbn [fst snd]; lra.

(** Replaces the first normal still to be computed by [n]. *)
Ltac axis_normal n :=
  match goal with
  | |- context [if Rlt_dec 0 (norm (cross ?a ?b)) then _ else ?f] =>
      rewrite (unit_cross_normal a b n f) by (axis_cross || unit_sum)
  end.

(** [create_sample_cube] of the basic viewer: twelve triangles, and the two
    triangles of each face get the same computed normal, a unit vector along
    an axis. *)
Lemma sample_cube_flat_normals :
  option_map (fun m => (length (BasicViewer.faces m), BasicViewer.normals m))
             BasicViewer.create_sample_cube
  = Some (12%nat,
          [(0, 0, 1); (0, 0, 1); (0, 0, -1); (0, 0, -1);
           (0, 1, 0); (0, 1, 0); (0, -1, 0); (0, -1, 0);
           (1, 0, 0); (1, 0, 0); (-1, 0, 0); (-1, 0, 0)]).
Proof.
  cbv -[Rplus Rminus Rmult Rdiv Rinv Ropp IZR Q2R sqrt Rlt_dec Req_dec_T
        norm cross vsub vdiv up_vector Vec3 Rlt Rle Rgt Rge not].
  axis_normal (0, 0, 1).
  axis_normal (0, 0, 1).
  axis_normal (0, 0, -1).
  axis_normal (0, 0, -1).
  axis_normal (0, 1, 0).
  axis_normal (0, 1, 0).
  axis_normal (0, -1, 0).
  axis_normal (0, -1, 0).
  axis_normal (1, 0, 0).
  axis_normal (1, 0, 0).
  axis_normal (-1, 0, 0).
  axis_normal (-1, 0, 0).
  reflexivity.
Qed.

Lemma pyqt6_normal_unit_cross (v0 v1 v2 n : Vec3) :
  cross (vsub v1 v0) (vsub v2 v0) = n ->
  sum_sq n = 1 ->
  PyQt6Viewer.face_normal v0 v1 v2 = n.
Proof.
  intros Hc Hn. unfold PyQt6Viewer.face_normal.
  now apply unit_cross_normal.
Qed.

(** The unit square given as one four-sided face becomes the triangles
    (0,1,2) and (0,2,3), both with normal (0,0,1). *)
Lemma square_mesh_two_triangles :
  forall qv : PyQt6Viewer.GLViewport,
    BasicViewer.extract_faces [4]%Z [0; 1; 2; 3]%Z 0
    = [[0; 1; 2]; [0; 2; 3]]%Z /\
    option_map geometry (PyQt6Viewer.render_mesh qv square_mesh)
    = Some [glBegin GL_TRIANGLES;
            glNormal3f 0 0 1;
            glVertex3f 0 0 0; glVertex3f 1 0 0; glVertex3f 1 1 0;
            glNormal3f 0 0 1;
            glVertex3f 0 0 0; glVertex3f 1 1 0; glVertex3f 0 1 0;
            glEnd].
Proof.
  intros qv. split; [reflexivity|].
  destruct qv as [t [| |] g a l]; run_model;
    rewrite (pyqt6_normal_unit_cross (0, 0, 0) (1, 0, 0) (1, 1, 0) (0, 0, 1))
      by (axis_cross || unit_sum);
    rewrite (pyqt6_normal_unit_cross (0, 0, 0) (1, 1, 0) (0, 1, 0) (0, 0, 1))
      by (axis_cross || unit_sum);
    reflexivity.
Qed.

(** With too few indices the basic viewer truncates the face: the contract of
    the triangulator is needed for the count [count - 2]. *)
Lemma truncated_face_loses_triangles :
  BasicViewer.extract_faces [4]%Z [0; 1; 2]%Z 0 = [[0; 1; 2]]%Z.
Proof. reflexivity. Qed.

(** What [GLViewport.render_mesh] draws is the triangle list of its loops. *)
Lemma render_mesh_draws (self : PyQt6Viewer.GLViewport) (prim : Prim)
    (p : Vec3) (ps : list Vec3) (i : Z) (irest : list Z) (c : Z)
    (crest : list Z) (tris : list Triangle) :
  points prim (At (PyQt6Viewer.time_code self)) = Some (p :: ps) ->
  faceVertexIndices prim = Some (i :: irest) ->
  faceVertexCounts prim = Some (c :: crest) ->
  faces_loop PyQt6Viewer.face_normal (p :: ps) (i :: irest) 0 (c :: crest)
  = Some tris ->
  option_map geometry (PyQt6Viewer.render_mesh self prim)
  = Some ([glBegin GL_TRIANGLES] ++ flat_map tri_calls tris ++ [glEnd]).
Proof.
  intros Hp Hi Hc Ht. unfold PyQt6Viewer.render_mesh.
  rewrite Hp, Hi, Hc, Ht. cbn [bind option_map].
  apply (f_equal Some). unfold PyQt6Viewer.apply_transform.
  destruct (PyQt6Viewer.draw_mode self); read_calls; reflexivity.
Qed.

(** * Further properties of the viewers *)

(** ** Zooming *)

Lemma zoom_clamp_in_range (lo hi d : R) :
  lo <= hi -> lo <= Py.max2 lo (Py.min2 hi d) <= hi.
Proof.
  intros H. unfold Py.max2, Py.min2.
  destruct (Rlt_dec d hi); destruct (Rlt_dec lo _); lra.
Qed.

Section ZoomRange.

Context {C : Type}.
Variable distance : C -> R.
Variable zoom : C -> R -> C.
Variables lo hi : R.
Hypothesis lo_hi : lo <= hi.
Hypothesis zoom_distance : forall c delta,
  exists d, distance (zoom c delta) = Py.max2 lo (Py.min2 hi d).

Lemma zooms_in_range (deltas : list R) (c : C) :
  lo <= distance c <= hi -> lo <= distance (zooms zoom c deltas) <= hi.
Proof.
  revert c. induction deltas as [|delta deltas IH]; intros c Hc; [exact Hc|].
  change (zooms zoom c (delta :: deltas))
    with (zooms zoom (zoom c delta) deltas).
  apply IH. destruct (zoom_distance c delta) as (d & ->).
  now apply zoom_clamp_in_range.
Qed.

Lemma zooms_in_range_after_one (delta : R) (deltas : list R) (c : C) :
  lo <= distance (zooms zoom c (delta :: deltas)) <= hi.
Proof.
  change (zooms zoom c (delta :: deltas))
    with (zooms zoom (zoom c delta) deltas).
  apply zooms_in_range. destruct (zoom_distance c delta) as (d & ->).
  now apply zoom_clamp_in_range.
Qed.

End ZoomRange.

(** X1.  After at least one [zoom] call, and after any number of further
    ones, the distance lies in [0.1, 100] for the camera of the basic viewer
    and in [0.01, 10000] for the cameras of the Qt viewers, whatever the
    distance was before and whatever the wheel deltas are; so the distance
    stays positive. *)
Theorem zoom_keeps_distance_in_range :
  forall (delta : R) (deltas : list R)
         (cb : BasicCamera.Camera) (cq : PyQt6Camera.Camera)
         (ch : HydraCamera.Camera),
    0.1 <= BasicCamera.distance
             (zooms BasicCamera.zoom cb (delta :: deltas)) <= 100 /\
    0.01 <= PyQt6Camera.distance
              (zooms PyQt6Camera.zoom cq (delta :: deltas)) <= 10000 /\
    0.01 <= HydraCamera.distance
              (zooms HydraCameraOps.zoom ch (delta :: deltas)) <= 10000.
Proof.
  intros delta deltas cb cq ch. split; [|split].
  - assert (H : 0.1 <= BasicCamera.distance
                         (zooms BasicCamera.zoom cb (delta :: deltas))
                <= 100.0).
    { apply (zooms_in_range_after_one BasicCamera.distance BasicCamera.zoom
               0.1 100.0); [lra|].
      intros c d. eexists. reflexivity. }
    lra.
  - apply (zooms_in_range_after_one PyQt6Camera.distance PyQt6Camera.zoom
             0.01 10000); [lra|].
    intros c d. eexists. reflexivity.
  - apply (zooms_in_range_after_one HydraCamera.distance HydraCameraOps.zoom
             0.01 10000); [lra|].
    intros c d. eexists. reflexivity.
Qed.

(** ** Panning *)







Section Pans.

Context {C : Type}.
Variable pan : C -> R -> R -> C.
Hypothesis pan_pan :
  forall c dx1 dy1 dx2 dy2,
    pan (pan c dx1 dy1) dx2 dy2 = pan c (dx1 + dx2) (dy1 + dy2).
Hypothesis pan_none : forall c, pan c 0 0 = c.


End Pans.



(** ** Eye position *)

Lemma orbit_offset_sq (d el az : R) :
  (d * cos el * sin az) * (d * cos el * sin az)
  + (d * sin el) * (d * sin el)
  + (d * cos el * cos az) * (d * cos el * cos az) = d * d.
Proof.
  pose proof (sin2_cos2 el) as H1. pose proof (sin2_cos2 az) as H2.
  unfold Rsqr in H1, H2.
  replace ((d * cos el * sin az) * (d * cos el * sin az)
           + (d * sin el) * (d * sin el)
           + (d * cos el * cos az) * (d * cos el * cos az))
    with (d * d * (cos el * cos el * (sin az * sin az + cos az * cos az)
                   + sin el * sin el)) by ring.
  rewrite H2. replace (cos el * cos el * 1 + sin el * sin el)
    with (sin el * sin el + cos el * cos el) by ring.
  rewrite H1. ring.
Qed.

Lemma norm_of_square (v : Vec3) (d : R) :
  sum_sq v = d * d -> norm v = Rabs d.
Proof.
  intros H. unfold norm. rewrite H. apply sqrt_Rsqr_abs.
Qed.

(** X3.  The eye lies on the sphere around the target whose radius is the
    camera distance: the length of eye minus target is the absolute value of
    [distance], for every azimuth and elevation, in all three cameras. *)
Theorem eye_is_at_camera_distance :
  forall (cb : BasicCamera.Camera) (cq : PyQt6Camera.Camera)
         (ch : HydraCamera.Camera),
    norm (vsub (BasicCameraOps.apply_eye cb) (BasicCamera.target cb))
    = Rabs (BasicCamera.distance cb) /\
    norm (vsub (PyQt6CameraOps.get_position cq) (PyQt6Camera.target cq))
    = Rabs (PyQt6Camera.distance cq) /\
    norm (vsub (HydraCameraOps.get_position ch) (HydraCamera.target ch))
    = Rabs (HydraCamera.distance ch).
Proof.
  intros cb cq ch. repeat split; apply norm_of_square;
    unfold sum_sq, vsub, BasicCameraOps.apply_eye,
      PyQt6CameraOps.get_position, HydraCameraOps.get_position;
    cbn [vx vy vz fst snd].
  - rewrite <- (orbit_offset_sq (BasicCamera.distance cb)
                  (radians (BasicCamera.elevation cb))
                  (radians (BasicCamera.azimuth cb))). ring.
  - rewrite <- (orbit_offset_sq (PyQt6Camera.distance cq)
                  (radians (PyQt6Camera.elevation cq))
                  (radians (PyQt6Camera.azimuth cq))). ring.
  - rewrite <- (orbit_offset_sq (HydraCamera.distance ch)
                  (radians (HydraCamera.elevation ch))
                  (radians (HydraCamera.azimuth ch))). ring.
Qed.

(** X4.  Panning carries the eye along with the target (the eye moves by the
    same vector as the target), and a horizontal pan moves the target at right
    angles to the line from the target to the eye. *)
Theorem pan_carries_the_eye_sideways :
  forall (cq : PyQt6Camera.Camera) (ch : HydraCamera.Camera)
         (cb : BasicCamera.Camera) (dx dy w h : R),
    vsub (PyQt6CameraOps.get_position (PyQt6CameraOps.pan cq dx dy))
         (PyQt6CameraOps.get_position cq)
    = vsub (PyQt6Camera.target (PyQt6CameraOps.pan cq dx dy))
           (PyQt6Camera.target cq) /\
    dot (vsub (PyQt6Camera.target (PyQt6CameraOps.pan cq dx 0))
              (PyQt6Camera.target cq))
        (vsub (PyQt6CameraOps.get_position cq) (PyQt6Camera.target cq)) = 0 /\
    vsub (HydraCameraOps.get_position (HydraCameraOps.pan ch dx dy w h))
         (HydraCameraOps.get_position ch)
    = vsub (HydraCamera.target (HydraCameraOps.pan ch dx dy w h))
           (HydraCamera.target ch) /\
    dot (vsub (HydraCamera.target (HydraCameraOps.pan ch dx 0 w h))
              (HydraCamera.target ch))
        (vsub (HydraCameraOps.get_position ch) (HydraCamera.target ch)) = 0 /\
    vsub (BasicCameraOps.apply_eye (BasicCameraOps.pan cb dx dy))
         (BasicCameraOps.apply_eye cb)
    = vsub (BasicCamera.target (BasicCameraOps.pan cb dx dy))
           (BasicCamera.target cb) /\
    dot (vsub (BasicCamera.target (BasicCameraOps.pan cb dx 0))
              (BasicCamera.target cb))
        (vsub (BasicCameraOps.apply_eye cb) (BasicCamera.target cb)) = 0.
Proof.
  intros [d' a' e' [[tx' ty'] tz'] fv nr fr]
         [d'' a'' e'' [[tx'' ty''] tz''] fv' nr' fr']
         [d a e [[tx ty] tz]] dx dy w h.
  unfold PyQt6CameraOps.get_position, PyQt6CameraOps.pan,
    HydraCameraOps.get_position, HydraCameraOps.pan,
    BasicCameraOps.apply_eye, BasicCameraOps.pan, vsub, dot.
  cbn [BasicCamera.distance BasicCamera.azimuth BasicCamera.elevation
       BasicCamera.target PyQt6Camera.distance PyQt6Camera.azimuth
       PyQt6Camera.elevation PyQt6Camera.target HydraCamera.distance
       HydraCamera.azimuth HydraCamera.elevation HydraCamera.target
       vx vy vz fst snd].
  repeat split; try (apply vec_eq; ring); ring.
Qed.

(** ** The clamp keeps the eye off the vertical through the target *)

Lemma cos_clamped_elevation_pos (e : R) :
  -89 <= e <= 89 -> 0 < cos (radians e).
Proof.
  intros He. pose proof PI_RGT_0 as Hpi. unfold radians.
  apply cos_gt_0; nra.
Qed.

Lemma horizontal_offset_sq (d el az : R) :
  (d * cos el * sin az) * (d * cos el * sin az)
  + (d * cos el * cos az) * (d * cos el * cos az)
  = (d * cos el) * (d * cos el).
Proof.
  pose proof (sin2_cos2 az) as H. unfold Rsqr in H.
  replace ((d * cos el * sin az) * (d * cos el * sin az)
           + (d * cos el * cos az) * (d * cos el * cos az))
    with ((d * cos el) * (d * cos el)
          * (sin az * sin az + cos az * cos az)) by ring.
  rewrite H. ring.
Qed.

(** X5.  After any [rotate], a camera at non-zero distance has its eye off
    the vertical line through the target: the horizontal part of eye minus
    target is not zero, so the viewing direction is never parallel to the up
    vector (0, 1, 0). *)
Theorem rotate_keeps_eye_off_the_vertical :
  forall (cq : PyQt6Camera.Camera) (ch : HydraCamera.Camera)
         (cb : BasicCamera.Camera) (dx dy : R),
    PyQt6Camera.distance cq <> 0 ->
    HydraCamera.distance ch <> 0 ->
    BasicCamera.distance cb <> 0 ->
    let q := PyQt6Camera.rotate cq dx dy in
    let h := HydraCamera.rotate ch dx dy in
    let b := BasicCamera.rotate cb dx dy in
    let oq := vsub (PyQt6CameraOps.get_position q) (PyQt6Camera.target q) in
    let oh := vsub (HydraCameraOps.get_position h) (HydraCamera.target h) in
    let ob := vsub (BasicCameraOps.apply_eye b) (BasicCamera.target b) in
    0 < vx oq * vx oq + vz oq * vz oq /\
    0 < vx oh * vx oh + vz oh * vz oh /\
    0 < vx ob * vx ob + vz ob * vz ob.
Proof.
  intros cq ch cb dx dy Hq Hh Hb q h b oq oh ob.
  assert (Hpos : forall d e, d <> 0 -> -89 <= e <= 89 ->
                             0 < (d * cos (radians e)) * (d * cos (radians e))).
  { intros d e Hd He. pose proof (cos_clamped_elevation_pos e He) as Hc.
    assert (d * cos (radians e) <> 0)
      by (apply Rmult_integral_contrapositive; split; lra).
    destruct (Rtotal_order (d * cos (radians e)) 0) as [|[|]]; nra. }
  unfold oq, oh, ob, q, h, b, PyQt6CameraOps.get_position,
    HydraCameraOps.get_position, BasicCameraOps.apply_eye,
    PyQt6Camera.rotate, HydraCamera.rotate, BasicCamera.rotate, vsub.
  cbn [BasicCamera.distance BasicCamera.azimuth BasicCamera.elevation
       BasicCamera.target PyQt6Camera.distance PyQt6Camera.azimuth
       PyQt6Camera.elevation PyQt6Camera.target HydraCamera.distance
       HydraCamera.azimuth HydraCamera.elevation HydraCamera.target
       vx vy vz fst snd].
  repeat split.
  - match goal with
    | |- 0 < (_ + ?d * cos ?el * sin ?az - _) * _ + _ =>
        replace (vx (PyQt6Camera.target cq) + d * cos el * sin az
                 - vx (PyQt6Camera.target cq)) with (d * cos el * sin az)
          by ring;
        replace (vz (PyQt6Camera.target cq) + d * cos el * cos az
                 - vz (PyQt6Camera.target cq)) with (d * cos el * cos az)
          by ring;
        rewrite (horizontal_offset_sq d el az)
    end.
    apply Hpos; [assumption|apply clamp_in_range].
  - match goal with
    | |- 0 < (_ + ?d * cos ?el * sin ?az - _) * _ + _ =>
        replace (vx (HydraCamera.target ch) + d * cos el * sin az
                 - vx (HydraCamera.target ch)) with (d * cos el * sin az)
          by ring;
        replace (vz (HydraCamera.target ch) + d * cos el * cos az
                 - vz (HydraCamera.target ch)) with (d * cos el * cos az)
          by ring;
        rewrite (horizontal_offset_sq d el az)
    end.
    apply Hpos; [assumption|apply clamp_in_range].
  - match goal with
    | |- 0 < (_ + ?d * cos ?el * sin ?az - _) * _ + _ =>
        replace (vx (BasicCamera.target cb) + d * cos el * sin az
                 - vx (BasicCamera.target cb)) with (d * cos el * sin az)
          by ring;
        replace (vz (BasicCamera.target cb) + d * cos el * cos az
                 - vz (BasicCamera.target cb)) with (d * cos el * cos az)
          by ring;
        rewrite (horizontal_offset_sq d el az)
    end.
    apply Hpos; [assumption|apply clamp_in_range].
Qed.

(** Witness for X5: the initial cameras after a drag by (40, 500). *)
Lemma rotate_keeps_eye_off_the_vertical_witness :
  let q := PyQt6Camera.rotate PyQt6Camera.init 40 500 in
  let oq := vsub (PyQt6CameraOps.get_position q) (PyQt6Camera.target q) in
  0 < vx oq * vx oq + vz oq * vz oq.
Proof.
  assert (Hq : PyQt6Camera.distance PyQt6Camera.init <> 0) by (simpl; lra).
  assert (Hh : HydraCamera.distance HydraCamera.init <> 0) by (simpl; lra).
  assert (Hb : BasicCamera.distance BasicCamera.init <> 0) by (simpl; lra).
  exact (proj1 (rotate_keeps_eye_off_the_vertical
                  PyQt6Camera.init HydraCamera.init BasicCamera.init
                  40 500 Hq Hh Hb)).
Defined.

(** ** The fallback look-at matrix *)

Lemma dot_cross_left (a b : Vec3) : dot (cross a b) a = 0.
Proof. unfold dot, cross, vx, vy, vz. cbn [fst snd]. ring. Qed.

Lemma dot_cross_right (a b : Vec3) : dot (cross a b) b = 0.
Proof. unfold dot, cross, vx, vy, vz. cbn [fst snd]. ring. Qed.

Lemma dot_vdiv (a b : Vec3) (s : R) : dot (vdiv a s) b = dot a b / s.
Proof. unfold dot, vdiv, vx, vy, vz, Rdiv. cbn [fst snd]. ring. Qed.

Lemma dot_comm (a b : Vec3) : dot a b = dot b a.
Proof. unfold dot. ring. Qed.

Lemma dot_self_sum_sq (a : Vec3) : dot a a = sum_sq a.
Proof. unfold dot, sum_sq. ring. Qed.

Lemma norm_sq (a : Vec3) : norm a * norm a = dot a a.
Proof.
  rewrite dot_self_sum_sq. unfold norm. apply sqrt_sqrt, sum_sq_nonneg.
Qed.

Lemma unit_dot (a : Vec3) :
  0 < norm a -> dot (vdiv a (norm a)) (vdiv a (norm a)) = 1.
Proof.
  intros H. rewrite dot_self_sum_sq.
  pose proof (norm_vdiv a H) as Hn. unfold norm at 1 in Hn.
  pose proof (sqrt_sqrt _ (sum_sq_nonneg (vdiv a (norm a)))) as Hs.
  rewrite Hn in Hs. lra.
Qed.

(** Lagrange's identity. *)
Lemma dot_cross_cross (a b : Vec3) :
  dot (cross a b) (cross a b) = dot a a * dot b b - dot a b * dot a b.
Proof. unfold dot, cross, vx, vy, vz. cbn [fst snd]. ring. Qed.

Section LookAt.

Variables eye target up : Vec3.

Let f := vdiv (vsub target eye) (norm (vsub target eye)).
Let r := vdiv (cross f up) (norm (cross f up)).
Let u := cross r f.

Hypothesis apart : 0 < norm (vsub target eye).
Hypothesis not_parallel : 0 < norm (cross f up).

Lemma lookat_rows :
  row3 (HydraCameraOps._compute_lookat_matrix eye target up) 0 = r /\
  row3 (HydraCameraOps._compute_lookat_matrix eye target up) 1 = u /\
  row3 (HydraCameraOps._compute_lookat_matrix eye target up) 2 = vneg f.
Proof.
  unfold row3, HydraCameraOps._compute_lookat_matrix. cbn [nth].
  fold f. fold r. fold u.
  repeat split; apply vec_eta.
Qed.

Lemma lookat_apply (p : Vec3) :
  transform_point (HydraCameraOps._compute_lookat_matrix eye target up) p
  = (dot r (vsub p eye), dot u (vsub p eye), - dot f (vsub p eye)).
Proof.
  unfold transform_point, HydraCameraOps._compute_lookat_matrix.
  cbn [nth]. fold f. fold r. fold u.
  unfold dot, vsub, vneg. cbn [vx vy vz fst snd].
  apply vec_eq; ring.
Qed.

Lemma lookat_f_unit : dot f f = 1.
Proof. now apply unit_dot. Qed.

Lemma lookat_r_unit : dot r r = 1.
Proof. now apply unit_dot. Qed.

Lemma lookat_r_f : dot r f = 0.
Proof.
  unfold r. rewrite dot_vdiv, dot_cross_left. unfold Rdiv. ring.
Qed.

Lemma lookat_f_offset : dot f (vsub target eye) = norm (vsub target eye).
Proof.
  unfold f. rewrite dot_vdiv, <- norm_sq. field. lra.
Qed.

Lemma lookat_r_offset : dot r (vsub target eye) = 0.
Proof.
  assert (H : vsub target eye
              = (norm (vsub target eye) * vx f, norm (vsub target eye) * vy f,
                 norm (vsub target eye) * vz f)).
  { unfold f, vdiv. cbn [vx vy vz fst snd].
    rewrite <- (vec_eta (vsub target eye)) at 1.
    apply vec_eq; field; lra. }
  rewrite H. pose proof lookat_r_f as Hrf.
  unfold dot in *. cbn [vx vy vz fst snd].
  replace (vx r * (norm (vsub target eye) * vx f)
           + vy r * (norm (vsub target eye) * vy f)
           + vz r * (norm (vsub target eye) * vz f))
    with (norm (vsub target eye) * (vx r * vx f + vy r * vy f + vz r * vz f))
    by ring.
  rewrite Hrf. ring.
Qed.

Lemma lookat_u_offset : dot u (vsub target eye) = 0.
Proof.
  assert (H : vsub target eye
              = (norm (vsub target eye) * vx f, norm (vsub target eye) * vy f,
                 norm (vsub target eye) * vz f)).
  { unfold f, vdiv. cbn [vx vy vz fst snd].
    rewrite <- (vec_eta (vsub target eye)) at 1.
    apply vec_eq; field; lra. }
  rewrite H. pose proof (dot_cross_right r f) as Huf. fold u in Huf.
  unfold dot in *. cbn [vx vy vz fst snd].
  replace (vx u * (norm (vsub target eye) * vx f)
           + vy u * (norm (vsub target eye) * vy f)
           + vz u * (norm (vsub target eye) * vz f))
    with (norm (vsub target eye) * (vx u * vx f + vy u * vy f + vz u * vz f))
    by ring.
  rewrite Huf. ring.
Qed.

Lemma lookat_main :
  let m := HydraCameraOps._compute_lookat_matrix eye target up in
  transform_point m eye = (0, 0, 0) /\
  transform_point m target = (0, 0, - norm (vsub target eye)) /\
  dot (row3 m 0) (row3 m 0) = 1 /\
  dot (row3 m 1) (row3 m 1) = 1 /\
  dot (row3 m 2) (row3 m 2) = 1 /\
  dot (row3 m 0) (row3 m 1) = 0 /\
  dot (row3 m 0) (row3 m 2) = 0 /\
  dot (row3 m 1) (row3 m 2) = 0.
Proof.
  intros m. unfold m.
  destruct lookat_rows as (-> & -> & ->). rewrite !lookat_apply.
  pose proof lookat_f_unit as Hff. pose proof lookat_r_unit as Hrr.
  pose proof lookat_r_f as Hrf.
  pose proof (dot_cross_left r f) as Hur. fold u in Hur.
  pose proof (dot_cross_right r f) as Huf. fold u in Huf.
  pose proof (dot_cross_cross r f) as Huu. fold u in Huu.
  rewrite Hrr, Hff, Hrf in Huu.
  repeat split.
  - apply vec_eq; unfold dot, vsub; cbn [vx vy vz fst snd]; ring.
  - rewrite lookat_r_offset, lookat_u_offset, lookat_f_offset. reflexivity.
  - exact Hrr.
  - rewrite Huu. ring.
  - unfold dot, vneg in *. cbn [vx vy vz fst snd]. lra.
  - rewrite dot_comm. exact Hur.
  - unfold dot, vneg in *. cbn [vx vy vz fst snd]. lra.
  - unfold dot, vneg in *. cbn [vx vy vz fst snd]. lra.
Qed.

End LookAt.

(** X6.  When the eye differs from the target and the viewing direction is
    not parallel to [up], the matrix of [_compute_lookat_matrix] is a rigid
    change of frame: its three rotation rows are unit vectors at right angles
    to each other, it sends the eye to the origin, and it sends the target to
    the point on the negative z axis at the eye-target distance. *)
Theorem lookat_matrix_is_a_rigid_frame :
  forall eye target up : Vec3,
    0 < norm (vsub target eye) ->
    0 < norm (cross (vdiv (vsub target eye) (norm (vsub target eye))) up) ->
    let m := HydraCameraOps._compute_lookat_matrix eye target up in
    transform_point m eye = (0, 0, 0) /\
    transform_point m target = (0, 0, - norm (vsub target eye)) /\
    dot (row3 m 0) (row3 m 0) = 1 /\
    dot (row3 m 1) (row3 m 1) = 1 /\
    dot (row3 m 2) (row3 m 2) = 1 /\
    dot (row3 m 0) (row3 m 1) = 0 /\
    dot (row3 m 0) (row3 m 2) = 0 /\
    dot (row3 m 1) (row3 m 2) = 0.
Proof.
  intros eye target up H1 H2. exact (lookat_main eye target up H1 H2).
Qed.

Lemma cross_up_norm_pos (v : Vec3) (s : R) :
  0 < s ->
  0 < vx v * vx v + vz v * vz v ->
  0 < norm (cross (vdiv v s) (0, 1, 0)).
Proof.
  intros Hs Hh. unfold norm. apply sqrt_lt_R0.
  replace (sum_sq (cross (vdiv v s) (0, 1, 0)))
    with ((vx v * vx v + vz v * vz v) * (/ s * / s)).
  - pose proof (Rinv_0_lt_compat s Hs) as Hi.
    apply Rmult_lt_0_compat; [assumption|nra].
  - unfold sum_sq, cross, vdiv, Rdiv. cbn [vx vy vz fst snd]. ring.
Qed.

(** Witness for X6: the eye at (0, 0, 5) looking at the origin. *)
Lemma lookat_matrix_is_a_rigid_frame_witness :
  let m := HydraCameraOps._compute_lookat_matrix (0, 0, 5) (0, 0, 0) (0, 1, 0) in
  transform_point m (0, 0, 5) = (0, 0, 0) /\
  transform_point m (0, 0, 0)
  = (0, 0, - norm (vsub (0, 0, 0) (0, 0, 5))).
Proof.
  assert (H1 : 0 < norm (vsub (0, 0, 0) (0, 0, 5))).
  { unfold norm. apply sqrt_lt_R0.
    unfold sum_sq, vsub. cbn [vx vy vz fst snd]. lra. }
  assert (H2 : 0 < norm (cross (vdiv (vsub (0, 0, 0) (0, 0, 5))
                                     (norm (vsub (0, 0, 0) (0, 0, 5))))
                               (0, 1, 0))).
  { apply cross_up_norm_pos; [exact H1|].
    unfold vsub. cbn [vx vy vz fst snd]. lra. }
  pose proof (lookat_matrix_is_a_rigid_frame (0, 0, 5) (0, 0, 0) (0, 1, 0)
                H1 H2) as H.
  cbv zeta in H. cbv zeta.
  exact (conj (proj1 H) (proj1 (proj2 H))).
Defined.

(** X7.  For a camera at positive distance whose elevation is within the
    clamp [-89, 89], the fallback view matrix of the Hydra viewer puts the eye
    at the origin and the target straight ahead on the negative z axis, at
    the camera distance. *)
Theorem view_matrix_looks_at_the_target :
  forall c : HydraCamera.Camera,
    0 < HydraCamera.distance c ->
    -89 <= HydraCamera.elevation c <= 89 ->
    let m := HydraCameraOps.get_view_matrix c in
    transform_point m (HydraCameraOps.get_position c) = (0, 0, 0) /\
    transform_point m (HydraCamera.target c)
    = (0, 0, - HydraCamera.distance c).
Proof.
  intros c Hd He m.
  set (eye := HydraCameraOps.get_position c).
  set (target := HydraCamera.target c).
  assert (Hn : norm (vsub target eye) = HydraCamera.distance c).
  { rewrite <- (Rabs_pos_eq (HydraCamera.distance c)) by lra.
    apply norm_of_square.
    unfold sum_sq, vsub, eye, target, HydraCameraOps.get_position.
    cbn [vx vy vz fst snd].
    rewrite <- (orbit_offset_sq (HydraCamera.distance c)
                  (radians (HydraCamera.elevation c))
                  (radians (HydraCamera.azimuth c))). ring. }
  assert (H1 : 0 < norm (vsub target eye)) by (rewrite Hn; exact Hd).
  assert (H2 : 0 < norm (cross (vdiv (vsub target eye)
                                     (norm (vsub target eye))) (0, 1, 0))).
  { apply cross_up_norm_pos; [exact H1|].
    pose proof (cos_clamped_elevation_pos _ He) as Hc.
    pose proof (horizontal_offset_sq (HydraCamera.distance c)
                  (radians (HydraCamera.elevation c))
                  (radians (HydraCamera.azimuth c))) as Hh.
    unfold vsub, eye, target, HydraCameraOps.get_position.
    cbn [vx vy vz fst snd].
    assert (Hp : 0 < HydraCamera.distance c
                     * cos (radians (HydraCamera.elevation c)))
      by (apply Rmult_lt_0_compat; assumption).
    nra. }
  pose proof (lookat_main eye target (0, 1, 0) H1 H2)
    as (Heye & Htarget & _).
  unfold m, HydraCameraOps.get_view_matrix. fold eye. fold target.
  rewrite Hn in Htarget. split; assumption.
Qed.

(** Witness for X7: the camera as constructed (distance 10, elevation 30). *)
Lemma view_matrix_looks_at_the_target_witness :
  let m := HydraCameraOps.get_view_matrix HydraCamera.init in
  transform_point m (HydraCameraOps.get_position HydraCamera.init) = (0, 0, 0)
  /\ transform_point m (HydraCamera.target HydraCamera.init)
     = (0, 0, - HydraCamera.distance HydraCamera.init).
Proof.
  apply view_matrix_looks_at_the_target; simpl; lra.
Defined.

(** ** The fallback projection matrix *)

(** X8.  With a non-zero aspect ratio, distinct near and far planes and a
    field of view whose half-angle has a non-zero tangent,
    [_compute_perspective_matrix] returns a matrix that maps every point of
    the near plane [z = -near] to clip depth [-w] and every point of the far
    plane [z = -far] to clip depth [+w], where [w] is the point's clip
    coordinate ([near] and [far] respectively).  With aspect ratio 0 it
    raises [ZeroDivisionError] instead, and so it does when the two planes
    coincide. *)
Theorem perspective_maps_near_and_far_planes :
  forall (c : HydraCamera.Camera) (aspect x y : R),
    tan (radians (HydraCamera.fov c) / 2.0) <> 0 ->
    aspect <> 0 ->
    HydraCamera.near c <> HydraCamera.far c ->
    (exists m,
        HydraCameraOps._compute_perspective_matrix c aspect = Some m /\
        row_apply m 3 (x, y, - HydraCamera.near c) = HydraCamera.near c /\
        row_apply m 2 (x, y, - HydraCamera.near c) = - HydraCamera.near c /\
        row_apply m 3 (x, y, - HydraCamera.far c) = HydraCamera.far c /\
        row_apply m 2 (x, y, - HydraCamera.far c) = HydraCamera.far c) /\
    HydraCameraOps._compute_perspective_matrix c 0 = None /\
    HydraCameraOps._compute_perspective_matrix
      (HydraCamera.mkCamera (HydraCamera.distance c) (HydraCamera.azimuth c)
                            (HydraCamera.elevation c) (HydraCamera.target c)
                            (HydraCamera.fov c) (HydraCamera.near c)
                            (HydraCamera.near c)) aspect = None.
Proof.
  intros c aspect x y Hfov Hasp Hnf.
  assert (H : HydraCamera.near c - HydraCamera.far c <> 0) by lra.
  unfold HydraCameraOps._compute_perspective_matrix.
  cbn [HydraCamera.fov HydraCamera.near HydraCamera.far].
  destruct (Req_dec_T (tan (radians (HydraCamera.fov c) / 2.0)) 0)
    as [E|_]; [contradiction|].
  split; [|split].
  - destruct (Req_dec_T aspect 0) as [E|_]; [contradiction|].
    destruct (Req_dec_T (HydraCamera.near c - HydraCamera.far c) 0)
      as [E|_]; [contradiction|].
    eexists. split; [reflexivity|].
    unfold row_apply. cbn [nth vx vy vz fst snd].
    split; [lra|]. split; [field; exact H|]. split; [lra|]. field; exact H.
  - destruct (Req_dec_T 0 0) as [_|E]; [reflexivity|now contradiction E].
  - destruct (Req_dec_T aspect 0) as [E|_]; [contradiction|].
    destruct (Req_dec_T (HydraCamera.near c - HydraCamera.near c) 0)
      as [_|E]; [reflexivity|]. contradiction E. lra.
Qed.

Lemma tan_half_fov_init :
  tan (radians (HydraCamera.fov HydraCamera.init) / 2.0) <> 0.
Proof.
  cbn [HydraCamera.fov HydraCamera.init]. unfold radians.
  pose proof PI_RGT_0 as Hpi.
  assert (Hpos : 0 < tan (45.0 * (PI / 180) / 2.0))
    by (apply tan_gt_0; lra).
  lra.
Qed.

(** Witness for X8: the camera as constructed (field of view 45 degrees,
    near 0.1, far 10000) in a viewport of aspect ratio 1.5. *)
Lemma perspective_maps_near_and_far_planes_witness :
  exists m,
    HydraCameraOps._compute_perspective_matrix HydraCamera.init 1.5 = Some m /\
    row_apply m 2 (3, 4, - HydraCamera.near HydraCamera.init)
    = - HydraCamera.near HydraCamera.init /\
    row_apply m 2 (3, 4, - HydraCamera.far HydraCamera.init)
    = HydraCamera.far HydraCamera.init.
Proof.
  assert (H : HydraCamera.near HydraCamera.init
              <> HydraCamera.far HydraCamera.init) by (simpl; lra).
  assert (Ha : 1.5 <> 0) by lra.
  destruct (perspective_maps_near_and_far_planes
              HydraCamera.init 1.5 3 4 tan_half_fov_init Ha H)
    as [(m & Hm & _ & Hnear & _ & Hfar) _].
  exists m. split; [exact Hm|]. split; assumption.
Defined.

(** ** Bounding boxes of the basic viewer *)

Lemma min2_Rmin (a b : R) : Py.min2 a b = Rmin a b.
Proof.
  unfold Py.min2, Rmin.
  destruct (Rlt_dec b a), (Rle_dec a b); lra.
Qed.

Lemma vle_refl (a : Vec3) : vle a a.
Proof. unfold vle. lra. Qed.

Lemma vle_trans (a b c : Vec3) : vle a b -> vle b c -> vle a c.
Proof. unfold vle. intros (? & ? & ?) (? & ? & ?). lra. Qed.

Lemma vmin_lower (a b : Vec3) :
  vle (BasicViewerOps.vmin a b) a /\ vle (BasicViewerOps.vmin a b) b.
Proof.
  unfold vle, BasicViewerOps.vmin. cbn [vx vy vz fst snd].
  pose proof (Rmin_l (vx a) (vx b)). pose proof (Rmin_r (vx a) (vx b)).
  pose proof (Rmin_l (vy a) (vy b)). pose proof (Rmin_r (vy a) (vy b)).
  pose proof (Rmin_l (vz a) (vz b)). pose proof (Rmin_r (vz a) (vz b)).
  fold (vx a) (vx b) (vy a) (vy b) (vz a) (vz b) in *. repeat split; assumption.
Qed.

Lemma vmax_upper (a b : Vec3) :
  vle a (BasicViewerOps.vmax a b) /\ vle b (BasicViewerOps.vmax a b).
Proof.
  unfold vle, BasicViewerOps.vmax. cbn [vx vy vz fst snd].
  pose proof (Rmax_l (vx a) (vx b)). pose proof (Rmax_r (vx a) (vx b)).
  pose proof (Rmax_l (vy a) (vy b)). pose proof (Rmax_r (vy a) (vy b)).
  pose proof (Rmax_l (vz a) (vz b)). pose proof (Rmax_r (vz a) (vz b)).
  repeat split; assumption.
Qed.

Lemma fold_vmin_lower (vs : list Vec3) (v0 : Vec3) :
  vle (fold_left BasicViewerOps.vmin vs v0) v0 /\
  Forall (vle (fold_left BasicViewerOps.vmin vs v0)) vs.
Proof.
  revert v0. induction vs as [|v vs IH]; intros v0; cbn [fold_left].
  - split; [apply vle_refl|constructor].
  - destruct (IH (BasicViewerOps.vmin v0 v)) as [H0 Hall].
    destruct (vmin_lower v0 v) as [Hl Hr].
    split; [eapply vle_trans; eassumption|].
    constructor; [eapply vle_trans; eassumption|assumption].
Qed.

Lemma fold_vmax_upper (vs : list Vec3) (v0 : Vec3) :
  vle v0 (fold_left BasicViewerOps.vmax vs v0) /\
  Forall (fun v => vle v (fold_left BasicViewerOps.vmax vs v0)) vs.
Proof.
  revert v0. induction vs as [|v vs IH]; intros v0; cbn [fold_left].
  - split; [apply vle_refl|constructor].
  - destruct (IH (BasicViewerOps.vmax v0 v)) as [H0 Hall].
    destruct (vmax_upper v0 v) as [Hl Hr].
    split; [eapply vle_trans; eassumption|].
    constructor; [eapply vle_trans; eassumption|assumption].
Qed.

Lemma get_bounds_contains :
  forall (self : BasicViewer.MeshData) (v : Vec3),
    In v (BasicViewer.vertices self) ->
    vle (fst (BasicViewerOps.get_bounds self)) v /\
    vle v (snd (BasicViewerOps.get_bounds self)).
Proof.
  intros self v Hin. unfold BasicViewerOps.get_bounds.
  destruct (BasicViewer.vertices self) as [|v0 vs]; [contradiction|].
  cbn [fst snd].
  destruct (fold_vmin_lower vs v0) as [Hl0 Hl].
  destruct (fold_vmax_upper vs v0) as [Hu0 Hu].
  rewrite Forall_forall in Hl, Hu.
  destruct Hin as [<-|Hin]; [now split|].
  split; [now apply Hl|now apply Hu].
Qed.

(** X9.  The box returned by [Mesh.get_bounds] contains every vertex of the
    mesh: each vertex lies, coordinate by coordinate, between the lower and
    the upper corner. *)
Theorem get_bounds_contains_every_vertex :
  forall (self : BasicViewer.MeshData) (v : Vec3),
    In v (BasicViewer.vertices self) ->
    vle (fst (BasicViewerOps.get_bounds self)) v /\
    vle v (snd (BasicViewerOps.get_bounds self)).
Proof. exact get_bounds_contains. Qed.

(** Witness for X9: the second vertex of the leaning triangle, the extreme
    one along x and inside the box along y and z. *)
Lemma get_bounds_contains_every_vertex_witness :
  vle (fst (BasicViewerOps.get_bounds ramp_mesh)) (4, 0, 0) /\
  vle (4, 0, 0) (snd (BasicViewerOps.get_bounds ramp_mesh)).
Proof.
  apply get_bounds_contains_every_vertex. simpl. right. left. reflexivity.
Defined.

(** ** Fitting the camera of the basic viewer to the scene *)








Lemma fold_vmin_const (vs : list Vec3) (p : Vec3) :
  Forall (fun v => v = p) vs -> fold_left BasicViewerOps.vmin vs p = p.
Proof.
  assert (Hp : BasicViewerOps.vmin p p = p).
  { unfold BasicViewerOps.vmin. rewrite !Rmin_left by apply Rle_refl. apply vec_eta. }
  induction 1 as [|v vs -> _ IH]; [reflexivity|].
  cbn [fold_left]. rewrite Hp. exact IH.
Qed.

Lemma fold_vmax_const (vs : list Vec3) (p : Vec3) :
  Forall (fun v => v = p) vs -> fold_left BasicViewerOps.vmax vs p = p.
Proof.
  assert (Hp : BasicViewerOps.vmax p p = p).
  { unfold BasicViewerOps.vmax. rewrite !Rmax_left by apply Rle_refl. apply vec_eta. }
  induction 1 as [|v vs -> _ IH]; [reflexivity|].
  cbn [fold_left]. rewrite Hp. exact IH.
Qed.

Lemma point_bounds (mesh : BasicViewer.MeshData) (p : Vec3) :
  BasicViewer.vertices mesh <> [] ->
  Forall (fun v => v = p) (BasicViewer.vertices mesh) ->
  BasicViewerOps.get_bounds mesh = (p, p).
Proof.
  intros Hne Hall. unfold BasicViewerOps.get_bounds.
  destruct (BasicViewer.vertices mesh) as [|v vs]; [contradiction|].
  inversion Hall as [|? ? -> Hvs]; subst.
  now rewrite fold_vmin_const, fold_vmax_const.
Qed.

Lemma fold_widen_point (meshes : list BasicViewer.MeshData) (p : Vec3) :
  Forall (fun mesh => BasicViewerOps.get_bounds mesh = (p, p)) meshes ->
  fold_left BasicViewerOps.widen meshes (p, p) = (p, p).
Proof.
  induction 1 as [|mesh meshes Hb _ IH]; [reflexivity|].
  cbn [fold_left].
  assert (Hw : BasicViewerOps.widen (p, p) mesh = (p, p)).
  { unfold BasicViewerOps.widen. rewrite Hb.
    cbn [fst snd]. rewrite !min2_Rmin, !max2_Rmax.
    rewrite !Rmin_left, !Rmax_left by apply Rle_refl. now rewrite !vec_eta. }
  rewrite Hw. exact IH.
Qed.

(** X11.  [fit_camera_to_scene] has no fallback distance: when all vertices
    of the scene coincide in one point [p], it sets the target to [p] and the
    distance to 0, which puts the eye on the target. *)
Theorem fit_camera_collapses_on_a_point_scene :
  forall (camera : BasicCamera.Camera) (meshes : list BasicViewer.MeshData)
         (p : Vec3),
    meshes <> [] ->
    Forall (fun mesh => BasicViewer.vertices mesh <> [] /\
                        Forall (fun v => v = p) (BasicViewer.vertices mesh))
           meshes ->
    let c := BasicViewerOps.fit_camera_to_scene camera meshes in
    BasicCamera.target c = p /\
    BasicCamera.distance c = 0 /\
    BasicCameraOps.apply_eye c = p.
Proof.
  intros camera meshes p Hne Hall c.
  assert (Hb : Forall (fun mesh => BasicViewerOps.get_bounds mesh = (p, p))
                      meshes).
  { eapply Forall_impl; [|exact Hall]. intros mesh [H1 H2].
    now apply point_bounds. }
  assert (Hc : c = BasicCamera.mkCamera 0 (BasicCamera.azimuth camera)
                                        (BasicCamera.elevation camera) p).
  { unfold c, BasicViewerOps.fit_camera_to_scene.
    destruct meshes as [|mesh rest]; [contradiction|].
    inversion Hb as [|? ? Hb0 Hbr]; subst.
    rewrite Hb0, (fold_widen_point rest p Hbr).
    rewrite max3_Rmax.
    replace (vx p - vx p) with 0 by ring.
    replace (vy p - vy p) with 0 by ring.
    replace (vz p - vz p) with 0 by ring.
    rewrite !(Rmax_left 0 0) by lra.
    apply (f_equal2 (fun d t => BasicCamera.mkCamera d _ _ t)); [lra|].
    rewrite <- (vec_eta p) at 7. apply vec_eq; lra. }
  rewrite Hc. cbn [BasicCamera.target BasicCamera.distance].
  repeat split.
  unfold BasicCameraOps.apply_eye.
  cbn [BasicCamera.target BasicCamera.distance BasicCamera.azimuth
       BasicCamera.elevation].
  rewrite <- (vec_eta p) at 4. apply vec_eq; ring.
Qed.

(** Witness for X11: the scene made of the overshooting one-vertex mesh,
    whose only vertex is the origin. *)
Lemma fit_camera_collapses_on_a_point_scene_witness :
  let c := BasicViewerOps.fit_camera_to_scene BasicCamera.init
                                              [overshoot_mesh] in
  BasicCamera.target c = (0, 0, 0) /\ BasicCamera.distance c = 0.
Proof.
  assert (H1 : [overshoot_mesh] <> []) by discriminate.
  assert (H2 : Forall (fun mesh =>
                         BasicViewer.vertices mesh <> [] /\
                         Forall (fun v => v = (0, 0, 0))
                                (BasicViewer.vertices mesh))
                      [overshoot_mesh]).
  { repeat constructor. simpl. discriminate. }
  pose proof (fit_camera_collapses_on_a_point_scene
                BasicCamera.init [overshoot_mesh] (0, 0, 0) H1 H2) as H.
  cbv zeta in H. cbv zeta. exact (conj (proj1 H) (proj1 (proj2 H))).
Defined.

(** ** Normals and faces of the basic viewer *)

Lemma up_vector_unit : norm up_vector = 1.
Proof.
  unfold norm, sum_sq, up_vector. cbn [vx vy vz fst snd].
  replace (0 + 0 * 0 + 1 * 1 + 0 * 0) with 1 by lra. apply sqrt_1.
Qed.

Lemma basic_face_normal_unit (verts : list Vec3) (face : list Z) (n : Vec3) :
  BasicViewer.face_normal verts face = Some n -> norm n = 1.
Proof.
  unfold BasicViewer.face_normal.
  destruct (Py.getitem face 0) as [i0|]; cbn [bind]; [|discriminate].
  destruct (Py.getitem face 1) as [i1|]; cbn [bind]; [|discriminate].
  destruct (Py.getitem face 2) as [i2|]; cbn [bind]; [|discriminate].
  destruct (Py.getitem verts i0) as [v0|]; cbn [bind]; [|discriminate].
  destruct (Py.getitem verts i1) as [v1|]; cbn [bind]; [|discriminate].
  destruct (Py.getitem verts i2) as [v2|]; cbn [bind]; [|discriminate].
  intros H. injection H as <-.
  destruct (Rlt_dec 0 (norm (cross (vsub v1 v0) (vsub v2 v0)))).
  - now apply norm_vdiv.
  - apply up_vector_unit.
Qed.

Lemma basic_face_normal_total (verts : list Vec3) (face : list Z) :
  (3 <= length face)%nat ->
  face_in_range verts face ->
  exists n, BasicViewer.face_normal verts face = Some n.
Proof.
  intros Hlen Hr. unfold face_in_range in Hr.
  destruct face as [|i0 [|i1 [|i2 rest]]]; cbn [length] in Hlen; try lia.
  cbn [firstn] in Hr.
  inversion Hr as [|? ? H0 Hr1]; subst.
  inversion Hr1 as [|? ? H1 Hr2]; subst.
  inversion Hr2 as [|? ? H2 _]; subst.
  destruct (getitem_some verts i0 H0) as (v0 & E0).
  destruct (getitem_some verts i1 H1) as (v1 & E1).
  destruct (getitem_some verts i2 H2) as (v2 & E2).
  unfold BasicViewer.face_normal.
  change (Py.getitem (i0 :: i1 :: i2 :: rest) 0) with (Some i0).
  change (Py.getitem (i0 :: i1 :: i2 :: rest) 1) with (Some i1).
  change (Py.getitem (i0 :: i1 :: i2 :: rest) 2) with (Some i2).
  cbn [bind]. rewrite E0, E1, E2. cbn [bind]. eauto.
Qed.

Lemma normals_loop_spec (verts : list Vec3) (fs : list (list Z)) :
  Forall (face_in_range verts) fs ->
  exists ns,
    BasicViewer.normals_loop verts fs = Some ns /\
    Forall (fun n => norm n = 1) ns /\
    length ns = length (filter (fun face => (3 <=? length face)%nat) fs).
Proof.
  induction 1 as [|face fs Hface _ (ns & Hns & Hunit & Hlen)].
  - exists []. repeat split. constructor.
  - cbn [BasicViewer.normals_loop filter].
    destruct (Nat.leb_spec 3 (length face)) as [H3|H3].
    + destruct (basic_face_normal_total verts face H3 Hface) as (n & Hn).
      rewrite Hn, Hns. cbn [bind]. exists (n :: ns).
      split; [reflexivity|]. split.
      * constructor; [|assumption].
        eapply basic_face_normal_unit; eassumption.
      * cbn [length]. now rewrite Hlen.
    + exists ns. repeat split; assumption.
Qed.

Lemma compute_normals_spec :
  forall self : BasicViewer.MeshData,
    Forall (face_in_range (BasicViewer.vertices self))
           (BasicViewer.faces self) ->
    exists m,
      BasicViewer.compute_normals self = Some m /\
      BasicViewer.vertices m = BasicViewer.vertices self /\
      BasicViewer.faces m = BasicViewer.faces self /\
      BasicViewer.color m = BasicViewer.color self /\
      Forall (fun n => norm n = 1) (BasicViewer.normals m) /\
      length (BasicViewer.normals m)
      = length (filter (fun face => (3 <=? length face)%nat)
                       (BasicViewer.faces self)).
Proof.
  intros self H. unfold BasicViewer.compute_normals.
  destruct (normals_loop_spec _ _ H) as (ns & Hns & Hunit & Hlen).
  rewrite Hns. cbn [bind]. eexists. split; [reflexivity|].
  cbn [BasicViewer.vertices BasicViewer.faces BasicViewer.color
       BasicViewer.normals].
  repeat split; assumption.
Qed.

(** X12.  When the three leading indices of every face name stored vertices,
    [Mesh.compute_normals] completes, leaves vertices, faces and colour as
    they were, and stores only unit normals, one for each face that has at
    least three indices (shorter faces get none). *)
Theorem compute_normals_stores_unit_normals :
  forall self : BasicViewer.MeshData,
    Forall (face_in_range (BasicViewer.vertices self))
           (BasicViewer.faces self) ->
    exists m,
      BasicViewer.compute_normals self = Some m /\
      BasicViewer.vertices m = BasicViewer.vertices self /\
      BasicViewer.faces m = BasicViewer.faces self /\
      BasicViewer.color m = BasicViewer.color self /\
      Forall (fun n => norm n = 1) (BasicViewer.normals m) /\
      length (BasicViewer.normals m)
      = length (filter (fun face => (3 <=? length face)%nat)
                       (BasicViewer.faces self)).
Proof. exact compute_normals_spec. Qed.

(** Witness for X12: a triangle and a two-index face over three points. *)
Lemma compute_normals_stores_unit_normals_witness :
  exists m,
    BasicViewer.compute_normals
      (BasicViewer.mkMesh [(0, 0, 0); (1, 0, 0); (0, 1, 0)] []
                          [[0; 1; 2]; [0; 1]]%Z (0.7, 0.7, 0.8) eye4)
    = Some m /\
    Forall (fun n => norm n = 1) (BasicViewer.normals m) /\
    length (BasicViewer.normals m) = 1%nat.
Proof.
  destruct (compute_normals_stores_unit_normals
              (BasicViewer.mkMesh [(0, 0, 0); (1, 0, 0); (0, 1, 0)] []
                                  [[0; 1; 2]; [0; 1]]%Z (0.7, 0.7, 0.8) eye4))
    as (m & Hm & _ & _ & _ & Hunit & Hlen).
  - repeat constructor; simpl; lia.
  - exists m. repeat split; assumption.
Defined.

Lemma collect_face_members (indices : list Z) (n : nat) (idx : Z)
    (face : list Z) :
  (0 <= idx)%Z ->
  Forall (fun i => In i indices) face ->
  Forall (fun i => In i indices)
         (fst (BasicViewer.collect_face n indices idx face)) /\
  (0 <= snd (BasicViewer.collect_face n indices idx face))%Z.
Proof.
  revert idx face. induction n as [|n IH]; intros idx face H0 Hface.
  - cbn. now split.
  - cbn [BasicViewer.collect_face].
    destruct (Z.ltb_spec idx (Z.of_nat (length indices))).
    + apply IH; [lia|]. apply Forall_app. split; [assumption|].
      repeat constructor. apply nth_In. lia.
    + now apply IH.
Qed.

Lemma fan_triangles (indices face : list Z) :
  Forall (fun i => In i indices) face ->
  Forall (fun tri => length tri = 3%nat /\ Forall (fun i => In i indices) tri)
         (BasicViewer.fan face).
Proof.
  intros Hface. unfold BasicViewer.fan.
  destruct (Nat.leb_spec 3 (length face)); [|constructor].
  rewrite Forall_forall in Hface.
  apply Forall_forall. intros tri Htri. apply in_map_iff in Htri.
  destruct Htri as (i & <- & Hi). apply range_In in Hi.
  split; [reflexivity|].
  repeat constructor; apply Hface, nth_In; lia.
Qed.

Lemma extract_faces_triangles (indices counts : list Z) (idx : Z) :
  (0 <= idx)%Z ->
  Forall (fun tri => length tri = 3%nat /\ Forall (fun i => In i indices) tri)
         (BasicViewer.extract_faces counts indices idx).
Proof.
  revert idx. induction counts as [|count counts IH]; intros idx H0;
    [constructor|].
  cbn [BasicViewer.extract_faces].
  pose proof (collect_face_members indices (Z.to_nat count) idx [] H0
                (Forall_nil _)) as [Hm Hi].
  destruct (BasicViewer.collect_face (Z.to_nat count) indices idx [])
    as [face idx'].
  cbn [fst snd] in Hm, Hi.
  apply Forall_app. split; [now apply fan_triangles|now apply IH].
Qed.

(** X13.  Whatever the face counts and indices are (also when there are too
    few indices or a count is negative), every face that
    [extract_mesh_from_prim] builds is a triangle, and its three indices are
    entries of the prim's index array. *)
Theorem extracted_faces_are_triangles_over_the_indices :
  forall (counts indices : list Z),
    Forall (fun tri => length tri = 3%nat /\
                       Forall (fun i => In i indices) tri)
           (BasicViewer.extract_faces counts indices 0).
Proof.
  intros counts indices. apply extract_faces_triangles. lia.
Qed.

Lemma filter_triangles (fs : list (list Z)) :
  Forall (fun tri => length tri = 3%nat) fs ->
  filter (fun face => (3 <=? length face)%nat) fs = fs.
Proof.
  induction 1 as [|tri fs Hl _ IH]; [reflexivity|].
  cbn [filter]. rewrite Hl, IH. reflexivity.
Qed.

(** X14.  For a prim whose face indices all name stored points,
    [extract_mesh_from_prim] completes whatever the face counts are, and the
    mesh it returns has exactly one unit normal per face, so that in
    [Mesh.render] every face is drawn under its own normal. *)
Theorem extract_mesh_pairs_faces_with_unit_normals :
  forall prim : Prim,
    indices_valid
      (match points prim Default with Some pts => pts | None => [] end)
      (match faceVertexIndices prim with Some ind => ind | None => [] end) ->
    exists m,
      BasicViewer.extract_mesh_from_prim prim = Some m /\
      length (BasicViewer.normals m) = length (BasicViewer.faces m) /\
      Forall (fun n => norm n = 1) (BasicViewer.normals m) /\
      Forall (fun tri => length tri = 3%nat) (BasicViewer.faces m).
Proof.
  intros prim Hvalid. unfold BasicViewer.extract_mesh_from_prim.
  set (verts := match points prim Default with
                | Some (p :: ps) => p :: ps
                | _ => []
                end).
  set (fs := match faceVertexIndices prim with
             | Some indices =>
                 match faceVertexCounts prim with
                 | Some counts =>
                     if Py.truthy (Some indices) && Py.truthy (Some counts)
                     then BasicViewer.extract_faces counts indices 0
                     else []
                 | None => []
                 end
             | None => []
             end).
  assert (Hverts : verts = match points prim Default with
                           | Some pts => pts
                           | None => []
                           end).
  { unfold verts. destruct (points prim Default) as [[|p ps]|]; reflexivity. }
  assert (Hfs : Forall (fun tri =>
                          length tri = 3%nat /\
                          Forall (fun i => (0 <= i < Z.of_nat (length verts))%Z)
                                 tri) fs).
  { unfold fs. rewrite Hverts.
    destruct (faceVertexIndices prim) as [indices|]; [|constructor].
    destruct (faceVertexCounts prim) as [counts|]; [|constructor].
    destruct (Py.truthy (Some indices) && Py.truthy (Some counts));
      [|constructor].
    eapply Forall_impl;
      [|apply (extract_faces_triangles indices counts 0); lia].
    intros tri [Hlen Hin]. split; [assumption|].
    eapply Forall_impl; [|exact Hin].
    intros i Hi. unfold indices_valid in Hvalid.
    rewrite Forall_forall in Hvalid. now apply Hvalid. }
  destruct (compute_normals_spec
              (BasicViewer.mkMesh verts [] fs
                 match displayColor prim with
                 | Some (c :: _) => c
                 | _ => BasicViewer.color BasicViewer.Mesh_init
                 end (transpose (localToWorld prim Default))))
    as (m & Hm & _ & Hfaces & _ & Hunit & Hlen).
  - cbn [BasicViewer.vertices BasicViewer.faces].
    eapply Forall_impl; [|exact Hfs].
    intros tri [_ Hin]. unfold face_in_range.
    apply Forall_forall. intros i Hi.
    rewrite Forall_forall in Hin.
    assert (In i tri)
      by (rewrite <- (firstn_skipn 3 tri); apply in_or_app; now left).
    specialize (Hin i H). lia.
  - exists m. split; [exact Hm|].
    cbn [BasicViewer.faces] in Hfaces, Hlen. rewrite Hfaces.
    rewrite filter_triangles in Hlen
      by (eapply Forall_impl; [|exact Hfs]; now intros tri [Hl _]).
    repeat split; try assumption.
    eapply Forall_impl; [|exact Hfs]. now intros tri [Hl _].
Qed.

(** Witness for X14: the unit square as one four-sided face. *)
Lemma extract_mesh_pairs_faces_with_unit_normals_witness :
  exists m,
    BasicViewer.extract_mesh_from_prim square_mesh = Some m /\
    length (BasicViewer.normals m) = length (BasicViewer.faces m).
Proof.
  destruct (extract_mesh_pairs_faces_with_unit_normals square_mesh)
    as (m & Hm & Hlen & _).
  - repeat constructor; simpl; lia.
  - exists m. split; assumption.
Defined.

(** ** The sample sphere and loading *)

Lemma length_flat_map_const {A B : Type} (f : A -> list B) (l : list A)
    (k : nat) :
  (forall x, In x l -> length (f x) = k) ->
  length (flat_map f l) = (length l * k)%nat.
Proof.
  induction l as [|x l IH]; intros H; [reflexivity|].
  cbn [flat_map length]. rewrite length_app, (H x (or_introl eq_refl)).
  rewrite IH by (intros y Hy; apply H; now right). lia.
Qed.

Lemma on_sphere (radius phi theta : R) :
  norm (radius * sin phi * cos theta, radius * cos phi,
        radius * sin phi * sin theta) = Rabs radius.
Proof.
  apply norm_of_square. unfold sum_sq. cbn [vx vy vz fst snd].
  pose proof (sin2_cos2 phi) as H1. pose proof (sin2_cos2 theta) as H2.
  unfold Rsqr in H1, H2.
  replace (0 + radius * sin phi * cos theta * (radius * sin phi * cos theta)
           + radius * cos phi * (radius * cos phi)
           + radius * sin phi * sin theta * (radius * sin phi * sin theta))
    with (radius * radius
          * (sin phi * sin phi * (sin theta * sin theta + cos theta * cos theta)
             + cos phi * cos phi)) by ring.
  rewrite H2. replace (sin phi * sin phi * 1 + cos phi * cos phi)
    with (sin phi * sin phi + cos phi * cos phi) by ring.
  rewrite H1. ring.
Qed.

Lemma sphere_faces_valid (segments rings : Z) :
  (0 < segments)%Z ->
  Forall (fun tri =>
            length tri = 3%nat /\
            Forall (fun i => (0 <= i < (rings + 1) * segments)%Z) tri)
         (BasicViewerOps.sphere_faces segments rings).
Proof.
  intros Hs. unfold BasicViewerOps.sphere_faces.
  apply Forall_flat_map, Forall_forall. intros i Hi. apply range_In in Hi.
  apply Forall_flat_map, Forall_forall. intros j Hj. apply range_In in Hj.
  pose proof (Z.mod_pos_bound (j + 1) segments Hs) as Hm.
  repeat constructor; nia.
Qed.

Lemma create_sample_sphere_spec :
  forall (radius : R) (segments rings : Z),
    (0 < segments)%Z ->
    (0 < rings)%Z ->
    BasicViewerOps.create_sample_sphere radius segments 0 = None /\
    exists m,
      BasicViewerOps.create_sample_sphere radius segments rings = Some m /\
      length (BasicViewer.vertices m) = Z.to_nat ((rings + 1) * segments) /\
      length (BasicViewer.faces m) = Z.to_nat (2 * rings * segments) /\
      length (BasicViewer.normals m) = length (BasicViewer.faces m) /\
      Forall (fun v => norm v = Rabs radius) (BasicViewer.vertices m) /\
      Forall (Forall (fun i =>
                        (0 <= i < Z.of_nat (length (BasicViewer.vertices m)))%Z))
             (BasicViewer.faces m) /\
      Forall (fun n => norm n = 1) (BasicViewer.normals m).
Proof.
  intros radius segments rings Hs Hr. split; [reflexivity|].
  unfold BasicViewerOps.create_sample_sphere, BasicViewerOps.sphere_vertices.
  destruct (Z.eqb_spec rings 0) as [E|_]; [lia|]. cbn [bind].
  match goal with
  | |- context [BasicViewer.mkMesh ?v _ _ _ _] => set (verts := v)
  end.
  assert (Hlen : length verts = Z.to_nat ((rings + 1) * segments)).
  { unfold verts.
    rewrite (length_flat_map_const _ _ (Z.to_nat segments)).
    - rewrite range_length. rewrite Z2Nat.inj_mul by lia.
      replace (rings + 1 - 0)%Z with (rings + 1)%Z by lia. lia.
    - intros i _. rewrite length_map, range_length. f_equal. lia. }
  assert (Hon : Forall (fun v => norm v = Rabs radius) verts).
  { unfold verts. apply Forall_flat_map, Forall_forall. intros i _.
    apply Forall_forall. intros v Hv. apply in_map_iff in Hv.
    destruct Hv as (j & <- & _). apply on_sphere. }
  clearbody verts.
  pose proof (sphere_faces_valid segments rings Hs) as Hfaces.
  assert (Hnum : length (BasicViewerOps.sphere_faces segments rings)
                 = Z.to_nat (2 * rings * segments)).
  { unfold BasicViewerOps.sphere_faces.
    rewrite (length_flat_map_const _ _ (Z.to_nat segments * 2)).
    - rewrite range_length. rewrite !Z2Nat.inj_mul by lia.
      replace (rings - 0)%Z with rings by lia.
      change (Z.to_nat 2) with 2%nat. lia.
    - intros i _. rewrite (length_flat_map_const _ _ 2).
      + rewrite range_length. f_equal. f_equal. lia.
      + reflexivity. }
  destruct (compute_normals_spec
              (BasicViewer.mkMesh verts []
                 (BasicViewerOps.sphere_faces segments rings)
                 (0.9, 0.5, 0.3) eye4))
    as (m & Hm & Hv & Hf & _ & Hunit & Hn).
  - cbn [BasicViewer.vertices BasicViewer.faces].
    eapply Forall_impl; [|exact Hfaces].
    intros tri [_ Hin]. unfold face_in_range.
    apply Forall_forall. intros i Hi. rewrite Forall_forall in Hin.
    assert (Hmem : In i tri)
      by (rewrite <- (firstn_skipn 3 tri); apply in_or_app; now left).
    specialize (Hin i Hmem). unfold Vec3 in *. rewrite Hlen. lia.
  - exists m. split; [exact Hm|].
    cbn [BasicViewer.vertices BasicViewer.faces] in Hv, Hf, Hn.
    rewrite Hv, Hf.
    rewrite filter_triangles in Hn
      by (eapply Forall_impl; [|exact Hfaces]; now intros tri [Hl _]).
    repeat split; try assumption.
    eapply Forall_impl; [|exact Hfaces].
    intros tri [_ Hin]. eapply Forall_impl; [|exact Hin].
    intros i Hi. unfold Vec3 in *. rewrite Hlen. lia.
Qed.

(** X15.  For positive [segments] and [rings], [create_sample_sphere]
    completes with [(rings + 1) * segments] vertices, all at distance
    [|radius|] from the origin, and [2 * rings * segments] triangles whose
    indices all name stored vertices, each with its own unit normal.  With
    [rings = 0] it raises instead (division by zero). *)
Theorem sample_sphere_is_a_valid_mesh_on_the_sphere :
  forall (radius : R) (segments rings : Z),
    (0 < segments)%Z ->
    (0 < rings)%Z ->
    BasicViewerOps.create_sample_sphere radius segments 0 = None /\
    exists m,
      BasicViewerOps.create_sample_sphere radius segments rings = Some m /\
      length (BasicViewer.vertices m) = Z.to_nat ((rings + 1) * segments) /\
      length (BasicViewer.faces m) = Z.to_nat (2 * rings * segments) /\
      length (BasicViewer.normals m) = length (BasicViewer.faces m) /\
      Forall (fun v => norm v = Rabs radius) (BasicViewer.vertices m) /\
      Forall (Forall (fun i =>
                        (0 <= i < Z.of_nat (length (BasicViewer.vertices m)))%Z))
             (BasicViewer.faces m) /\
      Forall (fun n => norm n = 1) (BasicViewer.normals m).
Proof. exact create_sample_sphere_spec. Qed.

(** Witness for X15: the sphere that [load_usd_file] and [load_meshes]
    build, [create_sample_sphere()] with 16 segments and 12 rings. *)
Lemma sample_sphere_is_a_valid_mesh_on_the_sphere_witness :
  exists m,
    BasicViewerOps.create_sample_sphere 1.0 16 12 = Some m /\
    length (BasicViewer.vertices m) = 208%nat /\
    length (BasicViewer.faces m) = 384%nat.
Proof.
  destruct (sample_sphere_is_a_valid_mesh_on_the_sphere 1.0 16 12)
    as (_ & m & Hm & Hv & Hf & _); [reflexivity|reflexivity|].
  exists m. repeat split; assumption.
Defined.

Lemma sample_cube_exists :
  exists cube, BasicViewer.create_sample_cube = Some cube.
Proof.
  pose proof sample_cube_flat_normals as H.
  destruct BasicViewer.create_sample_cube as [cube|]; [eauto|discriminate].
Qed.

(** X16.  [load_usd_file] always hands back at least one mesh: whether the
    USD bindings are missing, the file cannot be opened, opening or mesh
    extraction raises, or the stage holds no mesh, the result is a non-empty
    list; and when the stage yields meshes, the result is exactly those. *)
Theorem load_usd_file_never_returns_an_empty_scene :
  forall (USD_AVAILABLE : bool) (stage : BasicViewerOps.OpenResult),
    (exists mesh meshes,
        BasicViewerOps.load_usd_file USD_AVAILABLE stage
        = Some (mesh :: meshes)) /\
    (forall prims mesh meshes,
        BasicViewerOps.extract_all prims = Some (mesh :: meshes) ->
        BasicViewerOps.load_usd_file true (BasicViewerOps.Opened prims)
        = Some (mesh :: meshes)).
Proof.
  intros usd stage.
  destruct sample_cube_exists as (cube & Hcube).
  destruct (create_sample_sphere_spec 1.0 16 12)
    as (_ & sphere & Hsphere & _); [reflexivity|reflexivity|].
  split.
  - unfold BasicViewerOps.load_usd_file. rewrite Hcube, Hsphere.
    cbn [bind].
    destruct usd; cbn [negb]; [|eauto].
    destruct stage as [| |prims]; [eauto|eauto|].
    destruct (BasicViewerOps.extract_all prims) as [[|mesh meshes]|]; eauto.
  - intros prims mesh meshes H.
    unfold BasicViewerOps.load_usd_file. cbn [negb]. now rewrite H.
Qed.

(** ** Legality of the call sequences *)

Lemma gl_run_app (a b : list GLCall) (s : GLState) :
  gl_run (a ++ b) s = (s' <- gl_run a s ;; gl_run b s').
Proof.
  revert s. induction a as [|c a IH]; intros s; [reflexivity|].
  cbn [app gl_run]. destruct (gl_step s c) as [s'|]; cbn [bind];
    [apply IH|reflexivity].
Qed.

Lemma vertex_data_run (body : list GLCall) (d : nat) (pm : GLenum) :
  Forall (fun c => is_vertex_data c = true) body ->
  gl_run body (mkGLState d true pm) = Some (mkGLState d true pm).
Proof.
  induction 1 as [|c body Hc _ IH]; [reflexivity|].
  cbn [gl_run]. destruct c; try discriminate Hc; cbn [gl_step in_batch bind];
    exact IH.
Qed.

(** A batch: [glBegin], vertex data, [glEnd]. *)
Lemma batch_run (mode : GLenum) (body : list GLCall) (d : nat) (pm : GLenum) :
  Forall (fun c => is_vertex_data c = true) body ->
  gl_run ([glBegin mode] ++ body ++ [glEnd]) (mkGLState d false pm)
  = Some (mkGLState d false pm).
Proof.
  intros H. cbn [app gl_run gl_step in_batch bind matrix_depth polygon_mode].
  rewrite gl_run_app, (vertex_data_run body d pm H). reflexivity.
Qed.

Lemma batches_run {A : Type} (f : A -> list GLCall) (l : list A)
    (s : GLState) :
  (forall x, gl_run (f x) s = Some s) ->
  gl_run (flat_map f l) s = Some s.
Proof.
  intros H. induction l as [|x l IH]; [reflexivity|].
  cbn [flat_map]. rewrite gl_run_app, H. exact IH.
Qed.

Ltac vertex_data :=
  repeat (apply Forall_app; split);
  try (apply Forall_flat_map, Forall_forall; intros ? _);
  try (apply Forall_forall; intros ? Hin; apply in_map_iff in Hin;
       destruct Hin as (? & <- & _); reflexivity);
  repeat constructor.

Lemma tri_calls_vertex_data (tris : list Triangle) :
  Forall (fun c => is_vertex_data c = true) (flat_map tri_calls tris).
Proof.
  apply Forall_flat_map, Forall_forall. intros t _. repeat constructor.
Qed.

Section PrimitiveBatches.

Variables (d : nat) (pm : GLenum).

Let s := mkGLState d false pm.

Lemma sphere_band_run (radius : R) (slices stacks i : Z) :
  gl_run (PyQt6Viewer.sphere_band radius slices stacks i) s = Some s.
Proof.
  unfold PyQt6Viewer.sphere_band. apply batch_run. vertex_data.
Qed.

Lemma wall_run (radius half_h : R) (slices : Z) :
  gl_run (PyQt6Viewer.wall_calls radius half_h slices) s = Some s.
Proof.
  unfold PyQt6Viewer.wall_calls. apply batch_run. vertex_data.
Qed.

Lemma hemisphere_band_run (radius half_h : R) (slices : Z) (sign : R)
    (lat_i : Z) :
  gl_run (PyQt6Viewer.hemisphere_band radius half_h slices sign lat_i) s
  = Some s.
Proof.
  unfold PyQt6Viewer.hemisphere_band. apply batch_run. vertex_data.
Qed.

Lemma top_cap_run (radius half_h : R) (slices : Z) :
  gl_run (PyQt6Viewer.top_cap_calls radius half_h slices) s = Some s.
Proof.
  unfold PyQt6Viewer.top_cap_calls.
  match goal with
  | |- gl_run ([glBegin ?m; ?n; ?v] ++ ?body ++ [glEnd]) _ = _ =>
      change (gl_run ([glBegin m] ++ ([n; v] ++ body) ++ [glEnd]) s = Some s)
  end.
  apply batch_run. vertex_data.
Qed.

Lemma bottom_cap_run (radius half_h : R) (slices : Z) :
  gl_run (PyQt6Viewer.bottom_cap_calls radius half_h slices) s = Some s.
Proof.
  unfold PyQt6Viewer.bottom_cap_calls.
  match goal with
  | |- gl_run ([glBegin ?m; ?n; ?v] ++ ?body ++ [glEnd]) _ = _ =>
      change (gl_run ([glBegin m] ++ ([n; v] ++ body) ++ [glEnd]) s = Some s)
  end.
  apply batch_run. vertex_data.
Qed.

Lemma cone_side_run (radius height half_h : R) (slices : Z) :
  gl_run (PyQt6Viewer.cone_side_calls radius height half_h slices) s = Some s.
Proof.
  unfold PyQt6Viewer.cone_side_calls.
  match goal with
  | |- gl_run ([glBegin ?m; ?v] ++ ?body ++ [glEnd]) _ = _ =>
      change (gl_run ([glBegin m] ++ ([v] ++ body) ++ [glEnd]) s = Some s)
  end.
  apply batch_run. vertex_data.
Qed.

Lemma cube_batch_run (verts : list Vec3) :
  gl_run ([glBegin GL_QUADS]
          ++ flat_map (PyQt6Viewer.cube_face_calls verts)
                      PyQt6Viewer.cube_faces
          ++ [glEnd]) s = Some s.
Proof.
  apply batch_run. apply Forall_flat_map, Forall_forall. intros f _.
  unfold PyQt6Viewer.cube_face_calls. constructor; [reflexivity|].
  apply Forall_forall. intros c Hc. apply in_map_iff in Hc.
  destruct Hc as (k & <- & _). reflexivity.
Qed.

End PrimitiveBatches.

Lemma app3_assoc {A : Type} (a b c p : list A) :
  a ++ b ++ c ++ p = (a ++ b ++ c) ++ p.
Proof. now rewrite !app_assoc. Qed.

(** A primitive's frame: push, transform, colour, legal body, pop. *)
Lemma framed_run (m : list R) (col : Vec3) (body : list GLCall) (d : nat)
    (pm : GLenum) :
  gl_run body (mkGLState (S d) false pm) = Some (mkGLState (S d) false pm) ->
  gl_run ([glPushMatrix] ++ [glMultMatrixd m] ++ [glColor3fv col] ++ body
          ++ [glPopMatrix]) (mkGLState d false pm)
  = Some (mkGLState d false pm).
Proof.
  intros H. cbn [app gl_run gl_step in_batch bind matrix_depth polygon_mode
                 glColor3fv].
  rewrite gl_run_app, H. reflexivity.
Qed.

Lemma primitive_run (self : PyQt6Viewer.GLViewport) (prim : Prim) (d : nat)
    (pm : GLenum) :
  gl_run (PyQt6Viewer.render_cube self prim) (mkGLState d false pm)
  = Some (mkGLState d false pm) /\
  gl_run (PyQt6Viewer.render_sphere self prim) (mkGLState d false pm)
  = Some (mkGLState d false pm) /\
  gl_run (PyQt6Viewer.render_cylinder self prim) (mkGLState d false pm)
  = Some (mkGLState d false pm) /\
  gl_run (PyQt6Viewer.render_cone self prim) (mkGLState d false pm)
  = Some (mkGLState d false pm) /\
  gl_run (PyQt6Viewer.render_capsule self prim) (mkGLState d false pm)
  = Some (mkGLState d false pm).
Proof.
  unfold PyQt6Viewer.render_cube, PyQt6Viewer.render_sphere,
    PyQt6Viewer.render_cylinder, PyQt6Viewer.render_cone,
    PyQt6Viewer.render_capsule, PyQt6Viewer.apply_transform.
  split; [|split; [|split; [|split]]].
  - rewrite (app3_assoc [glBegin GL_QUADS]). apply framed_run.
    apply cube_batch_run.
  - apply framed_run. apply batches_run. intros i. apply sphere_band_run.
  - rewrite (app3_assoc (PyQt6Viewer.wall_calls _ _ _)). apply framed_run.
    rewrite gl_run_app, wall_run. cbn [bind].
    rewrite gl_run_app, top_cap_run. cbn [bind]. apply bottom_cap_run.
  - rewrite (app_assoc (PyQt6Viewer.cone_side_calls _ _ _ _)).
    apply framed_run.
    rewrite gl_run_app, cone_side_run. cbn [bind]. apply bottom_cap_run.
  - rewrite (app_assoc (PyQt6Viewer.wall_calls _ _ _)).
    apply framed_run.
    rewrite gl_run_app, wall_run. cbn [bind].
    apply batches_run. intros sign. apply batches_run. intros i.
    apply hemisphere_band_run.
Qed.

Lemma pyqt6_mesh_run (self : PyQt6Viewer.GLViewport) (prim : Prim)
    (calls : list GLCall) (d : nat) (pm : GLenum) :
  PyQt6Viewer.render_mesh self prim = Some calls ->
  exists pm',
    gl_run calls (mkGLState d false pm) = Some (mkGLState d false pm') /\
    (pm' = pm \/ pm' = GL_FILL).
Proof.
  unfold PyQt6Viewer.render_mesh.
  destruct (points prim _) as [[|p ps]|];
    try (intros H; injection H as <-; exists pm; split; [reflexivity|now left]).
  destruct (faceVertexIndices prim) as [[|i irest]|];
    try (intros H; injection H as <-; exists pm; split; [reflexivity|now left]).
  destruct (faceVertexCounts prim) as [[|c crest]|];
    try (intros H; injection H as <-; exists pm; split; [reflexivity|now left]).
  destruct (faces_loop _ _ _ _ _) as [tris|]; cbn [bind]; [|discriminate].
  intros H. injection H as <-. exists GL_FILL. split; [|now right].
  unfold PyQt6Viewer.apply_transform.
  pose proof (tri_calls_vertex_data tris) as Hv.
  destruct (PyQt6Viewer.draw_mode self);
    cbn [app gl_run gl_step in_batch bind matrix_depth polygon_mode glColor3fv];
    rewrite gl_run_app, (vertex_data_run _ _ _ Hv); reflexivity.
Qed.

Lemma pyqt6_prim_run (self : PyQt6Viewer.GLViewport) (prim : Prim)
    (calls : list GLCall) (d : nat) (pm : GLenum) :
  PyQt6Viewer.render_prim self prim = Some calls ->
  exists pm',
    gl_run calls (mkGLState d false pm) = Some (mkGLState d false pm') /\
    (pm' = pm \/ pm' = GL_FILL).
Proof.
  unfold PyQt6Viewer.render_prim.
  destruct (primitive_run self prim d pm) as (Hcube & Hsph & Hcyl & Hcone & Hcap).
  destruct (prim_type prim);
    try (intros H; apply (f_equal (fun o => match o with
                                            | Some l => l
                                            | None => []
                                            end)) in H;
         cbv beta iota in H; subst calls; exists pm;
         split; [assumption || reflexivity|now left]).
  apply pyqt6_mesh_run.
Qed.

Lemma pyqt6_prims_run (self : PyQt6Viewer.GLViewport) (stage : list Prim) :
  forall (calls : list GLCall) (d : nat) (pm : GLenum),
    PyQt6Viewer.render_prims self stage = Some calls ->
    exists pm',
      gl_run calls (mkGLState d false pm) = Some (mkGLState d false pm') /\
      (pm' = pm \/ pm' = GL_FILL).
Proof.
  induction stage as [|prim stage IH]; intros calls d pm H.
  - apply (f_equal (fun o => match o with Some l => l | None => [] end)) in H.
    cbv beta iota in H. cbn [PyQt6Viewer.render_prims] in H. subst calls.
    exists pm. split; [reflexivity|now left].
  - cbn [PyQt6Viewer.render_prims] in H.
    destruct (PyQt6Viewer.render_prim self prim) as [cs|] eqn:Hcs;
      cbn [bind] in H; [|discriminate].
    destruct (PyQt6Viewer.render_prims self stage) as [cs'|] eqn:Hcs';
      cbn [bind] in H; [|discriminate].
    apply (f_equal (fun o => match o with Some l => l | None => [] end)) in H.
    cbv beta iota in H. subst calls.
    destruct (pyqt6_prim_run self prim cs d pm Hcs) as (pm1 & R1 & P1).
    destruct (IH cs' d pm1 eq_refl) as (pm2 & R2 & P2).
    exists pm2. rewrite gl_run_app, R1. cbn [bind]. split; [exact R2|].
    destruct P1 as [->| ->]; destruct P2 as [->| ->]; auto.
Qed.

(** X17.  One frame of the PyQt6 fallback renderer is a legal immediate-mode
    sequence for any stage it can draw: every [glBegin] is closed before the
    next call that is not vertex data, no vertex is issued outside a batch,
    every [glPushMatrix] is matched by a [glPopMatrix], the matrix stack ends
    at the depth it started from, and the polygon mode ends as it started or
    as [GL_FILL]; started in [GL_FILL], it ends in [GL_FILL]. *)
Theorem pyqt6_fallback_frame_is_legal_and_balanced :
  forall (self : PyQt6Viewer.GLViewport) (stage : list Prim)
         (calls : list GLCall) (d : nat) (pm : GLenum),
    PyQt6Viewer.render_fallback self stage = Some calls ->
    (exists pm',
        gl_run calls (mkGLState d false pm) = Some (mkGLState d false pm') /\
        (pm' = pm \/ pm' = GL_FILL)) /\
    gl_run calls (mkGLState d false GL_FILL) = Some (mkGLState d false GL_FILL).
Proof.
  intros self stage calls d pm H. unfold PyQt6Viewer.render_fallback in H.
  destruct (PyQt6Viewer.render_prims self stage) as [cs|] eqn:Hcs;
    cbn [bind] in H; [|discriminate].
  apply (f_equal (fun o => match o with Some l => l | None => [] end)) in H.
  cbv beta iota in H. subst calls.
  assert (Hpre : forall pm0,
             gl_run (if PyQt6Viewer.enable_lighting self
                     then [glEnable GL_LIGHTING] else [glDisable GL_LIGHTING])
                    (mkGLState d false pm0) = Some (mkGLState d false pm0))
    by (intros pm0; destruct (PyQt6Viewer.enable_lighting self); reflexivity).
  split.
  - destruct (pyqt6_prims_run self stage cs d pm Hcs) as (pm' & R & P).
    exists pm'. rewrite gl_run_app, Hpre. cbn [bind]. now split.
  - destruct (pyqt6_prims_run self stage cs d GL_FILL Hcs) as (pm' & R & P).
    rewrite gl_run_app, Hpre. cbn [bind]. rewrite R.
    destruct P as [->| ->]; reflexivity.
Qed.

(** Witness for X17: a stage holding two cones. *)
Lemma pyqt6_fallback_frame_is_legal_and_balanced_witness :
  exists calls,
    PyQt6Viewer.render_fallback initial_viewport [bare_prim Cone; red_cone]
    = Some calls /\
    gl_run calls (mkGLState 0 false GL_FILL) = Some (mkGLState 0 false GL_FILL).
Proof.
  eexists. split; [reflexivity|].
  refine (proj2 (pyqt6_fallback_frame_is_legal_and_balanced
                   initial_viewport [bare_prim Cone; red_cone] _ 0 GL_FILL _)).
  reflexivity.
Defined.

Lemma render_face_vertex_data (verts : list Vec3) (idxs : list Z)
    (calls : list GLCall) :
  BasicViewer.render_face verts idxs = Some calls ->
  Forall (fun c => is_vertex_data c = true) calls.
Proof.
  intros H. pose proof (render_face_geometry verts idxs calls H) as Hg.
  revert calls H Hg. induction idxs as [|i idxs IH]; intros calls H Hg.
  - injection H as <-. constructor.
  - cbn [BasicViewer.render_face] in H.
    destruct (i <? Z.of_nat (length verts))%Z;
      [|eapply IH; [eassumption|eapply render_face_geometry; eassumption]].
    destruct (Py.getitem verts i) as [v|]; [|discriminate].
    destruct (BasicViewer.render_face verts idxs) as [cs|] eqn:Hcs;
      [|discriminate].
    cbn [bind] in H. injection H as <-.
    constructor; [reflexivity|].
    eapply IH; [reflexivity|eapply render_face_geometry; eassumption].
Qed.

Lemma render_faces_vertex_data (self : BasicViewer.MeshData)
    (fs : list (list Z)) (i : nat) (calls : list GLCall) :
  BasicViewer.render_faces self i fs = Some calls ->
  Forall (fun c => is_vertex_data c = true) calls.
Proof.
  revert i calls. induction fs as [|face fs IH]; intros i calls H.
  - injection H as <-. constructor.
  - cbn [BasicViewer.render_faces] in H.
    destruct (BasicViewer.render_face _ _) as [vs|] eqn:Hvs; [|discriminate].
    destruct (BasicViewer.render_faces self (S i) fs) as [cs|] eqn:Hcs;
      [|discriminate].
    cbn [bind] in H. injection H as <-.
    apply Forall_app. split.
    + destruct (i <? length (BasicViewer.normals self))%nat; [|constructor].
      destruct (nth_error _ i); repeat constructor.
    + apply Forall_app. split.
      * eapply render_face_vertex_data; eassumption.
      * eapply IH; eassumption.
Qed.

Lemma hydra_mesh_run (self : HydraViewer.HydraViewport) (prim : Prim)
    (calls : list GLCall) (d : nat) (pm : GLenum) :
  HydraViewer.render_mesh_simple self prim = Some calls ->
  gl_run calls (mkGLState d false pm) = Some (mkGLState d false pm).
Proof.
  unfold HydraViewer.render_mesh_simple.
  destruct (points prim _) as [[|p ps]|];
    try (intros H; injection H as <-; reflexivity).
  destruct (faceVertexIndices prim) as [[|i irest]|];
    try (intros H; injection H as <-; reflexivity).
  destruct (faceVertexCounts prim) as [[|c crest]|];
    try (intros H; injection H as <-; reflexivity).
  destruct (faces_loop _ _ _ _ _) as [tris|]; cbn [bind]; [|discriminate].
  intros H. injection H as <-.
  pose proof (tri_calls_vertex_data tris) as Hv.
  destruct (displayColor prim) as [[|col cols]|];
    cbn [app gl_run gl_step in_batch bind matrix_depth polygon_mode];
    rewrite gl_run_app, (vertex_data_run _ _ _ Hv); reflexivity.
Qed.

(** X18.  [Mesh.render] of the basic viewer and a frame of the Hydra
    viewer's fallback renderer are legal immediate-mode sequences whenever
    they complete: batches are closed, vertices stay inside them, and the
    matrix stack returns to its depth.  [Mesh.render] always ends in polygon
    mode [GL_FILL], also after a wireframe pass; the Hydra fallback leaves
    the polygon mode as it found it. *)
Theorem basic_and_hydra_drawing_is_legal_and_balanced :
  forall (mesh : BasicViewer.MeshData) (wire : bool)
         (hv : HydraViewer.HydraViewport) (stage : list Prim)
         (mesh_calls frame_calls : list GLCall) (d : nat) (pm : GLenum),
    BasicViewer.render mesh wire = Some mesh_calls ->
    HydraViewer.render_fallback hv stage = Some frame_calls ->
    gl_run mesh_calls (mkGLState d false pm) = Some (mkGLState d false GL_FILL)
    /\ gl_run frame_calls (mkGLState d false pm) = Some (mkGLState d false pm).
Proof.
  intros mesh wire hv stage mesh_calls frame_calls d pm Hm Hf. split.
  - unfold BasicViewer.render in Hm.
    destruct (BasicViewer.render_faces mesh 0 (BasicViewer.faces mesh))
      as [body|] eqn:Hbody; cbn [bind] in Hm; [|discriminate].
    injection Hm as <-.
    pose proof (render_faces_vertex_data _ _ _ _ Hbody) as Hv.
    destruct wire;
      cbn [app gl_run gl_step in_batch bind matrix_depth polygon_mode
           glColor3fv];
      rewrite gl_run_app, (vertex_data_run _ _ _ Hv); reflexivity.
  - unfold HydraViewer.render_fallback in Hf.
    destruct (HydraViewer.render_prims hv stage) as [cs|] eqn:Hcs;
      cbn [bind] in Hf; [|discriminate].
    injection Hf as <-.
    cbn [app gl_run gl_step in_batch bind matrix_depth polygon_mode].
    clear -Hcs. revert cs Hcs.
    induction stage as [|prim stage IH]; intros cs Hcs.
    + injection Hcs as <-. reflexivity.
    + cbn [HydraViewer.render_prims] in Hcs.
      destruct (match prim_type prim with
                | Mesh => HydraViewer.render_mesh_simple hv prim
                | _ => Some []
                end) as [c1|] eqn:H1; cbn [bind] in Hcs; [|discriminate].
      destruct (HydraViewer.render_prims hv stage) as [c2|] eqn:H2;
        cbn [bind] in Hcs; [|discriminate].
      injection Hcs as <-.
      rewrite gl_run_app.
      assert (R1 : gl_run c1 (mkGLState d false pm)
                   = Some (mkGLState d false pm)).
      { destruct (prim_type prim);
          try (injection H1 as <-; reflexivity).
        now apply (hydra_mesh_run hv prim). }
      rewrite R1. cbn [bind]. now apply IH.
Qed.

(** Witness for X18: the leaning triangle in a wireframe pass, and a Hydra
    stage holding a cone, which the fallback passes over, and the unit
    square, which it draws as two triangles. *)
Lemma basic_and_hydra_drawing_is_legal_and_balanced_witness :
  exists mesh_calls frame_calls,
    BasicViewer.render ramp_mesh true = Some mesh_calls /\
    HydraViewer.render_fallback initial_hydra_viewport [red_cone; square_mesh]
    = Some frame_calls /\
    length (drawn_vertices mesh_calls) = 3%nat /\
    length (drawn_vertices frame_calls) = 6%nat /\
    gl_run mesh_calls (mkGLState 0 false GL_LINE)
    = Some (mkGLState 0 false GL_FILL) /\
    gl_run frame_calls (mkGLState 0 false GL_LINE)
    = Some (mkGLState 0 false GL_LINE).
Proof.
  eexists. eexists.
  split; [reflexivity|]. split; [reflexivity|].
  split; [reflexivity|]. split; [reflexivity|].
  apply (basic_and_hydra_drawing_is_legal_and_balanced
           ramp_mesh true initial_hydra_viewport [red_cone; square_mesh]);
    reflexivity.
Defined.

(** ** Where the primitives put their vertices *)

Lemma frame_calls_hold {P : GLCall -> Prop} (m : list R) (col : Vec3)
    (body : list GLCall) :
  P glPushMatrix -> P (glMultMatrixd m) -> P (glColor3fv col) ->
  P glPopMatrix ->
  Forall P body ->
  Forall P ([glPushMatrix] ++ [glMultMatrixd m] ++ [glColor3fv col] ++ body
            ++ [glPopMatrix]).
Proof.
  intros H1 H2 H3 H4 Hb. cbn [app].
  repeat constructor; try assumption.
  apply Forall_app. split; [assumption|]. now repeat constructor.
Qed.

Lemma sphere_band_vertices (radius : R) (slices stacks i : Z) :
  Forall (vertex_is (fun v => norm v = Rabs radius))
         (PyQt6Viewer.sphere_band radius slices stacks i).
Proof.
  unfold PyQt6Viewer.sphere_band.
  assert (Hon : forall lng lat,
             norm (cos lng * (radius * cos lat), sin lng * (radius * cos lat),
                   radius * sin lat) = Rabs radius).
  { intros lng lat. apply norm_of_square.
    unfold sum_sq. cbn [vx vy vz fst snd].
    pose proof (sin2_cos2 lng) as H1. pose proof (sin2_cos2 lat) as H2.
    unfold Rsqr in H1, H2.
    replace (0 + cos lng * (radius * cos lat) * (cos lng * (radius * cos lat))
             + sin lng * (radius * cos lat) * (sin lng * (radius * cos lat))
             + radius * sin lat * (radius * sin lat))
      with (radius * radius
            * (cos lat * cos lat * (sin lng * sin lng + cos lng * cos lng)
               + sin lat * sin lat)) by ring.
    rewrite H1. replace (cos lat * cos lat * 1 + sin lat * sin lat)
      with (sin lat * sin lat + cos lat * cos lat) by ring.
    rewrite H2. ring. }
  apply Forall_app. split; [repeat constructor|].
  apply Forall_app. split; [|repeat constructor].
  apply Forall_flat_map, Forall_forall. intros j _.
  repeat constructor; cbn [vertex_is]; apply Hon.
Qed.

(** X19.  Every vertex that [render_sphere] issues lies at distance
    [|radius|] from the local origin, and every normal it issues has length
    1, where [radius] is the prim's radius or 1.0 when that is absent or
    zero. *)
Theorem sphere_vertices_lie_on_the_sphere :
  forall (self : PyQt6Viewer.GLViewport) (prim : Prim),
    let r := Py.or_default (radius prim) 1.0 in
    Forall (vertex_is (fun v => norm v = Rabs r))
           (PyQt6Viewer.render_sphere self prim) /\
    Forall (normal_is (fun n => norm n = 1))
           (PyQt6Viewer.render_sphere self prim) /\
    r <> 0.
Proof.
  intros self prim r.
  assert (Hr : r <> 0) by (apply or_default_nonzero; lra).
  unfold PyQt6Viewer.render_sphere, PyQt6Viewer.apply_transform. fold r.
  split; [|split; [|exact Hr]].
  - apply frame_calls_hold; try exact I; try exact (fun _ => I).
    apply Forall_flat_map, Forall_forall. intros i _.
    apply sphere_band_vertices.
  - apply frame_calls_hold; try exact I; try exact (fun _ => I).
    apply Forall_flat_map, Forall_forall. intros i _.
    now apply sphere_band_normals_unit.
Qed.

Lemma circle_sq (a r : R) :
  (cos a * r) * (cos a * r) + (sin a * r) * (sin a * r) = r * r.
Proof.
  pose proof (sin2_cos2 a) as H. unfold Rsqr in H.
  replace ((cos a * r) * (cos a * r) + (sin a * r) * (sin a * r))
    with (r * r * (sin a * sin a + cos a * cos a)) by ring.
  rewrite H. ring.
Qed.

(** X20.  What [render_cylinder] draws is a wall and two caps.  Wall
    vertices lie on the circle of radius [r] at height [-h/2] or [h/2], under
    horizontal unit normals; the top cap lies in the plane [y = h/2] under the
    one normal (0, 1, 0), the bottom cap in [y = -h/2] under (0, -1, 0), and
    cap vertices are the centre or points of the rim circle. *)
Theorem cylinder_lies_on_its_surface :
  forall (self : PyQt6Viewer.GLViewport) (prim : Prim),
    let r := Py.or_default (radius prim) 1.0 in
    let h := Py.or_default (height prim) 2.0 in
    let wall := PyQt6Viewer.wall_calls r (h / 2) 24 in
    let top := PyQt6Viewer.top_cap_calls r (h / 2) 24 in
    let bottom := PyQt6Viewer.bottom_cap_calls r (h / 2) 24 in
    geometry (PyQt6Viewer.render_cylinder self prim) = wall ++ top ++ bottom /\
    Forall (vertex_is (fun v => vx v * vx v + vz v * vz v = r * r /\
                                (vy v = - (h / 2) \/ vy v = h / 2))) wall /\
    Forall (normal_is (fun n => vy n = 0 /\ norm n = 1)) wall /\
    Forall (normal_is (fun n => n = (0, 1, 0))) top /\
    Forall (vertex_is (fun v => vy v = h / 2 /\
                                (vx v * vx v + vz v * vz v = r * r \/
                                 (vx v = 0 /\ vz v = 0)))) top /\
    Forall (normal_is (fun n => n = (0, -1, 0))) bottom /\
    Forall (vertex_is (fun v => vy v = - (h / 2) /\
                                (vx v * vx v + vz v * vz v = r * r \/
                                 (vx v = 0 /\ vz v = 0)))) bottom.
Proof.
  intros self prim r h wall top bottom.
  split; [exact (proj1 (cylinder_draws self prim))|].
  unfold wall, top, bottom, PyQt6Viewer.wall_calls, PyQt6Viewer.top_cap_calls,
    PyQt6Viewer.bottom_cap_calls.
  split; [|split; [|split; [|split; [|split]]]].
  - apply Forall_app. split; [repeat constructor|].
    apply Forall_app. split; [|repeat constructor].
    apply Forall_flat_map, Forall_forall. intros i _.
    constructor; [exact I|].
    constructor;
      [cbn [vertex_is vx vy vz fst snd];
       split; [apply circle_sq|left; reflexivity]|].
    constructor;
      [cbn [vertex_is vx vy vz fst snd];
       split; [apply circle_sq|right; reflexivity]|constructor].
  - apply Forall_app. split; [repeat constructor|].
    apply Forall_app. split; [|repeat constructor].
    apply Forall_flat_map, Forall_forall. intros i _.
    constructor; [|repeat constructor].
    cbn [normal_is vy fst snd]. split; [reflexivity|].
    unfold norm. rewrite sum_sq_circle.
    replace (1 + 0 * 0) with 1 by lra. apply sqrt_1.
  - cbn [app]. constructor; [exact I|]. constructor; [reflexivity|].
    constructor; [exact I|].
    apply Forall_app. split; [|repeat constructor].
    apply Forall_forall. intros c Hc. apply in_map_iff in Hc.
    destruct Hc as (i & <- & _). exact I.
  - cbn [app]. constructor; [exact I|]. constructor; [exact I|].
    constructor; [cbn [vertex_is vx vy vz fst snd]; split; [reflexivity|];
                  right; split; reflexivity|].
    apply Forall_app. split; [|repeat constructor].
    apply Forall_forall. intros c Hc. apply in_map_iff in Hc.
    destruct Hc as (i & <- & _). cbn [vertex_is vx vy vz fst snd].
    split; [reflexivity|left].
    rewrite (Rmult_comm r (cos _)), (Rmult_comm r (sin _)). apply circle_sq.
  - cbn [app]. constructor; [exact I|]. constructor; [reflexivity|].
    constructor; [exact I|].
    apply Forall_app. split; [|repeat constructor].
    apply Forall_forall. intros c Hc. apply in_map_iff in Hc.
    destruct Hc as (i & <- & _). exact I.
  - cbn [app]. constructor; [exact I|]. constructor; [exact I|].
    constructor; [cbn [vertex_is vx vy vz fst snd]; split; [reflexivity|];
                  right; split; reflexivity|].
    apply Forall_app. split; [|repeat constructor].
    apply Forall_forall. intros c Hc. apply in_map_iff in Hc.
    destruct Hc as (i & <- & _). cbn [vertex_is vx vy vz fst snd].
    split; [reflexivity|left].
    rewrite (Rmult_comm r (cos _)), (Rmult_comm r (sin _)). apply circle_sq.
Qed.

Lemma hemisphere_band_vertices (radius half_h : R) (slices lat_i : Z)
    (sign : R) :
  sign * sign = 1 ->
  Forall (vertex_is (fun v => sum_sq (vsub v (0, sign * half_h, 0))
                              = radius * radius))
         (PyQt6Viewer.hemisphere_band radius half_h slices sign lat_i).
Proof.
  intros Hsign. unfold PyQt6Viewer.hemisphere_band.
  assert (Hon : forall a lat,
             sum_sq (vsub (cos a * (radius * cos lat),
                           sign * (half_h + radius * sin lat),
                           sin a * (radius * cos lat))
                          (0, sign * half_h, 0)) = radius * radius).
  { intros a lat. unfold sum_sq, vsub. cbn [vx vy vz fst snd].
    pose proof (sin2_cos2 a) as H1. pose proof (sin2_cos2 lat) as H2.
    unfold Rsqr in H1, H2.
    replace (0 + (cos a * (radius * cos lat) - 0)
                 * (cos a * (radius * cos lat) - 0)
             + (sign * (half_h + radius * sin lat) - sign * half_h)
               * (sign * (half_h + radius * sin lat) - sign * half_h)
             + (sin a * (radius * cos lat) - 0)
               * (sin a * (radius * cos lat) - 0))
      with (radius * radius
            * (cos lat * cos lat * (sin a * sin a + cos a * cos a)
               + (sign * sign) * (sin lat * sin lat))) by ring.
    rewrite H1, Hsign.
    replace (cos lat * cos lat * 1 + 1 * (sin lat * sin lat))
      with (sin lat * sin lat + cos lat * cos lat) by ring.
    rewrite H2. ring. }
  apply Forall_app. split; [repeat constructor|].
  apply Forall_app. split; [|repeat constructor].
  apply Forall_flat_map, Forall_forall. intros j _.
  constructor; [exact I|]. constructor; [apply Hon|].
  constructor; [exact I|]. constructor; [apply Hon|constructor].
Qed.

Lemma hemisphere_band_normals (radius half_h : R) (slices lat_i : Z)
    (sign : R) :
  radius <> 0 ->
  sign * sign = 1 ->
  Forall (normal_is (fun n => norm n = 1))
         (PyQt6Viewer.hemisphere_band radius half_h slices sign lat_i).
Proof.
  intros Hr Hsign. unfold PyQt6Viewer.hemisphere_band.
  assert (Hunit : forall a lat,
             norm (cos a * (radius * cos lat) / radius, sign * sin lat,
                   sin a * (radius * cos lat) / radius) = 1).
  { intros a lat. unfold norm.
    replace (sum_sq _) with 1; [apply sqrt_1|].
    unfold sum_sq. cbn [vx vy vz fst snd].
    pose proof (sin2_cos2 a) as H1. pose proof (sin2_cos2 lat) as H2.
    unfold Rsqr in H1, H2.
    replace (cos a * (radius * cos lat) / radius) with (cos a * cos lat)
      by (field; assumption).
    replace (sin a * (radius * cos lat) / radius) with (sin a * cos lat)
      by (field; assumption).
    replace (0 + cos a * cos lat * (cos a * cos lat)
             + sign * sin lat * (sign * sin lat)
             + sin a * cos lat * (sin a * cos lat))
      with (cos lat * cos lat * (sin a * sin a + cos a * cos a)
            + (sign * sign) * (sin lat * sin lat)) by ring.
    rewrite H1, Hsign. lra. }
  apply Forall_app. split; [repeat constructor|].
  apply Forall_app. split; [|repeat constructor].
  apply Forall_flat_map, Forall_forall. intros j _.
  constructor; [apply Hunit|]. constructor; [exact I|].
  constructor; [apply Hunit|]. constructor; [exact I|constructor].
Qed.

Lemma wall_vertices_capsule (radius half_h : R) (slices : Z) :
  Forall (vertex_is (fun v =>
            sum_sq (vsub v (0, half_h, 0)) = radius * radius \/
            sum_sq (vsub v (0, - half_h, 0)) = radius * radius))
         (PyQt6Viewer.wall_calls radius half_h slices).
Proof.
  unfold PyQt6Viewer.wall_calls.
  assert (Hc : forall a y,
             sum_sq (vsub (cos a * radius, y, sin a * radius) (0, y, 0))
             = radius * radius).
  { intros a y. unfold sum_sq, vsub. cbn [vx vy vz fst snd].
    rewrite <- (circle_sq a radius). ring. }
  apply Forall_app. split; [repeat constructor|].
  apply Forall_app. split; [|repeat constructor].
  apply Forall_flat_map, Forall_forall. intros i _.
  constructor; [exact I|].
  constructor; [right; apply Hc|].
  constructor; [left; apply Hc|constructor].
Qed.

(** X21.  Every vertex that [render_capsule] issues lies at distance
    [|radius|] from one of the two cap centres [(0, h/2, 0)] and
    [(0, -h/2, 0)], so the capsule reaches [h/2 + |radius|] along the axis;
    and every normal it issues has length 1. *)
Theorem capsule_vertices_lie_around_the_cap_centres :
  forall (self : PyQt6Viewer.GLViewport) (prim : Prim),
    let r := Py.or_default (radius prim) 0.5 in
    let h := Py.or_default (height prim) 2.0 in
    Forall (vertex_is (fun v =>
              sum_sq (vsub v (0, h / 2, 0)) = r * r \/
              sum_sq (vsub v (0, - (h / 2), 0)) = r * r))
           (PyQt6Viewer.render_capsule self prim) /\
    Forall (normal_is (fun n => norm n = 1))
           (PyQt6Viewer.render_capsule self prim).
Proof.
  intros self prim r h.
  assert (Hr : r <> 0) by (apply or_default_nonzero; lra).
  unfold PyQt6Viewer.render_capsule, PyQt6Viewer.apply_transform.
  fold r. fold h. split.
  - rewrite (app_assoc (PyQt6Viewer.wall_calls _ _ _)).
    apply frame_calls_hold; try exact I.
    apply Forall_app. split; [apply wall_vertices_capsule|].
    cbn [flat_map]. rewrite app_nil_r. apply Forall_app. split.
    + apply Forall_flat_map, Forall_forall. intros i _.
      eapply Forall_impl;
        [|apply (hemisphere_band_vertices r (h / 2) 24 i 1); lra].
      intros [] Hc; cbn [vertex_is] in *; try exact I.
      left. replace (h / 2) with (1 * (h / 2)) by lra. exact Hc.
    + apply Forall_flat_map, Forall_forall. intros i _.
      eapply Forall_impl;
        [|apply (hemisphere_band_vertices r (h / 2) 24 i (-1)); lra].
      intros [] Hc; cbn [vertex_is] in *; try exact I.
      right. replace (- (h / 2)) with (-1 * (h / 2)) by lra. exact Hc.
  - rewrite (app_assoc (PyQt6Viewer.wall_calls _ _ _)).
    apply frame_calls_hold; try exact I.
    apply Forall_app. split.
    + eapply Forall_impl; [|apply wall_normals_unit].
      intros [] Hc; cbn [normal_is] in *; try exact I. exact Hc.
    + cbn [flat_map]. rewrite app_nil_r. apply Forall_app. split.
      * apply Forall_flat_map, Forall_forall. intros i _.
        apply hemisphere_band_normals; [exact Hr|lra].
      * apply Forall_flat_map, Forall_forall. intros i _.
        apply hemisphere_band_normals; [exact Hr|lra].
Qed.

(** ** The two Qt viewers on the same mesh *)

Section TwoNormals.

Variables normal_a normal_b : Vec3 -> Vec3 -> Vec3 -> Vec3.
Variable pts : list Vec3.
Variable indices : list Z.

Lemma fan_loop_corners (idx : Z) (v0 : Vec3) (steps : list Z) :
  option_map (map corners) (fan_loop normal_a pts indices idx v0 steps)
  = option_map (map corners) (fan_loop normal_b pts indices idx v0 steps).
Proof.
  induction steps as [|i steps IH]; [reflexivity|].
  cbn [fan_loop].
  destruct (Py.getitem indices (idx + i)) as [i1|]; [|reflexivity].
  cbn [bind].
  destruct (Py.getitem pts i1) as [v1|]; [|reflexivity]. cbn [bind].
  destruct (Py.getitem indices (idx + i + 1)) as [i2|]; [|reflexivity].
  cbn [bind].
  destruct (Py.getitem pts i2) as [v2|]; [|reflexivity]. cbn [bind].
  destruct (fan_loop normal_a pts indices idx v0 steps) as [ta|];
    destruct (fan_loop normal_b pts indices idx v0 steps) as [tb|];
    cbn [bind option_map] in *; try discriminate; [|reflexivity].
  injection IH as IH. cbn [map corners tri_v0 tri_v1 tri_v2].
  now rewrite IH.
Qed.

Lemma faces_loop_corners (counts : list Z) (idx : Z) :
  option_map (map corners) (faces_loop normal_a pts indices idx counts)
  = option_map (map corners) (faces_loop normal_b pts indices idx counts).
Proof.
  revert idx. induction counts as [|count counts IH]; intros idx;
    [reflexivity|].
  cbn [faces_loop]. specialize (IH (idx + count)%Z).
  assert (Hfan :
    option_map (map corners)
      (if (3 <=? count)%Z
       then i0 <- Py.getitem indices idx ;;
            v0 <- Py.getitem pts i0 ;;
            fan_loop normal_a pts indices idx v0 (Py.range 1 (count - 1))
       else Some [])
    = option_map (map corners)
      (if (3 <=? count)%Z
       then i0 <- Py.getitem indices idx ;;
            v0 <- Py.getitem pts i0 ;;
            fan_loop normal_b pts indices idx v0 (Py.range 1 (count - 1))
       else Some [])).
  { destruct (3 <=? count)%Z; [|reflexivity].
    destruct (Py.getitem indices idx) as [i0|]; [|reflexivity]. cbn [bind].
    destruct (Py.getitem pts i0) as [v0|]; [|reflexivity]. cbn [bind].
    apply fan_loop_corners. }
  destruct (if (3 <=? count)%Z
            then i0 <- Py.getitem indices idx ;;
                 v0 <- Py.getitem pts i0 ;;
                 fan_loop normal_a pts indices idx v0 (Py.range 1 (count - 1))
            else Some []) as [ta|];
    destruct (if (3 <=? count)%Z
              then i0 <- Py.getitem indices idx ;;
                   v0 <- Py.getitem pts i0 ;;
                   fan_loop normal_b pts indices idx v0
                            (Py.range 1 (count - 1))
              else Some []) as [tb|];
    cbn [bind option_map] in *; try discriminate; [|reflexivity].
  destruct (faces_loop normal_a pts indices (idx + count) counts) as [ra|];
    destruct (faces_loop normal_b pts indices (idx + count) counts) as [rb|];
    cbn [bind option_map] in *; try discriminate; [|reflexivity].
  injection Hfan as Hfan. injection IH as IH.
  now rewrite !map_app, Hfan, IH.
Qed.

End TwoNormals.

Lemma drawn_vertices_app (a b : list GLCall) :
  drawn_vertices (a ++ b) = drawn_vertices a ++ drawn_vertices b.
Proof. apply flat_map_app. Qed.

Lemma drawn_vertices_tris (tris : list Triangle) :
  drawn_vertices (flat_map tri_calls tris)
  = flat_map corner_list (map corners tris).
Proof.
  induction tris as [|t tris IH]; [reflexivity|].
  cbn [flat_map map]. rewrite drawn_vertices_app, IH.
  unfold tri_calls, glNormal3fv, glVertex3fv, drawn_vertices, corner_list,
    corners.
  cbn [flat_map app fst snd]. now rewrite !vec_eta.
Qed.

(** X22.  The Hydra viewer's fallback and the PyQt6 viewer draw a mesh prim,
    read at the same time code, with the same vertices in the same order,
    whatever their draw modes and lighting settings; and one of them raises
    on the prim exactly when the other does.  (They can differ in the normals
    only.) *)
Theorem qt_viewers_draw_the_same_vertices :
  forall (hv : HydraViewer.HydraViewport) (pv : PyQt6Viewer.GLViewport)
         (prim : Prim),
    HydraViewer.time_code hv = PyQt6Viewer.time_code pv ->
    option_map drawn_vertices (HydraViewer.render_mesh_simple hv prim)
    = option_map drawn_vertices (PyQt6Viewer.render_mesh pv prim).
Proof.
  intros hv pv prim Htc.
  unfold HydraViewer.render_mesh_simple, PyQt6Viewer.render_mesh.
  rewrite Htc.
  destruct (points prim (At (PyQt6Viewer.time_code pv))) as [[|p ps]|];
    [reflexivity| |reflexivity].
  destruct (faceVertexIndices prim) as [[|i irest]|];
    [reflexivity| |reflexivity].
  destruct (faceVertexCounts prim) as [[|c crest]|];
    [reflexivity| |reflexivity].
  pose proof (faces_loop_corners HydraViewer.face_normal
                PyQt6Viewer.face_normal (p :: ps) (i :: irest) (c :: crest) 0)
    as Hsame.
  destruct (faces_loop HydraViewer.face_normal (p :: ps) (i :: irest) 0
                       (c :: crest)) as [ta|];
    destruct (faces_loop PyQt6Viewer.face_normal (p :: ps) (i :: irest) 0
                         (c :: crest)) as [tb|];
    cbn [bind option_map] in *; try discriminate; [|reflexivity].
  injection Hsame as Hsame. apply (f_equal Some).
  rewrite !drawn_vertices_app, !drawn_vertices_tris, Hsame.
  unfold PyQt6Viewer.apply_transform.
  destruct (displayColor prim) as [[|col cols]|];
    destruct (PyQt6Viewer.draw_mode pv); reflexivity.
Qed.

(** Witness for X22: the unit square in the two viewports as they start. *)
Lemma qt_viewers_draw_the_same_vertices_witness :
  option_map drawn_vertices
    (HydraViewer.render_mesh_simple initial_hydra_viewport square_mesh)
  = option_map drawn_vertices
      (PyQt6Viewer.render_mesh initial_viewport square_mesh).
Proof.
  apply (qt_viewers_draw_the_same_vertices initial_hydra_viewport
           initial_viewport square_mesh).
  reflexivity.
Defined.

(** ** Running out of indices *)

Lemma getitem_beyond {A : Type} (l : list A) (i : Z) :
  (Z.of_nat (length l) <= i)%Z -> Py.getitem l i = None.
Proof.
  intros Hi. unfold Py.getitem.
  destruct (Z.leb_spec 0 i); [|lia].
  apply nth_error_None. lia.
Qed.

Section Overshoot.

Variable normal_of : Vec3 -> Vec3 -> Vec3 -> Vec3.
Variable pts : list Vec3.
Variable indices : list Z.

Lemma fan_loop_overshoot (idx : Z) (v0 : Vec3) (steps : list Z) :
  Exists (fun i => (Z.of_nat (length indices) <= idx + i + 1)%Z) steps ->
  fan_loop normal_of pts indices idx v0 steps = None.
Proof.
  induction steps as [|i steps IH]; intros H; [inversion H|].
  cbn [fan_loop].
  destruct (Py.getitem indices (idx + i)) as [i1|]; [|reflexivity].
  cbn [bind].
  destruct (Py.getitem pts i1) as [v1|]; [|reflexivity]. cbn [bind].
  destruct (Py.getitem indices (idx + i + 1)) as [i2|] eqn:E2;
    [|reflexivity].
  cbn [bind].
  destruct (Py.getitem pts i2) as [v2|]; [|reflexivity]. cbn [bind].
  inversion H as [? ? Hi|? ? Hrest]; subst.
  - rewrite getitem_beyond in E2 by assumption. discriminate.
  - now rewrite IH.
Qed.

Lemma faces_loop_overshoot (counts : list Z) (idx : Z) :
  (0 <= idx <= Z.of_nat (length indices))%Z ->
  Forall (fun c => (3 <= c)%Z) counts ->
  (Z.of_nat (length indices) < idx + sum_counts counts)%Z ->
  faces_loop normal_of pts indices idx counts = None.
Proof.
  revert idx. induction counts as [|c counts IH]; intros idx H0 Hc Hlen.
  - unfold sum_counts in Hlen. cbn [fold_right] in Hlen. lia.
  - inversion Hc as [|? ? Hc0 Hcs]; subst.
    cbn [sum_counts fold_right] in Hlen. fold (sum_counts counts) in Hlen.
    cbn [faces_loop].
    destruct (Z.leb_spec 3 c); [|lia].
    destruct (Z_lt_le_dec (Z.of_nat (length indices)) (idx + c)) as [Hover|Hin].
    + destruct (Py.getitem indices idx) as [i0|]; [|reflexivity].
      cbn [bind].
      destruct (Py.getitem pts i0) as [v0|]; [|reflexivity]. cbn [bind].
      rewrite fan_loop_overshoot; [reflexivity|].
      apply Exists_exists. exists (c - 2)%Z. split; [|lia].
      apply range_In. lia.
    + rewrite (IH (idx + c)%Z) by (assumption || lia).
      destruct (i0 <- Py.getitem indices idx ;;
                v0 <- Py.getitem pts i0 ;;
                fan_loop normal_of pts indices idx v0 (Py.range 1 (c - 1)));
        reflexivity.
Qed.

End Overshoot.

Lemma hydra_prims_abort (hv : HydraViewer.HydraViewport) (prim : Prim)
    (stage : list Prim) :
  In prim stage ->
  prim_type prim = Mesh ->
  HydraViewer.render_mesh_simple hv prim = None ->
  HydraViewer.render_prims hv stage = None.
Proof.
  intros Hin Hty Hnone. induction stage as [|p stage IH]; [contradiction|].
  cbn [HydraViewer.render_prims].
  destruct Hin as [->|Hin].
  - rewrite Hty, Hnone. reflexivity.
  - rewrite (IH Hin).
    destruct (match prim_type p with
              | Mesh => HydraViewer.render_mesh_simple hv p
              | _ => Some []
              end); reflexivity.
Qed.

Lemma pyqt6_prims_abort (pv : PyQt6Viewer.GLViewport) (prim : Prim)
    (stage : list Prim) :
  In prim stage ->
  PyQt6Viewer.render_prim pv prim = None ->
  PyQt6Viewer.render_prims pv stage = None.
Proof.
  intros Hin Hnone. induction stage as [|p stage IH]; [contradiction|].
  cbn [PyQt6Viewer.render_prims].
  destruct Hin as [->|Hin].
  - rewrite Hnone. reflexivity.
  - rewrite (IH Hin). destruct (PyQt6Viewer.render_prim pv p); reflexivity.
Qed.

(** X23.  The Qt viewers do not guard the index array: for a mesh prim with
    points and indices whose faces all have at least three corners and
    together ask for more indices than are stored, [render_mesh_simple] and
    [render_mesh] raise [IndexError], and so does the fallback rendering of
    any stage that holds the prim; no later prim is drawn. *)
Theorem qt_viewers_raise_when_indices_run_out :
  forall (prim : Prim) (indices counts : list Z),
    prim_type prim = Mesh ->
    faceVertexIndices prim = Some indices ->
    faceVertexCounts prim = Some counts ->
    Forall (fun c => (3 <= c)%Z) counts ->
    (0 < Z.of_nat (length indices) < sum_counts counts)%Z ->
    (forall (hv : HydraViewer.HydraViewport) (stage : list Prim),
        Py.truthy (points prim (At (HydraViewer.time_code hv))) = true ->
        In prim stage ->
        HydraViewer.render_mesh_simple hv prim = None /\
        HydraViewer.render_fallback hv stage = None) /\
    (forall (pv : PyQt6Viewer.GLViewport) (stage : list Prim),
        Py.truthy (points prim (At (PyQt6Viewer.time_code pv))) = true ->
        In prim stage ->
        PyQt6Viewer.render_mesh pv prim = None /\
        PyQt6Viewer.render_fallback pv stage = None).
Proof.
  intros prim indices counts Hty Hind Hcnt Hc [Hpos Hlen].
  assert (Hshape : exists i irest c crest,
             indices = i :: irest /\ counts = c :: crest).
  { destruct indices as [|i irest]; [cbn [length] in Hpos; lia|].
    destruct counts as [|c crest];
      [unfold sum_counts in Hlen; cbn [fold_right] in Hlen; lia|].
    eauto 6. }
  destruct Hshape as (i & irest & c & crest & Ei & Ec).
  split.
  - intros hv stage Hpts Hin.
    assert (Hmesh : HydraViewer.render_mesh_simple hv prim = None).
    { unfold HydraViewer.render_mesh_simple. rewrite Hind, Hcnt.
      destruct (points prim (At (HydraViewer.time_code hv))) as [[|p ps]|];
        try discriminate Hpts.
      rewrite Ei, Ec, <- Ei, <- Ec.
      rewrite faces_loop_overshoot by (assumption || lia). reflexivity. }
    split; [exact Hmesh|].
    unfold HydraViewer.render_fallback.
    now rewrite (hydra_prims_abort hv prim stage Hin Hty Hmesh).
  - intros pv stage Hpts Hin.
    assert (Hmesh : PyQt6Viewer.render_mesh pv prim = None).
    { unfold PyQt6Viewer.render_mesh. rewrite Hind, Hcnt.
      destruct (points prim (At (PyQt6Viewer.time_code pv))) as [[|p ps]|];
        try discriminate Hpts.
      rewrite Ei, Ec, <- Ei, <- Ec.
      rewrite faces_loop_overshoot by (assumption || lia). reflexivity. }
    split; [exact Hmesh|].
    unfold PyQt6Viewer.render_fallback.
    rewrite (pyqt6_prims_abort pv prim stage Hin); [reflexivity|].
    unfold PyQt6Viewer.render_prim. now rewrite Hty.
Qed.

(** Witness for X23: a face of three corners over two indices, drawn after a
    cone. *)
Lemma qt_viewers_raise_when_indices_run_out_witness :
  HydraViewer.render_fallback initial_hydra_viewport
    [red_cone; short_index_mesh] = None /\
  PyQt6Viewer.render_fallback initial_viewport
    [red_cone; short_index_mesh] = None.
Proof.
  destruct (qt_viewers_raise_when_indices_run_out short_index_mesh
              [0; 1]%Z [3]%Z) as [Hh Hp].
  - reflexivity.
  - reflexivity.
  - reflexivity.
  - repeat constructor. lia.
  - cbv. split; reflexivity.
  - split.
    + apply (Hh initial_hydra_viewport [red_cone; short_index_mesh]);
        [reflexivity|right; left; reflexivity].
    + apply (Hp initial_viewport [red_cone; short_index_mesh]);
        [reflexivity|right; left; reflexivity].
Defined.

(** ** Which prims a frame draws *)

Lemma hydra_prims_filter (hv : HydraViewer.HydraViewport) (stage : list Prim) :
  HydraViewer.render_prims hv stage
  = HydraViewer.render_prims hv (filter is_mesh stage).
Proof.
  induction stage as [|p stage IH]; [reflexivity|].
  cbn [filter HydraViewer.render_prims]. unfold is_mesh at 1.
  destruct (prim_type p) eqn:E; cbn [bind app];
    try (cbn [HydraViewer.render_prims]; rewrite E);
    rewrite IH;
    destruct (HydraViewer.render_prims hv (filter is_mesh stage));
    reflexivity.
Qed.

Lemma pyqt6_prims_filter (pv : PyQt6Viewer.GLViewport) (stage : list Prim) :
  PyQt6Viewer.render_prims pv stage
  = PyQt6Viewer.render_prims pv (filter is_renderable stage).
Proof.
  induction stage as [|p stage IH]; [reflexivity|].
  cbn [filter PyQt6Viewer.render_prims]. unfold is_renderable at 1.
  unfold PyQt6Viewer.render_prim at 1.
  destruct (prim_type p) eqn:E; cbn [bind app];
    try (cbn [PyQt6Viewer.render_prims];
         unfold PyQt6Viewer.render_prim at 1; rewrite E);
    rewrite IH;
    destruct (PyQt6Viewer.render_prims pv (filter is_renderable stage));
    reflexivity.
Qed.

(** X24.  A fallback frame depends on the drawable prims only: the Hydra
    viewer's fallback draws a stage exactly as it draws the stage's meshes
    alone (cubes, spheres, cylinders, cones and capsules are left out), and
    the PyQt6 viewer draws it exactly as it draws its meshes and five
    primitive shapes alone; transforms, lights and other prims add no call
    and cannot make a frame fail. *)
Theorem fallback_frame_depends_on_drawable_prims_only :
  forall (hv : HydraViewer.HydraViewport) (pv : PyQt6Viewer.GLViewport)
         (stage : list Prim),
    HydraViewer.render_fallback hv stage
    = HydraViewer.render_fallback hv (filter is_mesh stage) /\
    PyQt6Viewer.render_fallback pv stage
    = PyQt6Viewer.render_fallback pv (filter is_renderable stage).
Proof.
  intros hv pv stage.
  unfold HydraViewer.render_fallback, PyQt6Viewer.render_fallback.
  now rewrite <- hydra_prims_filter, <- pyqt6_prims_filter.
Qed.

(** ** Rendering what was extracted *)

Lemma getitem_found {A : Type} (l : list A) (i : Z) (x : A) :
  Py.getitem l i = Some x ->
  (- Z.of_nat (length l) <= i < Z.of_nat (length l))%Z /\ In x l.
Proof.
  unfold Py.getitem. intros H.
  destruct (Z.leb_spec 0 i).
  - split; [|eapply nth_error_In; eassumption].
    assert (Hn : nth_error l (Z.to_nat i) <> None) by congruence.
    apply nth_error_Some in Hn. lia.
  - destruct (Z.leb_spec (- Z.of_nat (length l)) i); [|discriminate].
    split; [lia|eapply nth_error_In; eassumption].
Qed.

(** A triangle whose normal could be computed is drawn with its three
    vertices. *)
Lemma render_triangle (verts : list Vec3) (tri : list Z) (n : Vec3) :
  length tri = 3%nat ->
  BasicViewer.face_normal verts tri = Some n ->
  exists vs,
    BasicViewer.render_face verts (firstn 3 tri) = Some vs /\
    length (drawn_vertices vs) = 3%nat /\
    Forall (fun v => In v verts) (drawn_vertices vs).
Proof.
  intros Hlen Hn.
  destruct tri as [|a [|b [|c [|d tri]]]]; try discriminate Hlen.
  unfold BasicViewer.face_normal in Hn.
  change (Py.getitem [a; b; c] 0) with (Some a) in Hn.
  change (Py.getitem [a; b; c] 1) with (Some b) in Hn.
  change (Py.getitem [a; b; c] 2) with (Some c) in Hn.
  cbn [bind] in Hn.
  destruct (Py.getitem verts a) as [va|] eqn:Ea; [|discriminate Hn].
  cbn [bind] in Hn.
  destruct (Py.getitem verts b) as [vb|] eqn:Eb; [|discriminate Hn].
  cbn [bind] in Hn.
  destruct (Py.getitem verts c) as [vc|] eqn:Ec; [|discriminate Hn].
  destruct (getitem_found _ _ _ Ea) as [Ra Ia].
  destruct (getitem_found _ _ _ Eb) as [Rb Ib].
  destruct (getitem_found _ _ _ Ec) as [Rc Ic].
  cbn [firstn BasicViewer.render_face].
  destruct (Z.ltb_spec a (Z.of_nat (length verts))); [|lia].
  destruct (Z.ltb_spec b (Z.of_nat (length verts))); [|lia].
  destruct (Z.ltb_spec c (Z.of_nat (length verts))); [|lia].
  rewrite Ea, Eb, Ec. cbn [bind].
  eexists. split; [reflexivity|].
  unfold glVertex3fv, drawn_vertices. cbn [flat_map app length].
  rewrite !vec_eta. split; [reflexivity|]. now repeat constructor.
Qed.

Lemma render_extracted_faces (self : BasicViewer.MeshData)
    (fs : list (list Z)) (ns : list Vec3) (i : nat) :
  Forall (fun tri => length tri = 3%nat) fs ->
  BasicViewer.normals_loop (BasicViewer.vertices self) fs = Some ns ->
  exists cs,
    BasicViewer.render_faces self i fs = Some cs /\
    length (drawn_vertices cs) = (3 * length fs)%nat /\
    Forall (fun v => In v (BasicViewer.vertices self)) (drawn_vertices cs).
Proof.
  intros Hfs. revert ns i.
  induction Hfs as [|tri fs Htri _ IH]; intros ns i Hns.
  - exists []. repeat split. constructor.
  - cbn [BasicViewer.normals_loop] in Hns. rewrite Htri in Hns.
    change (3 <=? 3)%nat with true in Hns. cbv iota in Hns.
    destruct (BasicViewer.face_normal (BasicViewer.vertices self) tri)
      as [n|] eqn:En; [|discriminate Hns].
    cbn [bind] in Hns.
    destruct (BasicViewer.normals_loop (BasicViewer.vertices self) fs)
      as [ns'|] eqn:Ens; [|discriminate Hns].
    destruct (render_triangle _ _ _ Htri En) as (vs & Hvs & Hlen & Hin).
    destruct (IH ns' (S i) eq_refl) as (cs & Hcs & Hclen & Hcin).
    cbn [BasicViewer.render_faces]. rewrite Hvs, Hcs. cbn [bind].
    eexists. split; [reflexivity|].
    rewrite !drawn_vertices_app.
    assert (Hn : drawn_vertices
                   (if (i <? length (BasicViewer.normals self))%nat
                    then match nth_error (BasicViewer.normals self) i with
                         | Some n0 => [glNormal3fv n0]
                         | None => []
                         end
                    else []) = []).
    { destruct (i <? length (BasicViewer.normals self))%nat; [|reflexivity].
      destruct (nth_error (BasicViewer.normals self) i); reflexivity. }
    rewrite Hn. cbn [app length]. rewrite length_app, Hlen, Hclen.
    split; [lia|]. apply Forall_app. now split.
Qed.

(** X25.  Extraction validates what rendering needs: every mesh that
    [extract_mesh_from_prim] returns is rendered by [Mesh.render] without an
    error, in both fill and wireframe mode, with exactly three vertices per
    face, each of them a stored vertex of the mesh.  (A face index out of
    range makes the extraction itself raise, in [compute_normals].) *)
Theorem extracted_mesh_renders_every_face :
  forall (prim : Prim) (m : BasicViewer.MeshData) (wire : bool),
    BasicViewer.extract_mesh_from_prim prim = Some m ->
    exists calls,
      BasicViewer.render m wire = Some calls /\
      length (drawn_vertices calls) = (3 * length (BasicViewer.faces m))%nat /\
      Forall (fun v => In v (BasicViewer.vertices m)) (drawn_vertices calls).
Proof.
  intros prim m wire Hm.
  unfold BasicViewer.extract_mesh_from_prim, BasicViewer.compute_normals in Hm.
  cbn [BasicViewer.vertices BasicViewer.faces BasicViewer.color
       BasicViewer.transform] in Hm.
  match type of Hm with
  | context [BasicViewer.normals_loop ?v ?f] =>
      set (verts := v) in *; set (fs := f) in *
  end.
  assert (Hfs : Forall (fun tri => length tri = 3%nat) fs).
  { unfold fs.
    destruct (faceVertexIndices prim) as [indices|]; [|constructor].
    destruct (faceVertexCounts prim) as [counts|]; [|constructor].
    destruct (Py.truthy (Some indices) && Py.truthy (Some counts));
      [|constructor].
    eapply Forall_impl; [|apply (extract_faces_triangles indices counts 0); lia].
    intros tri [Hlen _]. exact Hlen. }
  clearbody verts fs.
  destruct (BasicViewer.normals_loop verts fs) as [ns|] eqn:Hns;
    [|discriminate Hm].
  cbn [bind] in Hm. injection Hm as <-.
  match goal with
  | |- context [BasicViewer.render ?x] => set (mesh := x)
  end.
  destruct (render_extracted_faces mesh fs ns 0 Hfs Hns)
    as (cs & Hcs & Hlen & Hin).
  unfold BasicViewer.render.
  change (BasicViewer.faces mesh) with fs.
  change (BasicViewer.vertices mesh) with verts in *.
  rewrite Hcs. cbn [bind]. eexists. split; [reflexivity|].
  rewrite !drawn_vertices_app.
  assert (Hmode : forall c,
    drawn_vertices
      (if wire
       then [glPolygonMode GL_FRONT_AND_BACK GL_LINE; glColor3f 0.2 0.2 0.2]
       else [glPolygonMode GL_FRONT_AND_BACK GL_FILL; glColor3fv c]) = [])
    by (intros c; destruct wire; reflexivity).
  rewrite Hmode.
  change (drawn_vertices [glPushMatrix; glMultMatrixf _]) with (@nil Vec3).
  change (drawn_vertices [glBegin GL_TRIANGLES]) with (@nil Vec3).
  change (drawn_vertices [glEnd]) with (@nil Vec3).
  change (drawn_vertices [glPolygonMode GL_FRONT_AND_BACK GL_FILL; glPopMatrix])
    with (@nil Vec3).
  cbn [app]. rewrite app_nil_r. split; assumption.
Qed.

(** Witness for X25: the unit square, extracted and drawn as two
    triangles. *)
Lemma extracted_mesh_renders_every_face_witness :
  exists m calls,
    BasicViewer.extract_mesh_from_prim square_mesh = Some m /\
    BasicViewer.render m false = Some calls /\
    length (drawn_vertices calls) = (3 * length (BasicViewer.faces m))%nat.
Proof.
  destruct (compute_normals_spec
              (BasicViewer.mkMesh
                 [(0, 0, 0); (1, 0, 0); (1, 1, 0); (0, 1, 0)] []
                 [[0; 1; 2]; [0; 2; 3]]%Z (0.7, 0.7, 0.8)
                 (transpose eye4)))
    as (m & Hm & _).
  { repeat constructor; simpl; lia. }
  assert (He : BasicViewer.extract_mesh_from_prim square_mesh = Some m)
    by exact Hm.
  destruct (extracted_mesh_renders_every_face square_mesh m false He)
    as (calls & Hcalls & Hlen & _).
  exists m, calls. repeat split; assumption.
Defined.

(** ** The direction of the cone's side normals *)

Lemma lit_under (n : Vec3) (calls : list GLCall) :
  Forall (normal_is (fun m => m = n)) calls ->
  Forall (fun nv => fst nv = Some n) (lit_vertices calls (Some n)).
Proof.
  induction 1 as [|c calls Hc _ IH]; [constructor|].
  destruct c; cbn [lit_vertices]; try exact IH.
  - cbn [normal_is] in Hc. now rewrite Hc.
  - constructor; [reflexivity|exact IH].
Qed.

Lemma lit_cone_ring (radius height half_h : R) (slices : Z) (l : list Z)
    (rest : list GLCall) (cur : option Vec3) :
  exists cur',
    lit_vertices
      (flat_map (fun i =>
         let angle := 2 * PI * IZR i / IZR slices in
         let x := cos angle in
         let z := sin angle in
         [glNormal3f x (radius / height) z;
          glVertex3f (x * radius) (- half_h) (z * radius)]) l ++ rest) cur
    = map (fun i =>
         let angle := 2 * PI * IZR i / IZR slices in
         (Some (cos angle, radius / height, sin angle),
          (cos angle * radius, - half_h, sin angle * radius))) l
      ++ lit_vertices rest cur'.
Proof.
  revert cur. induction l as [|i l IH]; intros cur.
  - exists cur. reflexivity.
  - cbn [flat_map map app lit_vertices].
    destruct (IH (Some (cos (2 * PI * IZR i / IZR slices), radius / height,
                        sin (2 * PI * IZR i / IZR slices))))
      as (cur' & Hcur).
    exists cur'. cbv zeta in Hcur. cbv zeta. now rewrite Hcur.
Qed.

(** X26.  The side normals of [render_cone] point the right way: each rim
    vertex of the side fan is issued under a normal that is perpendicular
    both to the slant edge from that vertex to the apex and to the rim's
    tangent at the vertex, so only its length is off.  The apex itself is
    issued before any normal of the cone and is lit by whatever normal earlier
    drawing left; the base is issued under (0, -1, 0). *)
Theorem cone_side_normals_are_perpendicular_to_the_side :
  forall (self : PyQt6Viewer.GLViewport) (prim : Prim) (cur : option Vec3),
    let h := Py.or_default (height prim) 2.0 in
    let apex : Vec3 := (0, h / 2, 0) in
    exists ring base,
      lit_vertices (PyQt6Viewer.render_cone self prim) cur
      = (cur, apex) :: ring ++ base /\
      length ring = 25%nat /\
      Forall (fun nv => exists n,
                fst nv = Some n /\
                dot n (vsub apex (snd nv)) = 0 /\
                dot n (- vz (snd nv), 0, vx (snd nv)) = 0) ring /\
      Forall (fun nv => fst nv = Some (0, -1, 0)) base.
Proof.
  intros self prim cur h apex.
  assert (Hh : h <> 0) by (apply or_default_nonzero; lra).
  unfold PyQt6Viewer.render_cone, PyQt6Viewer.apply_transform. fold h.
  set (r := Py.or_default (radius prim) 1.0).
  unfold PyQt6Viewer.cone_side_calls, glColor3fv.
  cbn [app lit_vertices].
  rewrite <- app_assoc.
  destruct (lit_cone_ring r h (h / 2) 24 (Py.range 0 (24 + 1))
              ([glEnd] ++ PyQt6Viewer.bottom_cap_calls r (h / 2) 24
               ++ [glPopMatrix]) cur) as (cur' & Hring).
  cbv zeta in Hring. rewrite Hring. clear Hring.
  eexists _, _. split; [reflexivity|]. split; [|split].
  - rewrite length_map, range_length. reflexivity.
  - apply Forall_forall. intros nv Hnv. apply in_map_iff in Hnv.
    destruct Hnv as (i & <- & _). cbv zeta. cbn [fst snd].
    eexists. split; [reflexivity|].
    pose proof (sin2_cos2 (2 * PI * IZR i / IZR 24)) as Hsc.
    unfold Rsqr in Hsc.
    set (c := cos (2 * PI * IZR i / IZR 24)) in *.
    set (s := sin (2 * PI * IZR i / IZR 24)) in *.
    unfold dot, vsub, apex. cbn [vx vy vz fst snd]. split.
    + replace (c * (0 - c * r) + r / h * (h / 2 - - (h / 2))
               + s * (0 - s * r))
        with (r * (1 - (s * s + c * c))) by (field; exact Hh).
      rewrite Hsc. ring.
    + ring.
  - unfold PyQt6Viewer.bottom_cap_calls. cbn [app lit_vertices].
    constructor; [reflexivity|].
    apply lit_under. apply Forall_app. split.
    + apply Forall_app. split; [|repeat constructor].
      apply Forall_forall. intros c Hc. apply in_map_iff in Hc.
      destruct Hc as (i & <- & _). exact I.
    + repeat constructor.
Qed.

(** ** The cube's faces *)

(** X27.  For a cube of any size [s], the corners of every drawn triangle lie
    in the plane at distance [s / 2] along the normal issued for their face,
    so the issued normals point outward (for positive size); but the order in
    which the corners are issued runs the other way: the cross product of
    the triangle's two edges is [- s * s] times the issued normal, that is,
    every face is wound clockwise as seen from outside. *)
Theorem cube_faces_are_wound_against_their_normals :
  forall (self : PyQt6Viewer.GLViewport) (prim : Prim),
    let s := Py.or_default (size prim) 1.0 in
    let tris := gl_triangles (PyQt6Viewer.render_cube self prim) in
    length tris = 12%nat /\
    Forall (fun t : GLTriangle =>
              let p0 := gv_pos (fst (fst t)) in
              let p1 := gv_pos (snd (fst t)) in
              let p2 := gv_pos (snd t) in
              exists n,
                flat_shaded n t /\
                dot n p0 = s / 2 /\ dot n p1 = s / 2 /\ dot n p2 = s / 2 /\
                cross (vsub p1 p0) (vsub p2 p0)
                = (- (s * s) * vx n, - (s * s) * vy n, - (s * s) * vz n))
           tris.
Proof.
  intros self prim s tris.
  unfold tris, PyQt6Viewer.render_cube. fold s.
  unfold gl_triangles, PyQt6Viewer.cube_vertices, flat_shaded.
  cbn [PyQt6Viewer.apply_transform PyQt6Viewer.cube_faces
       PyQt6Viewer.cube_face_calls flat_map map app nth fst snd
       glNormal3fv glVertex3fv glColor3fv vx vy vz assemble asm_vertex
       length gv_pos gv_normal].
  split; [reflexivity|].
  repeat (apply Forall_cons;
          [cbv zeta; cbn [gv_pos gv_normal fst snd];
           eexists; split; [split; [reflexivity|split; reflexivity]|];
           unfold dot, cross, vsub; cbn [vx vy vz fst snd];
           split; [lra|split; [lra|split; [lra|]]];
           apply vec_eq; field|]).
  constructor.
Qed.

(** ** [Mesh.render] on meshes that break the index invariant *)

Lemma drawn_normals_app (a b : list GLCall) :
  drawn_normals (a ++ b) = drawn_normals a ++ drawn_normals b.
Proof. apply flat_map_app. Qed.

Lemma skipn_step {A : Type} (l : list A) (i : nat) (x : A) :
  nth_error l i = Some x -> skipn i l = x :: skipn (S i) l.
Proof.
  revert i. induction l as [|y l IH]; intros [|i] H; try discriminate H.
  - injection H as ->. reflexivity.
  - cbn [nth_error] in H. cbn [skipn]. now apply IH.
Qed.

(** The guard of [render]: an index at or above the vertex count is passed
    over, any other one draws the vertex it names. *)
Lemma render_face_skips (verts : list Vec3) (idxs : list Z) :
  Forall (fun k => (- Z.of_nat (length verts) <= k)%Z) idxs ->
  exists cs,
    BasicViewer.render_face verts idxs = Some cs /\
    Forall (fun v => In v verts) (drawn_vertices cs) /\
    length (drawn_vertices cs)
    = length (filter (fun k => (k <? Z.of_nat (length verts))%Z) idxs) /\
    drawn_normals cs = [].
Proof.
  induction 1 as [|k idxs Hk _ (cs & Hcs & Hin & Hlen & Hn)].
  - exists []. repeat split. constructor.
  - cbn [BasicViewer.render_face filter].
    destruct (Z.ltb_spec k (Z.of_nat (length verts))).
    + destruct (getitem_some verts k) as (v & Hv); [lia|].
      rewrite Hv, Hcs. cbn [bind]. eexists. split; [reflexivity|].
      destruct (getitem_found _ _ _ Hv) as [_ Hmem].
      unfold glVertex3fv.
      change (drawn_vertices (glVertex3f (vx v) (vy v) (vz v) :: cs))
        with ((vx v, vy v, vz v) :: drawn_vertices cs).
      change (drawn_normals (glVertex3f (vx v) (vy v) (vz v) :: cs))
        with (drawn_normals cs).
      rewrite vec_eta. cbn [length]. rewrite Hlen.
      split; [now constructor|]. now split.
    + exists cs. now repeat split.
Qed.

Lemma render_faces_skip (self : BasicViewer.MeshData) (fs : list (list Z))
    (i : nat) :
  Forall (Forall (fun k => (- Z.of_nat (length (BasicViewer.vertices self))
                            <= k)%Z)) fs ->
  exists cs,
    BasicViewer.render_faces self i fs = Some cs /\
    Forall (fun v => In v (BasicViewer.vertices self)) (drawn_vertices cs) /\
    length (drawn_vertices cs)
    = length (filter (fun k => (k <? Z.of_nat
                                       (length (BasicViewer.vertices self)))%Z)
                     (flat_map (firstn 3) fs)) /\
    drawn_normals cs = firstn (length fs) (skipn i (BasicViewer.normals self)).
Proof.
  intros H. revert i. induction H as [|face fs Hface _ IH]; intros i.
  - exists []. repeat split. constructor.
  - cbn [BasicViewer.render_faces].
    destruct (render_face_skips (BasicViewer.vertices self) (firstn 3 face))
      as (vs & Hvs & Hvin & Hvlen & Hvn).
    { apply Forall_forall. intros k Hk.
      rewrite Forall_forall in Hface. apply Hface.
      rewrite <- (firstn_skipn 3 face). apply in_or_app. now left. }
    destruct (IH (S i)) as (cs & Hcs & Hcin & Hclen & Hcn).
    rewrite Hvs, Hcs. cbn [bind]. eexists. split; [reflexivity|].
    rewrite !drawn_vertices_app, !drawn_normals_app, Hvn, Hcn.
    cbn [flat_map length]. rewrite filter_app, !length_app, Hvlen, Hclen.
    destruct (Nat.ltb_spec i (length (BasicViewer.normals self))) as [Hi|Hi].
    + destruct (nth_error (BasicViewer.normals self) i) as [n|] eqn:En;
        [|apply nth_error_None in En; lia].
      rewrite (skipn_step _ _ _ En).
      unfold glNormal3fv, drawn_vertices, drawn_normals.
      cbn [flat_map app firstn]. rewrite vec_eta.
      split; [now apply Forall_app|]. now split.
    + rewrite (skipn_all2 (BasicViewer.normals self)) by lia.
      rewrite (skipn_all2 (BasicViewer.normals self)) by lia.
      rewrite !firstn_nil. cbn [drawn_vertices drawn_normals flat_map app].
      split; [now apply Forall_app|]. now split.
Qed.

(** [compute_normals] has indexed the three vertices of every triangle, so
    what it hands on has no index below the range. *)
Lemma computed_no_index_below (source self : BasicViewer.MeshData) :
  computed source self -> no_index_below self.
Proof.
  intros [Htri Hc]. unfold BasicViewer.compute_normals in Hc.
  destruct (BasicViewer.normals_loop (BasicViewer.vertices source)
                                     (BasicViewer.faces source))
    as [ns|] eqn:Hns; [|discriminate Hc].
  cbn [bind] in Hc. injection Hc as <-.
  unfold no_index_below. cbn [BasicViewer.vertices BasicViewer.faces].
  revert ns Hns. induction Htri as [|tri fs Hlen _ IH]; intros ns Hns;
    [constructor|].
  cbn [BasicViewer.normals_loop] in Hns. rewrite Hlen in Hns.
  change (3 <=? 3)%nat with true in Hns. cbv iota in Hns.
  destruct (BasicViewer.face_normal (BasicViewer.vertices source) tri)
    as [n|] eqn:En; [|discriminate Hns].
  cbn [bind] in Hns.
  destruct (BasicViewer.normals_loop (BasicViewer.vertices source) fs)
    as [ns'|] eqn:Ens; [|discriminate Hns].
  constructor; [|now apply (IH ns')].
  destruct tri as [|a [|b [|c [|d tri]]]]; try discriminate Hlen.
  unfold BasicViewer.face_normal in En.
  change (Py.getitem [a; b; c] 0) with (Some a) in En.
  change (Py.getitem [a; b; c] 1) with (Some b) in En.
  change (Py.getitem [a; b; c] 2) with (Some c) in En.
  cbn [bind] in En.
  destruct (Py.getitem (BasicViewer.vertices source) a) as [va|] eqn:Ea;
    [|discriminate En].
  cbn [bind] in En.
  destruct (Py.getitem (BasicViewer.vertices source) b) as [vb|] eqn:Eb;
    [|discriminate En].
  cbn [bind] in En.
  destruct (Py.getitem (BasicViewer.vertices source) c) as [vc|] eqn:Ec;
    [|discriminate En].
  destruct (getitem_found _ _ _ Ea) as [Ra _].
  destruct (getitem_found _ _ _ Eb) as [Rb _].
  destruct (getitem_found _ _ _ Ec) as [Rc _].
  repeat constructor; lia.
Qed.

(** C10, amended.  For every mesh that has no face index below
    [-len(vertices)], and so for every mesh that [compute_normals] has
    handed on, [Mesh.render] completes and reads nothing outside the stored
    arrays: each vertex it draws is a stored one, it draws one vertex for
    each of a face's first three indices that is less than the vertex count
    and passes over the others, and it issues the stored normal of each
    face whose position is less than the normals count and none for the
    faces after. *)
Theorem render_skips_what_lies_past_the_arrays :
  forall (source self : BasicViewer.MeshData) (wireframe : bool),
    no_index_below self \/ computed source self ->
    exists calls,
      BasicViewer.render self wireframe = Some calls /\
      Forall (fun v => In v (BasicViewer.vertices self))
             (drawn_vertices calls) /\
      length (drawn_vertices calls)
      = length (filter (fun k => (k <? Z.of_nat
                                         (length (BasicViewer.vertices self)))%Z)
                       (flat_map (firstn 3) (BasicViewer.faces self))) /\
      drawn_normals calls
      = firstn (length (BasicViewer.faces self)) (BasicViewer.normals self).
Proof.
  intros source self wireframe H.
  assert (Hlow : no_index_below self)
    by (destruct H as [H|H]; [exact H|exact (computed_no_index_below _ _ H)]).
  destruct (render_faces_skip self (BasicViewer.faces self) 0 Hlow)
    as (cs & Hcs & Hin & Hlen & Hn).
  unfold BasicViewer.render. rewrite Hcs. cbn [bind].
  eexists. split; [reflexivity|].
  rewrite !drawn_vertices_app, !drawn_normals_app.
  assert (Hmode : forall c,
    drawn_vertices
      (if wireframe
       then [glPolygonMode GL_FRONT_AND_BACK GL_LINE; glColor3f 0.2 0.2 0.2]
       else [glPolygonMode GL_FRONT_AND_BACK GL_FILL; glColor3fv c]) = [] /\
    drawn_normals
      (if wireframe
       then [glPolygonMode GL_FRONT_AND_BACK GL_LINE; glColor3f 0.2 0.2 0.2]
       else [glPolygonMode GL_FRONT_AND_BACK GL_FILL; glColor3fv c]) = [])
    by (intros c; destruct wireframe; split; reflexivity).
  rewrite (proj1 (Hmode _)), (proj2 (Hmode _)).
  change (drawn_vertices [glPushMatrix; glMultMatrixf _]) with (@nil Vec3).
  change (drawn_vertices [glBegin GL_TRIANGLES]) with (@nil Vec3).
  change (drawn_vertices [glEnd]) with (@nil Vec3).
  change (drawn_vertices [glPolygonMode GL_FRONT_AND_BACK GL_FILL; glPopMatrix])
    with (@nil Vec3).
  change (drawn_normals [glPushMatrix; glMultMatrixf _]) with (@nil Vec3).
  change (drawn_normals [glBegin GL_TRIANGLES]) with (@nil Vec3).
  change (drawn_normals [glEnd]) with (@nil Vec3).
  change (drawn_normals [glPolygonMode GL_FRONT_AND_BACK GL_FILL; glPopMatrix])
    with (@nil Vec3).
  cbn [app]. rewrite !app_nil_r.
  split; [exact Hin|]. split; [exact Hlen|]. exact Hn.
Qed.

(** Witness for C10: the mesh of one vertex whose face names the vertices 5,
    0 and 7 and which stores no normal; only vertex 0 is drawn, under no
    normal. *)
Lemma render_skips_what_lies_past_the_arrays_witness :
  exists calls,
    BasicViewer.render overshoot_mesh false = Some calls /\
    length (drawn_vertices calls) = 1%nat /\
    drawn_normals calls = [].
Proof.
  destruct (render_skips_what_lies_past_the_arrays
              overshoot_mesh overshoot_mesh false)
    as (calls & Hcalls & _ & Hlen & Hn).
  - left. repeat constructor; simpl; lia.
  - exists calls. split; [exact Hcalls|]. split; [exact Hlen|exact Hn].
Defined.

(** C10 as stated fails: [Mesh.render] is not total on every mesh.  The guard
    has no lower bound, so for [stray_index_mesh], whose face names vertex -2
    with one vertex stored, [-2 < 1] passes and [self.vertices[-2]] raises
    [IndexError]. *)
Lemma render_raises_below_the_vertex_range :
  ~ (forall (self : BasicViewer.MeshData) (wireframe : bool),
       exists calls, BasicViewer.render self wireframe = Some calls).
Proof.
  intros H. destruct (H stray_index_mesh false) as (calls & Hcalls).
  assert (E : BasicViewer.render stray_index_mesh false = None)
    by reflexivity.
  rewrite E in Hcalls. discriminate Hcalls.
Qed.
